(** * University data warehouse: generator and ETL pipeline

    A shallow embedding of the dimension generator ([gd.py]) and of the ETL
    pipeline ([Ai_analytics.py], section "etl main.py"): the date dimension
    and its date key, the Dimension Transformer, the Schema Manager, the
    Loader, the Fact Synthesizer and the SQL type helper.

    Conventions.
    - Integers of Python are [Z]; floats are modelled by exact rationals [Q]
      with an explicit not-a-number case where the code can meet one.
    - A calendar date that pandas holds as a Timestamp is its proleptic
      ordinal (a [Z]); [None] is NaT.
    - Every use of randomness reads the next value of an explicit source, so
      that "for all random draws" is a quantification over sources.
    - A Python exception is [None] in the [Rand] monad. *)

From stdpp Require Import base numbers gmap list strings pretty.
From Stdlib Require Import ZArith QArith Qround Lia Lqa Ascii.

Open Scope Z_scope.

(* ===================================================================== *)
(** * Randomness: module [random] (and numpy's generator behind pandas)   *)
(* ===================================================================== *)

Module Rng.

(** The source of entropy: [raw] feeds [random()], [randint], [choice] and
    pandas' [sample]; [normal] feeds the standard normal deviate of
    [random.gauss].  [pos] counts the values consumed so far. *)
Record rng := mk_rng {
  raw : N -> N;
  normal : N -> Q;
  pos : N
}.

(** Computations that draw random values and may raise. *)
Definition Rand (A : Type) : Type := rng -> option (A * rng).

Definition ret {A} (a : A) : Rand A := fun g => Some (a, g).

Definition bind {A B} (m : Rand A) (k : A -> Rand B) : Rand B :=
  fun g => match m g with
           | Some (a, g') => k a g'
           | None => None
           end.

Definition raise {A} : Rand A := fun _ => None.

(** A step that draws nothing and may raise. *)
Definition lift {A} (o : option A) : Rand A :=
  fun g => match o with
           | Some a => Some (a, g)
           | None => None
           end.

Definition next_raw : Rand N :=
  fun g => Some (raw g (pos g), mk_rng (raw g) (normal g) (N.succ (pos g))).

Definition next_normal : Rand Q :=
  fun g => Some (normal g (pos g), mk_rng (raw g) (normal g) (N.succ (pos g))).

Module Import Notations.
  Notation "'let*' x ':=' m 'in' k" := (bind m (fun x => k))
    (at level 10, x name, m at level 100, k at level 200).
End Notations.

(** [random.random()]: a 53-bit integer divided by 2^53, so in [0, 1). *)
Definition random_random : Rand Q :=
  let* k := next_raw in
  ret (Z.of_N (k mod 2 ^ 53) # 2 ^ 53)%Q.

(** [random.uniform(a, b)] is [a + (b - a) * random()]. *)
Definition uniform_of (a b u : Q) : Q := (a + (b - a) * u)%Q.

Definition random_uniform (a b : Q) : Rand Q :=
  let* u := random_random in
  ret (uniform_of a b u).

(** [random.randint(a, b)]: [ValueError] on an empty range, else
    [a + _randbelow(b - a + 1)]. *)
Definition randint_of (a b : Z) (k : N) : Z := a + Z.of_N k mod (b - a + 1).

Definition random_randint (a b : Z) : Rand Z :=
  if Z.leb a b then let* k := next_raw in ret (randint_of a b k)
  else raise.

(** [random.choice(seq)]: [IndexError] on an empty sequence, else
    [seq[_randbelow(len(seq))]]. *)
Definition choice_of {A} (l : list A) (k : N) : option A :=
  nth_error l (N.to_nat (k mod N.of_nat (length l))).

Definition random_choice {A} (l : list A) : Rand A :=
  match l with
  | [] => raise
  | _ => let* k := next_raw in
         match choice_of l k with
         | Some x => ret x
         | None => raise
         end
  end.

(** [random.gauss(mu, sigma)]: [mu + z * sigma] for a standard normal [z]. *)
Definition random_gauss (mu sigma : Q) : Rand Q :=
  let* z := next_normal in
  ret (mu + z * sigma)%Q.

(** [xs.apply(f)] for an [f] that draws: rows are visited in order. *)
Fixpoint mapM {A B} (f : A -> Rand B) (l : list A) : Rand (list B) :=
  match l with
  | [] => ret []
  | x :: xs => let* y := f x in let* ys := mapM f xs in ret (y :: ys)
  end.

(** A source with constant values, for concrete runs. *)
Definition const_rng (k : N) (z : Q) : rng := mk_rng (fun _ => k) (fun _ => z) 0%N.

End Rng.

Import Rng.Notations.

(* ===================================================================== *)
(** * gd.py: the date dimension and its date key                          *)
(* ===================================================================== *)

Module DateDim.

(** [datetime.date]. *)
Record date := mk_date { year : Z; month : Z; day : Z }.

Definition MINYEAR : Z := 1.
Definition MAXYEAR : Z := 9999.

Definition is_leap (y : Z) : bool :=
  (y mod 4 =? 0) && (negb (y mod 100 =? 0) || (y mod 400 =? 0)).

Definition days_in_month (y m : Z) : Z :=
  if m =? 2 then (if is_leap y then 29 else 28)
  else if (m =? 4) || (m =? 6) || (m =? 9) || (m =? 11) then 30
  else 31.

(** The values a [datetime.date] can hold. *)
Definition valid_date (d : date) : bool :=
  (MINYEAR <=? year d) && (year d <=? MAXYEAR) &&
  (1 <=? month d) && (month d <=? 12) &&
  (1 <=? day d) && (day d <=? days_in_month (year d) (month d)).

(** [d + timedelta(days=1)]; [OverflowError] after 9999-12-31. *)
Definition date_succ (d : date) : option date :=
  if day d <? days_in_month (year d) (month d)
  then Some (mk_date (year d) (month d) (day d + 1))
  else if month d <? 12 then Some (mk_date (year d) (month d + 1) 1)
  else if year d <? MAXYEAR then Some (mk_date (year d + 1) 1 1)
  else None.

(** [d - timedelta(days=1)]; [OverflowError] before 0001-01-01. *)
Definition date_pred (d : date) : option date :=
  if 1 <? day d then Some (mk_date (year d) (month d) (day d - 1))
  else if 1 <? month d
       then Some (mk_date (year d) (month d - 1) (days_in_month (year d) (month d - 1)))
  else if MINYEAR <? year d then Some (mk_date (year d - 1) 12 31)
  else None.

(** [d - timedelta(days=n)]. *)
Fixpoint date_sub_days (n : nat) (d : date) : option date :=
  match n with
  | O => Some d
  | S n' => match date_pred d with
            | Some d' => date_sub_days n' d'
            | None => None
            end
  end.

(** [d1 <= d2] on dates. *)
Definition date_leb (a b : date) : bool :=
  (year a <? year b) ||
  ((year a =? year b) &&
   ((month a <? month b) || ((month a =? month b) && (day a <=? day b)))).

(** ** [strftime("%Y%m%d")] and [int(...)] *)

Definition digit (k : Z) : ascii := ascii_of_nat (48 + Z.to_nat k).

Definition digit_val (c : ascii) : Z := Z.of_nat (nat_of_ascii c) - 48.

(** [%m] and [%d]: two digits, zero padded. *)
Definition pad2 (n : Z) : string :=
  String (digit (n / 10 mod 10)) (String (digit (n mod 10)) EmptyString).

(** [%Y]: four digits, zero padded (a C library that does not pad a year
    below 1000 prints a string with the same value under [int]). *)
Definition pad4 (n : Z) : string :=
  String (digit (n / 1000 mod 10)) (String (digit (n / 100 mod 10)) (pad2 n)).

Definition strftime_Ymd (d : date) : string :=
  pad4 (year d) +:+ pad2 (month d) +:+ pad2 (day d).

(** [int(s)] on a string of decimal digits. *)
Fixpoint int_of_digits (acc : Z) (s : string) : Z :=
  match s with
  | EmptyString => acc
  | String c s' => int_of_digits (10 * acc + digit_val c) s'
  end.

Definition int_of_string (s : string) : Z := int_of_digits 0 s.

(** ["date_key": int(d.strftime("%Y%m%d"))]. *)
Definition date_key (d : date) : Z := int_of_string (strftime_Ymd d).

(** The inverse that the specification names: read the three fields back
    from the decimal positions of the key.  The repository has no decoder;
    this is the function whose existence the round trip asserts. *)
Definition decode_date_key (k : Z) : date :=
  mk_date (k / 10000) (k / 100 mod 100) (k mod 100).

(** ** The generated range *)

(** One row of [dim_date.csv] (the columns [week], [weekday] and
    [is_weekend] depend on the day of the week only and are left out). *)
Record date_row := mk_date_row {
  r_date_key : Z;
  r_date : date;
  r_year : Z;
  r_quarter : Z;
  r_month : Z;
  r_day : Z;
  r_semester : string * Z   (* f"{sem} {d.year}" *)
}.

Definition semester_name (m : Z) : string :=
  if (m =? 1) || (m =? 2) || (m =? 3) || (m =? 4) then "Spring"
  else if (m =? 5) || (m =? 6) || (m =? 7) || (m =? 8) then "Summer"
  else "Fall".

Definition make_row (d : date) : date_row :=
  mk_date_row (date_key d) d (year d) ((month d - 1) / 3 + 1) (month d) (day d)
              (semester_name (month d), year d).

(** [while d <= end: dates.append(...); d = d + timedelta(days=1)].
    [None] is an exception or an exhausted iteration budget. *)
Fixpoint date_loop (fuel : nat) (d end_ : date) : option (list date_row) :=
  match fuel with
  | O => None
  | S f =>
      if date_leb d end_ then
        match date_succ d with
        | Some d' => match date_loop f d' end_ with
                     | Some rows => Some (make_row d :: rows)
                     | None => None
                     end
        | None => None
        end
      else Some []
  end.

(** [start = today - timedelta(days=365*3); end = today]. *)
Definition generate_dates (fuel : nat) (today : date) : option (list date_row) :=
  match date_sub_days (365 * 3) today with
  | Some start => date_loop fuel start today
  | None => None
  end.

End DateDim.

(* ===================================================================== *)
(** * Python numbers: floats with NaN, [max], [min], [round]              *)
(* ===================================================================== *)

Module PyNum.

Local Open Scope Q_scope.

(** A float: a rational or not-a-number.  The infinities are left out;
    every range test below treats them as it treats any number out of
    range. *)
Inductive pyfloat :=
| Fin (q : Q)
| NaN.

(** [x < y] and [x > y]: every comparison with NaN is [False]. *)
Definition float_ltb (x y : pyfloat) : bool :=
  match x, y with
  | Fin a, Fin b => match Qcompare a b with Lt => true | _ => false end
  | _, _ => false
  end.

Definition float_gtb (x y : pyfloat) : bool := float_ltb y x.

Definition Qltb (a b : Q) : bool :=
  match Qcompare a b with Lt => true | _ => false end.

(** [max(a, b)] keeps its first argument unless the second is greater;
    [min(a, b)] keeps its first argument unless the second is smaller. *)
Definition py_max (a b : Q) : Q := if Qltb a b then b else a.
Definition py_min (a b : Q) : Q := if Qltb b a then b else a.

(** Round to the nearest integer, ties to the even one. *)
Definition round_half_even (q : Q) : Z :=
  let f := Qfloor q in
  match Qcompare (q - inject_Z f) (1 # 2) with
  | Lt => f
  | Gt => (f + 1)%Z
  | Eq => if Z.even f then f else (f + 1)%Z
  end.

(** [round(x, ndigits)]. *)
Definition py_round (x : Q) (ndigits : nat) : Q :=
  let scale := (10 ^ Z.of_nat ndigits)%Z in
  inject_Z (round_half_even (x * inject_Z scale)) / inject_Z scale.

Definition float_round (x : pyfloat) (ndigits : nat) : pyfloat :=
  match x with
  | Fin q => Fin (py_round q ndigits)
  | NaN => NaN
  end.

(** [int(x)] on a finite float: the fraction is cut off, towards zero. *)
Definition py_int (q : Q) : Z := Z.quot (Qnum q) (Z.pos (Qden q)).

(** [a <= x <= b] on floats, as a proposition: NaN is in no interval. *)
Definition float_in (lo hi : Q) (x : pyfloat) : Prop :=
  match x with
  | Fin q => lo <= q /\ q <= hi
  | NaN => False
  end.

End PyNum.

(* ===================================================================== *)
(** * Ai_analytics.py: [ensure_sql_types_before_load]                     *)
(* ===================================================================== *)

Module Frame.

(** A pandas Timestamp: local calendar day, time of day, optional zone. *)
Record timestamp := mk_timestamp {
  ts_day : Z;
  ts_nanos : Z;
  ts_tz : option Z
}.

(** A value held in a column. *)
Inductive cell :=
| CInt (z : Z)
| CFloat (f : PyNum.pyfloat)
| CStr (s : string)
| CBool (b : bool)
| CDate (day : Z)                  (* datetime.date: no time, no zone *)
| CTimestamp (t : timestamp)
| CNull.                           (* None / NaT *)

(** A column label: a text, or any other hashable value (an integer
    position, a tuple), told apart by a number. *)
Inductive label :=
| Name (s : string)
| Other (n : Z).

#[global] Instance label_eq_dec : EqDecision label.
Proof. solve_decision. Defined.

(** A DataFrame: its columns in order, each a label and its values.  A
    label may occur more than once. *)
Definition dataframe := list (label * list cell).

Definition df_columns (df : dataframe) : list label := map fst df.

(** [df[col]]: the values of every column with that label.  One column is
    a Series, several are a DataFrame. *)
Definition df_get (col : label) (df : dataframe) : list (list cell) :=
  map snd (List.filter (fun cd => bool_decide (fst cd = col)) df).

(** The number of columns with that label. *)
Definition occurrences (col : label) (df : dataframe) : nat := length (df_get col df).

(** [df[col] = data] for a label that exists: the values are replaced, the
    label keeps its place. *)
Definition df_set (col : label) (data : list cell) (df : dataframe) : dataframe :=
  map (fun cd => if bool_decide (fst cd = col) then (fst cd, data) else cd) df.

(** DataFrames are mutable objects: the heap maps a reference to the
    frame it currently holds. *)
Notation loc := positive (only parsing).
Notation heap := (gmap positive dataframe) (only parsing).

(** [s.endswith(suffix)]: some tail of [s] is [suffix]. *)
Fixpoint endswith (s suffix : string) : bool :=
  if String.eqb s suffix then true
  else match s with
       | EmptyString => false
       | String _ s' => endswith s' suffix
       end.

(** [col == 'date' or col.endswith('_date') or col.endswith('_at')] on a
    text label. *)
Definition is_date_column (col : string) : bool :=
  String.eqb col "date" || endswith col "_date" || endswith col "_at".

(** [pd.to_datetime(series, errors='coerce')] is not code of the
    repository: a conversion gives, for the values of one column, a
    Timestamp each, NaT ([None]) for a value that does not convert; on some
    columns pandas raises instead (text with mixed UTC offsets), and the
    conversion is [None]. *)
Definition conversion := list cell -> option (list (option timestamp)).

(** [.dt.date]: the calendar day of a Timestamp, without time and zone. *)
Definition date_of (t : option timestamp) : cell :=
  match t with
  | Some t => CDate (ts_day t)
  | None => CNull
  end.

Section EnsureSqlTypes.

Variable to_datetime : conversion.

(** [pd.to_datetime(df[col], errors='coerce').dt.date] on what [df[col]]
    selects.  For a DataFrame (a label that occurs more than once)
    [to_datetime] looks for the columns [year], [month] and [day] and
    raises ValueError. *)
Definition to_dates (selected : list (list cell)) : option (list cell) :=
  match selected with
  | [data] => match to_datetime data with
              | Some ts => Some (map date_of ts)
              | None => None
              end
  | _ => None
  end.

(** The loop body run for every label of [df.columns], on the frame held
    by the reference [l]. *)
Fixpoint convert_columns (cols : list label) (l : loc) (h : heap) : option heap :=
  match cols with
  | [] => Some h
  | Other _ :: _ => None                      (* col.endswith: AttributeError *)
  | Name s :: rest =>
      if is_date_column s then
        match h !! l with
        | Some df =>
            match to_dates (df_get (Name s) df) with
            | Some dates => convert_columns rest l (<[l := df_set (Name s) dates df]> h)
            | None => None
            end
        | None => None
        end
      else convert_columns rest l h
  end.

(** [ensure_sql_types_before_load(df)]: [df] is a reference; the result is
    the reference of the converted copy and the new heap. *)
Definition ensure_sql_types_before_load (df : loc) (h : heap) : option (loc * heap) :=
  match h !! df with
  | Some frame =>
      let copy := fresh (dom h) in                           (* df = df.copy() *)
      let h1 := <[copy := frame]> h in
      match convert_columns (df_columns frame) copy h1 with
      | Some h2 => Some (copy, h2)
      | None => None
      end
  | None => None
  end.

(** Specification relations for the result.  A column [cd'] is the
    converted column [cd] of [frame]: the label is kept and is a text; the
    values are kept under a label that is not date-like; under a date-like
    label, which then occurs once in the frame, they are the dates of the
    values.  A column cannot be converted when its label is not a text,
    or is date-like and occurs more than once or makes pandas raise. *)
Definition converted_from (frame : dataframe) (cd cd' : label * list cell) : Prop :=
  fst cd' = fst cd /\
  exists s, fst cd = Name s /\
    if is_date_column s
    then occurrences (Name s) frame = 1%nat /\
         exists ts, to_datetime (snd cd) = Some ts /\ snd cd' = map date_of ts
    else snd cd' = snd cd.

Definition not_convertible (frame : dataframe) (cd : label * list cell) : Prop :=
  match fst cd with
  | Other _ => True
  | Name s => is_date_column s = true /\
              (occurrences (Name s) frame <> 1%nat \/ to_datetime (snd cd) = None)
  end.

End EnsureSqlTypes.

End Frame.

(* ===================================================================== *)
(** * Rows of the dimension tables                                        *)
(* ===================================================================== *)

(** The columns that the cleaning rules and the fact rules read or write.
    Name, city, e-mail and phone columns are only trimmed and re-cased by
    the pipeline and are not represented. *)

Module Department.
Record t := mk {
  department_id : Z;
  department_name : string;
  manager_id : option Z          (* None: missing *)
}.
End Department.

Module Student.
(** What the admission year column can hold after [pd.read_csv]: a number
    when every field of the column is one, else the text of the field. *)
Inductive year :=
| Year (q : Q)                   (* an int64 or a finite float64 *)
| Year_nan                       (* an empty field *)
| Year_inf                       (* inf or -inf *)
| Year_text (text : string) (value : option Z).
                                 (* text, with int(text); None: int raises ValueError *)

(** A row of [dim_student.csv] as read by [pd.read_csv]. *)
Record csv := mk_csv {
  csv_student_id : Z;
  csv_birth_date : option Z;     (* to_datetime(..., errors='coerce'): day ordinal, None is NaT *)
  csv_admission_year : year;
  csv_program : string;
  csv_created_at : Frame.cell    (* the text of the field, null for an empty field *)
}.
(** A cleaned row. *)
Record t := mk {
  student_id : Z;
  birth_date : option Z;
  admission_year : year;
  program : string;
  age : Z;
  created_at : Frame.cell        (* text until the loader turns it into a date *)
}.

(** [lo <= y <= hi] for an admission year: a number in the interval. *)
Definition year_in (lo hi : Z) (y : year) : Prop :=
  match y with
  | Year q => (inject_Z lo <= q /\ q <= inject_Z hi)%Q
  | _ => False
  end.
End Student.

Module Employee.
(** What [pd.read_csv] can put in the salary column. *)
Inductive csv_number :=
| Number (f : PyNum.pyfloat)     (* a float, NaN for an empty field *)
| Unparsable (text : string).    (* text on which float() raises *)

Record csv := mk_csv {
  csv_employee_id : Z;
  csv_job_title : option string; (* None: missing *)
  csv_salary : csv_number;
  csv_department_id : Z;
  csv_manager_id : option Z;
  csv_hire_date : option Z
}.
Record t := mk {
  employee_id : Z;
  job_title : option string;
  salary : PyNum.pyfloat;
  department_id : Z;
  manager_id : Z;
  hire_date : option Z;
  tenure_years : Q
}.
End Employee.

Module Course.
Record t := mk {
  course_id : Z;
  course_level : option string;
  credit_hours : Z
}.
End Course.

Module Account.
Record t := mk {
  account_id : Z;
  account_type : string;
  category : string
}.
End Account.

Module Vendor.
Record t := mk {
  vendor_id : Z;
  vendor_name : string
}.
End Vendor.

Module DateRow.
(** A row of [dim_date] as read back by [pd.read_sql]. *)
Record t := mk {
  date_key : Z;
  date : option Z;               (* day ordinal, None is NaT *)
  month : Z
}.
End DateRow.

(* ===================================================================== *)
(** * Ai_analytics.py: [transform_dimensions]                             *)
(* ===================================================================== *)

Module Transformer.

Import PyNum.

(** The clock of the run: [datetime.datetime.now().year] and the day
    ordinal of [pd.to_datetime('today')]. *)
Record clock := mk_clock {
  current_year : Z;
  today : Z
}.

(** [drop_duplicates(subset=[key])]: the first row of every key is kept. *)
Fixpoint drop_duplicates_from {A} (key : A -> Z) (seen : gset Z) (l : list A) : list A :=
  match l with
  | [] => []
  | x :: xs =>
      if bool_decide (key x ∈ seen) then drop_duplicates_from key seen xs
      else x :: drop_duplicates_from key ({[key x]} ∪ seen) xs
  end.

Definition drop_duplicates {A} (key : A -> Z) (l : list A) : list A :=
  drop_duplicates_from key ∅ l.

(** [((today - date).dt.days / 365.25)]: whole days between the two
    dates over 365.25, i.e. [4 * days / 1461]. *)
Definition years_since (today d : Z) : Q := (4 * (today - d) # 1461)%Q.

(** ** Departments *)

(** [lambda x: x if x in valid_manager_ids else 0]. *)
Definition fix_manager_id (valid_manager_ids : gset Z) (x : option Z) : option Z :=
  match x with
  | Some m => if bool_decide (m ∈ valid_manager_ids) then Some m else Some 0
  | None => Some 0
  end.

Definition transform_departments (employees : list Employee.csv)
    (departments : list Department.t) : list Department.t :=
  let valid_manager_ids : gset Z :=
    list_to_set (map Employee.csv_employee_id employees) ∪ {[0]} in
  map (fun d => Department.mk (Department.department_id d)
                              (Department.department_name d)
                              (fix_manager_id valid_manager_ids (Department.manager_id d)))
      departments.

(** ** Students *)

(** [random.randint(2019, current_year)] as a value of the column. *)
Definition draw_admission_year (current_year : Z) : Rng.Rand Student.year :=
  let* y := Rng.random_randint 2019 current_year in
  Rng.ret (Student.Year (inject_Z y)).

(** [lambda x: x if pd.notna(x) and 2000 <= int(x) <= current_year
               else random.randint(2019, current_year)].
    The test is on [int(x)], the value kept is [x].  [int] cuts the
    fraction of a float off, raises OverflowError on an infinity and
    ValueError on text that is not an integer. *)
Definition fix_admission_year (current_year : Z) (x : Student.year)
    : Rng.Rand Student.year :=
  let keep_if (n : Z) : Rng.Rand Student.year :=
    if (2000 <=? n) && (n <=? current_year) then Rng.ret x
    else draw_admission_year current_year in
  match x with
  | Student.Year q => keep_if (PyNum.py_int q)
  | Student.Year_nan => draw_admission_year current_year     (* pd.notna(x) is False *)
  | Student.Year_inf => Rng.raise
  | Student.Year_text _ (Some n) => keep_if n
  | Student.Year_text _ None => Rng.raise
  end.

(** [((today - birth_date).dt.days / 365.25).fillna(0).astype(int)]:
    [astype(int)] truncates towards zero. *)
Definition derive_age (today : Z) (birth_date : option Z) : Z :=
  match birth_date with
  | Some b => Z.quot (4 * (today - b)) 1461
  | None => 0
  end.

Definition age_in_range (a : Z) : bool := (16 <=? a) && (a <=? 60).

Definition program_mapping : gmap string string :=
  list_to_map [("BS Software Eng", "BS Software Engineering");
               ("BS Electrical", "BS Electrical Engineering")]%string.

(** [df['program'].replace(program_mapping)]. *)
Definition replace_program (p : string) : string :=
  default p (program_mapping !! p).

(** The columns computed row by row before any row is dropped. *)
Definition derive_student (c : clock) (r : Student.csv) : Rng.Rand Student.t :=
  let* y := fix_admission_year (current_year c) (Student.csv_admission_year r) in
  Rng.ret (Student.mk (Student.csv_student_id r) (Student.csv_birth_date r) y
                      (Student.csv_program r)
                      (derive_age (today c) (Student.csv_birth_date r))
                      (Student.csv_created_at r)).

Definition set_program (s : Student.t) : Student.t :=
  Student.mk (Student.student_id s) (Student.birth_date s) (Student.admission_year s)
             (replace_program (Student.program s)) (Student.age s) (Student.created_at s).

(** The student part of [transform_dimensions]: repair the admission
    years, derive the ages, keep the rows with [16 <= age <= 60], map the
    programs, drop duplicate ids. *)
Definition transform_students (c : clock) (rows : list Student.csv)
    : Rng.Rand (list Student.t) :=
  let* derived := Rng.mapM (derive_student c) rows in
  let kept := List.filter (fun s => age_in_range (Student.age s)) derived in
  Rng.ret (drop_duplicates Student.student_id (map set_program kept)).

(** ** Employees *)

(** [lambda x: x if x in valid_dept_ids else random.choice(list(valid_dept_ids))];
    [list(valid_dept_ids)] is an enumeration of the set without repetition. *)
Definition fix_department_id (valid_dept_ids : gset Z) (x : Z) : Rng.Rand Z :=
  if bool_decide (x ∈ valid_dept_ids) then Rng.ret x
  else Rng.random_choice (elements valid_dept_ids).

Definition salary_ranges : gmap string (Z * Z) :=
  list_to_map [("Professor", (70000, 120000));
               ("Associate Professor", (60000, 90000));
               ("Assistant Professor", (50000, 75000));
               ("Lecturer", (40000, 60000));
               ("HR Manager", (55000, 80000));
               ("Finance Officer", (45000, 70000));
               ("Department Head", (80000, 130000));
               ("Administrative Assistant", (35000, 50000));
               ("IT Support", (40000, 65000));
               ("Research Assistant", (30000, 45000))]%string.

Definition default_range : Z * Z := (30000, 120000).

(** [salary_ranges.get(row.get('job_title', None), default_range)]. *)
Definition salary_band (title : option string) : Z * Z :=
  default default_range (title ≫= (salary_ranges !!.)).

(** [adjust_salary(row)]. *)
Definition adjust_salary (title : option string) (salary : Employee.csv_number)
    : Rng.Rand pyfloat :=
  let '(min_sal, max_sal) := salary_band title in
  let* sal :=
    match salary with
    | Employee.Number f => Rng.ret f                       (* float(...) *)
    | Employee.Unparsable _ =>                             (* except: *)
        let* u := Rng.random_uniform (inject_Z (fst default_range))
                                     (inject_Z (snd default_range)) in
        Rng.ret (Fin u)
    end in
  if float_ltb sal (Fin (inject_Z min_sal)) || float_gtb sal (Fin (inject_Z max_sal))
  then let* u := Rng.random_uniform (inject_Z min_sal) (inject_Z max_sal) in
       Rng.ret (Fin (py_round u 2))
  else Rng.ret (float_round sal 2).

(** [((today - hire_date).dt.days / 365.25).round(1).fillna(0)]. *)
Definition derive_tenure (today : Z) (hire_date : option Z) : Q :=
  match hire_date with
  | Some h => py_round (years_since today h) 1
  | None => 0%Q
  end.

(** [.fillna(0).astype(int)] on a manager id: 0 for a missing id; the
    target is a signed 64-bit integer, and an id that does not fit it is an
    OverflowError. *)
Definition astype_int (x : option Z) : option Z :=
  let v := default 0 x in
  if (- 2 ^ 63 <=? v) && (v <? 2 ^ 63) then Some v else None.

(** First pass over the employees: [manager_id], [department_id] (with the
    draws of the repair), [hire_date] and [tenure_years].  The source
    converts the whole manager column before it repairs the first
    department reference; row by row the run raises in the same cases and
    draws the same values. *)
Definition derive_employee (valid_dept_ids : gset Z) (r : Employee.csv)
    : Rng.Rand Employee.csv :=
  let* m := Rng.lift (astype_int (Employee.csv_manager_id r)) in
  let* d := fix_department_id valid_dept_ids (Employee.csv_department_id r) in
  Rng.ret (Employee.mk_csv (Employee.csv_employee_id r) (Employee.csv_job_title r)
                           (Employee.csv_salary r) d (Some m)
                           (Employee.csv_hire_date r)).

(** Second pass: [df_employees.apply(adjust_salary, axis=1)]. *)
Definition salary_pass (c : clock) (r : Employee.csv) : Rng.Rand Employee.t :=
  let* s := adjust_salary (Employee.csv_job_title r) (Employee.csv_salary r) in
  Rng.ret (Employee.mk (Employee.csv_employee_id r) (Employee.csv_job_title r) s
                       (Employee.csv_department_id r)
                       (default 0 (Employee.csv_manager_id r))
                       (Employee.csv_hire_date r)
                       (derive_tenure (today c) (Employee.csv_hire_date r))).

(** The employee part of [transform_dimensions]. *)
Definition transform_employees (c : clock) (departments : list Department.t)
    (rows : list Employee.csv) : Rng.Rand (list Employee.t) :=
  let valid_dept_ids : gset Z :=
    list_to_set (map Department.department_id departments) in
  let* repaired := Rng.mapM (derive_employee valid_dept_ids) rows in
  let* adjusted := Rng.mapM (salary_pass c) repaired in
  Rng.ret (drop_duplicates Employee.employee_id adjusted).

End Transformer.

(* ===================================================================== *)
(** * Ai_analytics.py: [create_transformed_tables]                        *)
(* ===================================================================== *)

Module SchemaManager.

Inductive sql_type :=
| INT
| BIGINT
| DATE
| BOOLEAN
| TIMESTAMP
| VARCHAR (n : Z)
| DECIMAL (precision scale : Z)
| ENUM (values : list string).

Inductive column_option :=
| PRIMARY_KEY
| AUTO_INCREMENT
| DEFAULT_CURRENT_TIMESTAMP.

Record column := mk_column {
  col_name : string;
  col_type : sql_type;
  col_options : list column_option
}.

(** [FOREIGN KEY (fk_column) REFERENCES fk_table(fk_target)]. *)
Record foreign_key := mk_fk {
  fk_column : string;
  fk_table : string;
  fk_target : string
}.

Record table := mk_table {
  columns : list column;
  foreign_keys : list foreign_key;
  rows : list (list Frame.cell)
}.

(** The destination schema and the session variable of the connection. *)
Record database := mk_database {
  tables : gmap string table;
  foreign_key_checks : bool
}.

Inductive statement :=
| SET_FOREIGN_KEY_CHECKS (b : bool)
| DROP_TABLE_IF_EXISTS (names : list string)
| CREATE_TABLE (name : string) (cols : list column) (fks : list foreign_key).

(** Some table outside [names] references a table of [names]. *)
Definition referenced_from_outside (names : list string) (m : gmap string table) : bool :=
  bool_decide (map_Exists (fun n t =>
      (n ∉ names) ∧ (Exists (fun fk => fk_table fk ∈ names) (foreign_keys t))) m).

Definition targets_exist (name : string) (fks : list foreign_key) (m : gmap string table) : bool :=
  forallb (fun fk => String.eqb (fk_table fk) name || bool_decide (is_Some (m !! fk_table fk))) fks.

(** One statement; [None] is a database error. *)
Definition execute (st : statement) (db : database) : option database :=
  match st with
  | SET_FOREIGN_KEY_CHECKS b => Some (mk_database (tables db) b)
  | DROP_TABLE_IF_EXISTS names =>
      if foreign_key_checks db && referenced_from_outside names (tables db) then None
      else Some (mk_database (foldr delete (tables db) names) (foreign_key_checks db))
  | CREATE_TABLE name cols fks =>
      match tables db !! name with
      | Some _ => None                                       (* table exists *)
      | None =>
          if foreign_key_checks db && negb (targets_exist name fks (tables db)) then None
          else Some (mk_database (<[name := mk_table cols fks []]> (tables db))
                                 (foreign_key_checks db))
      end
  end.

(** [conn.execute] statement after statement; the first error aborts. *)
Fixpoint execute_all (sts : list statement) (db : database) : option database :=
  match sts with
  | [] => Some db
  | st :: rest => match execute st db with
                  | Some db' => execute_all rest db'
                  | None => None
                  end
  end.

Definition col (n : string) (t : sql_type) : column := mk_column n t [].
Definition pk (n : string) (t : sql_type) : column := mk_column n t [PRIMARY_KEY].

Local Open Scope string_scope.

Definition fact_tables : list string :=
  ["fact_academics"; "fact_hr_metrics"; "fact_finance"].

Definition dim_tables : list string :=
  ["dim_student"; "dim_course"; "dim_employee"; "dim_department";
   "dim_account"; "dim_vendor"; "dim_date"].

Definition create_statements : list statement :=
  [ CREATE_TABLE "dim_date"
      [pk "date_key" INT; col "date" DATE; col "year" INT; col "quarter" INT;
       col "month" INT; col "week" INT; col "day" INT; col "weekday" (VARCHAR 10);
       col "is_weekend" BOOLEAN; col "semester" (VARCHAR 20)] [];
    CREATE_TABLE "dim_student"
      [pk "student_id" INT; col "first_name" (VARCHAR 100); col "last_name" (VARCHAR 100);
       col "gender" (VARCHAR 10); col "birth_date" DATE; col "admission_year" INT;
       col "program" (VARCHAR 100); col "city" (VARCHAR 100); col "country" (VARCHAR 100);
       col "created_at" DATE; col "age" INT] [];
    CREATE_TABLE "dim_course"
      [pk "course_id" INT; col "course_code" (VARCHAR 20); col "course_name" (VARCHAR 200);
       col "department" (VARCHAR 100); col "credit_hours" INT; col "course_level" (VARCHAR 20)] [];
    CREATE_TABLE "dim_department"
      [pk "department_id" INT; col "department_name" (VARCHAR 100); col "manager_id" INT;
       col "budget" (DECIMAL 15 2); col "location" (VARCHAR 100)] [];
    CREATE_TABLE "dim_employee"
      [pk "employee_id" INT; col "first_name" (VARCHAR 100); col "last_name" (VARCHAR 100);
       col "email" (VARCHAR 150); col "phone" (VARCHAR 20); col "hire_date" DATE;
       col "job_title" (VARCHAR 100); col "salary" (DECIMAL 10 2); col "department_id" INT;
       col "manager_id" INT; col "employment_type" (VARCHAR 50); col "benefits_eligible" BOOLEAN;
       col "tenure_years" (DECIMAL 4 1)]
      [mk_fk "department_id" "dim_department" "department_id"];
    CREATE_TABLE "dim_account"
      [pk "account_id" INT; col "account_code" (VARCHAR 20); col "account_name" (VARCHAR 100);
       col "account_type" (VARCHAR 50); col "category" (VARCHAR 50)] [];
    CREATE_TABLE "dim_vendor"
      [pk "vendor_id" INT; col "vendor_name" (VARCHAR 100); col "vendor_type" (VARCHAR 50);
       col "contact_person" (VARCHAR 100); col "phone" (VARCHAR 20); col "email" (VARCHAR 150)] [];
    CREATE_TABLE "fact_academics"
      [mk_column "record_id" BIGINT [AUTO_INCREMENT; PRIMARY_KEY]; col "date_key" INT;
       col "student_id" INT; col "course_id" INT; col "employee_id" INT;
       col "grade" (DECIMAL 5 2); col "attendance_percent" (DECIMAL 5 2);
       col "fee_paid" (DECIMAL 10 2);
       mk_column "created_ts" TIMESTAMP [DEFAULT_CURRENT_TIMESTAMP]]
      [mk_fk "date_key" "dim_date" "date_key"; mk_fk "student_id" "dim_student" "student_id";
       mk_fk "course_id" "dim_course" "course_id"; mk_fk "employee_id" "dim_employee" "employee_id"];
    CREATE_TABLE "fact_hr_metrics"
      [mk_column "record_id" BIGINT [AUTO_INCREMENT; PRIMARY_KEY]; col "employee_id" INT;
       col "department_id" INT; col "date_key" INT; col "salary_amount" (DECIMAL 10 2);
       col "bonus_amount" (DECIMAL 10 2); col "overtime_hours" (DECIMAL 5 2);
       col "leave_days_taken" INT; col "performance_rating" (DECIMAL 3 2)]
      [mk_fk "employee_id" "dim_employee" "employee_id";
       mk_fk "department_id" "dim_department" "department_id";
       mk_fk "date_key" "dim_date" "date_key"];
    CREATE_TABLE "fact_finance"
      [mk_column "record_id" BIGINT [AUTO_INCREMENT; PRIMARY_KEY]; col "date_key" INT;
       col "account_id" INT; col "department_id" INT; col "vendor_id" INT;
       col "transaction_type" (ENUM ["Revenue"; "Expense"]); col "amount" (DECIMAL 15 2);
       col "description" (VARCHAR 200); col "reference_number" (VARCHAR 50)]
      [mk_fk "date_key" "dim_date" "date_key"; mk_fk "account_id" "dim_account" "account_id";
       mk_fk "department_id" "dim_department" "department_id";
       mk_fk "vendor_id" "dim_vendor" "vendor_id"] ].

(** The statements of [create_transformed_tables], in order. *)
Definition script : list statement :=
  [SET_FOREIGN_KEY_CHECKS false;
   DROP_TABLE_IF_EXISTS fact_tables;
   DROP_TABLE_IF_EXISTS dim_tables]
  ++ create_statements
  ++ [SET_FOREIGN_KEY_CHECKS true].

Definition create_transformed_tables (db : database) : option database :=
  execute_all script db.

(** The ten tables of the warehouse, as created: name and empty table. *)
Definition created (st : statement) : option (string * table) :=
  match st with
  | CREATE_TABLE name cols fks => Some (name, mk_table cols fks [])
  | _ => None
  end.

Definition warehouse_tables : list (string * table) :=
  omap created create_statements.

(** The schema after the tables [defs] are created one after the other. *)
Fixpoint install (defs : list (string * table)) (m : gmap string table)
    : gmap string table :=
  match defs with
  | [] => m
  | (n, t) :: rest => install rest (<[n := t]> m)
  end.

(** The schema after the two drops and the ten creations. *)
Definition rebuilt (m : gmap string table) : gmap string table :=
  install warehouse_tables (foldr delete (foldr delete m fact_tables) dim_tables).

End SchemaManager.

(* ===================================================================== *)
(** * Ai_analytics.py: [load_transformed_data]                            *)
(* ===================================================================== *)

Module Loader.

(** The dictionary returned by [transform_dimensions]. *)
Record transformed_data := mk_transformed {
  dates : list DateRow.t;
  departments : list Department.t;
  accounts : list Account.t;
  vendors : list Vendor.t;
  courses : list Course.t;
  students : list Student.t;
  employees : list Employee.t
}.

(** The rows held by the seven dimension tables. *)
Record warehouse := mk_warehouse {
  dim_date : list DateRow.t;
  dim_department : list Department.t;
  dim_account : list Account.t;
  dim_vendor : list Vendor.t;
  dim_course : list Course.t;
  dim_student : list Student.t;
  dim_employee : list Employee.t
}.

Definition empty_warehouse : warehouse := mk_warehouse [] [] [] [] [] [] [].

(** What the loader prints. *)
Inductive message :=
| Info (text : string)
| Warning_invalid_department_ids (ids : gset Z).

(** [df.to_sql(table, if_exists="append")] on a table whose primary key is
    [key]: the rows are appended; a duplicate key is an IntegrityError.
    The other errors of the database (a value that does not fit its
    column, a lost connection) are not represented: of a load, the
    theorems say what it has written when it returns, or that it raises. *)
Definition to_sql {A} (key : A -> Z) (table rows : list A) : Rng.Rand (list A) :=
  if bool_decide (NoDup (map key (table ++ rows))) then Rng.ret (table ++ rows)
  else Rng.raise.

Definition set_department_id (d : Z) (e : Employee.t) : Employee.t :=
  Employee.mk (Employee.employee_id e) (Employee.job_title e) (Employee.salary e) d
              (Employee.manager_id e) (Employee.hire_date e) (Employee.tenure_years e).

(** Specification relation: how a written employee row [e'] relates to
    the row [e] it comes from.  Only the department reference may differ;
    it is a valid id; a valid reference is kept; an invalid one is replaced
    by the element of [list(valid_dept_ids)] at a drawn index. *)
Definition repaired_from (valid : gset Z) (e e' : Employee.t) : Prop :=
  e' = set_department_id (Employee.department_id e') e /\
  Employee.department_id e' ∈ valid /\
  (Employee.department_id e ∈ valid -> e' = e) /\
  (Employee.department_id e ∉ valid ->
     exists k, Rng.choice_of (elements valid) k = Some (Employee.department_id e')).

(** The second repair pass:
    [if invalid_dept_ids: print(Warning ...); employees['department_id'] = ....apply(...)]. *)
Definition repair_employees (valid_dept_ids : gset Z) (emps : list Employee.t)
    : Rng.Rand (list Employee.t * list message) :=
  let employee_dept_ids : gset Z := list_to_set (map Employee.department_id emps) in
  let invalid_dept_ids := employee_dept_ids ∖ valid_dept_ids in
  if bool_decide (invalid_dept_ids = ∅) then Rng.ret (emps, [])
  else
    let* repaired :=
      Rng.mapM (fun e =>
        let* d := Transformer.fix_department_id valid_dept_ids (Employee.department_id e) in
        Rng.ret (set_department_id d e)) emps in
    Rng.ret (repaired, [Warning_invalid_department_ids invalid_dept_ids]).

Definition set_created_at (d : Frame.cell) (s : Student.t) : Student.t :=
  Student.mk (Student.student_id s) (Student.birth_date s) (Student.admission_year s)
             (Student.program s) (Student.age s) d.

(** [df['created_at'] = dates]: row [i] gets value [i] of the Series, null
    where the Series has none. *)
Fixpoint assign_created_at (dates : list Frame.cell) (rows : list Student.t)
    : list Student.t :=
  match rows with
  | [] => []
  | s :: rest => set_created_at (hd Frame.CNull dates) s :: assign_created_at (tl dates) rest
  end.

Section Load.

Variable to_datetime : Frame.conversion.

(** [ensure_sql_types_before_load] on the student frame.  Its date-like
    columns are [birth_date] and [created_at].  [birth_date] holds the
    Timestamps of the transformer, whose days are kept; [created_at] still
    holds the text of the file and is converted, which can raise. *)
Definition ensure_sql_types_students (rows : list Student.t) : Rng.Rand (list Student.t) :=
  match to_datetime (map Student.created_at rows) with
  | Some ts => Rng.ret (assign_created_at (map Frame.date_of ts) rows)
  | None => Rng.raise
  end.

(** [load_transformed_data(transformed_data)]: the warehouse after the
    seven writes and the messages printed.  [ensure_sql_types_before_load]
    is called on the date, student and employee frames.  The only
    date-like column of the date frame is [date], that of the employee
    frame is [hire_date]; both hold the Timestamps of the transformer and
    keep their days, so these two calls change no represented value. *)
Definition load_transformed_data (td : transformed_data) (w : warehouse)
    : Rng.Rand (warehouse * list message) :=
  let dates_for_sql := dates td in
  let* t_date := to_sql DateRow.date_key (dim_date w) dates_for_sql in
  let* t_department := to_sql Department.department_id (dim_department w) (departments td) in
  let* t_account := to_sql Account.account_id (dim_account w) (accounts td) in
  let* t_vendor := to_sql Vendor.vendor_id (dim_vendor w) (vendors td) in
  let* t_course := to_sql Course.course_id (dim_course w) (courses td) in
  let* students_for_sql := ensure_sql_types_students (students td) in
  let* t_student := to_sql Student.student_id (dim_student w) students_for_sql in
  let valid_dept_ids : gset Z :=
    list_to_set (map Department.department_id (departments td)) in
  let* rw := repair_employees valid_dept_ids (employees td) in
  let employees_for_sql := fst rw in
  let* t_employee := to_sql Employee.employee_id (dim_employee w) employees_for_sql in
  Rng.ret (mk_warehouse t_date t_department t_account t_vendor t_course t_student t_employee,
           [Info "Loading transformed data into database..."; Info "Loaded dim_date";
            Info "Loaded dim_department";
            Info "Loaded independent dimensions"]
           ++ snd rw
           ++ [Info "Loaded dim_employee"; Info "All transformed data loaded successfully!"]).

End Load.

End Loader.

(* ===================================================================== *)
(** * Ai_analytics.py: [generate_business_facts]                          *)
(* ===================================================================== *)

Module AcademicFact.
Record t := mk {
  date_key : Z;
  student_id : Z;
  course_id : Z;
  employee_id : Z;
  grade : Q;
  attendance_percent : Q;
  fee_paid : Q
}.
End AcademicFact.

Module HRFact.
Record t := mk {
  employee_id : Z;
  department_id : Z;
  date_key : Z;
  salary_amount : PyNum.pyfloat;
  bonus_amount : PyNum.pyfloat;
  overtime_hours : Q;
  leave_days_taken : Z;
  performance_rating : Q
}.
End HRFact.

Module FactSynth.

Import PyNum.

(** [Series.unique()]: the distinct values in order of first appearance. *)
Fixpoint unique_from (seen : gset Z) (l : list Z) : list Z :=
  match l with
  | [] => []
  | x :: xs =>
      if bool_decide (x ∈ seen) then unique_from seen xs
      else x :: unique_from ({[x]} ∪ seen) xs
  end.

Definition unique (l : list Z) : list Z := unique_from ∅ l.

(** [df.sample(n, replace=True)]: [n] independent picks; ValueError on an
    empty frame. *)
Fixpoint sample_with_replacement {A} (n : nat) (l : list A) : Rng.Rand (list A) :=
  match n with
  | O => Rng.ret []
  | S n' => let* x := Rng.random_choice l in
            let* xs := sample_with_replacement n' l in
            Rng.ret (x :: xs)
  end.

Fixpoint remove_nth {A} (i : nat) (l : list A) : list A :=
  match l, i with
  | [], _ => []
  | _ :: xs, O => xs
  | x :: xs, S i' => x :: remove_nth i' xs
  end.

(** [df.sample(n)]: [n] picks without replacement; ValueError when [n]
    exceeds the number of rows. *)
Fixpoint sample {A} (n : nat) (l : list A) : Rng.Rand (list A) :=
  match n with
  | O => Rng.ret []
  | S n' =>
      match l with
      | [] => Rng.raise
      | _ => let* k := Rng.next_raw in
             let i := N.to_nat (k mod N.of_nat (length l)) in
             match nth_error l i with
             | Some x => let* xs := sample n' (remove_nth i l) in Rng.ret (x :: xs)
             | None => Rng.raise
             end
      end
  end.

(** [sub in s] / [str.contains(sub)]. *)
Fixpoint contains (sub s : string) : bool :=
  String.prefix sub s ||
  match s with
  | EmptyString => false
  | String _ s' => contains sub s'
  end.

(** [job_title.fillna('').str.contains('Professor|Lecturer', na=False)]. *)
Definition is_instructor (e : Employee.t) : bool :=
  match Employee.job_title e with
  | Some t => contains "Professor" t || contains "Lecturer" t
  | None => false
  end.

Definition ACADEMIC_SAMPLE : nat := 5000.

(** The grade before rounding: the normal draw, the course level and age
    adjustments, and the clip [max(0, min(100, base_grade))]. *)
Definition adjust_grade (course_level : option string) (age : Z) (base_grade : Q) : Q :=
  let g1 := if bool_decide (course_level = Some "Advanced"%string) then (base_grade - 5)%Q
            else if bool_decide (course_level = Some "Introductory"%string) then (base_grade + 5)%Q
            else base_grade in
  let g2 := if 25 <? age then (g1 + 3)%Q else g1 in
  py_max 0 (py_min 100 g2).

(** [max(60, min(100, grade + random.gauss(0, 8)))]. *)
Definition clip_attendance (x : Q) : Q := py_max 60 (py_min 100 x).

(** The body of [for student_id in student_ids]. *)
Definition academic_record (w : Loader.warehouse) (student_id : Z)
    : Rng.Rand AcademicFact.t :=
  match List.find (fun s => Student.student_id s =? student_id) (Loader.dim_student w) with
  | None => Rng.raise                                        (* .iloc[0] on no row *)
  | Some student =>
      let* course := Rng.random_choice (Loader.dim_course w) in
      let profs := List.filter is_instructor (Loader.dim_employee w) in
      let* instructor :=
        match profs with
        | [] => Rng.random_choice (Loader.dim_employee w)
        | _ => Rng.random_choice profs
        end in
      let* date := Rng.random_choice (Loader.dim_date w) in
      let* base_grade := Rng.random_gauss 70 12 in
      let grade := adjust_grade (Course.course_level course) (Student.age student) base_grade in
      let* noise := Rng.random_gauss 0 8 in
      let attendance := clip_attendance (grade + noise)%Q in
      let* u := Rng.random_random in
      let discount := if Qltb u (2 # 10) then (8 # 10)%Q else 1%Q in
      Rng.ret (AcademicFact.mk
                 (DateRow.date_key date) student_id (Course.course_id course)
                 (Employee.employee_id instructor)
                 (py_round grade 1) (py_round attendance 1)
                 (py_round (inject_Z (Course.credit_hours course) * 250 * discount)%Q 2))
  end.

(** The academic part of [generate_business_facts]: the rows appended to
    [fact_academics]. *)
Definition academic_facts (w : Loader.warehouse) : Rng.Rand (list AcademicFact.t) :=
  let* sampled := sample_with_replacement ACADEMIC_SAMPLE
                    (map Student.student_id (Loader.dim_student w)) in
  Rng.mapM (academic_record w) (unique sampled).

(** [float(x or 0)] on a salary read back from the table. *)
Definition float_mul (x : pyfloat) (q : Q) : pyfloat :=
  match x with
  | Fin a => Fin (a * q)%Q
  | NaN => NaN
  end.

(** [max(1.0, min(5.0, base_performance))] after the tenure and job title
    adjustments. *)
Definition adjust_performance (e : Employee.t) (base_performance : Q) : Q :=
  let p1 := if Qltb 5 (Employee.tenure_years e) then (base_performance + (3 # 10))%Q
            else base_performance in
  let p2 := if contains "Professor" (default "None"%string (Employee.job_title e))
            then (p1 + (2 # 10))%Q else p1 in
  py_max 1 (py_min 5 p2).

(** The body of [for _, date_row in selected_dates.iterrows()]. *)
Definition hr_record (e : Employee.t) (employee_id : Z) (date_row : DateRow.t)
    : Rng.Rand HRFact.t :=
  let* base_performance := Rng.random_gauss (35 # 10) (5 # 10) in
  let performance := adjust_performance e base_performance in
  let* overtime := Rng.random_uniform 0 10 in
  let* leave := Rng.random_randint 0 8 in
  Rng.ret (HRFact.mk employee_id (Employee.department_id e) (DateRow.date_key date_row)
                     (Employee.salary e)
                     (float_round (float_mul (Employee.salary e) (performance / 20)) 2)
                     (py_round overtime 1) leave (py_round performance 1)).

(** [df_dates[df_dates['date'] >= cutoff]] then [month.isin([3, 6, 9, 12])]. *)
Definition quarterly_dates (cutoff : Z) (ds : list DateRow.t) : list DateRow.t :=
  List.filter (fun d => bool_decide (DateRow.month d ∈ [3; 6; 9; 12]))
    (List.filter (fun d => match DateRow.date d with
                           | Some x => cutoff <=? x
                           | None => false
                           end) ds).

(** The body of [for employee_id in df_employees['employee_id'].unique()]. *)
Definition hr_records (w : Loader.warehouse) (quarterly : list DateRow.t) (employee_id : Z)
    : Rng.Rand (list HRFact.t) :=
  match List.find (fun e => Employee.employee_id e =? employee_id) (Loader.dim_employee w) with
  | None => Rng.raise
  | Some employee =>
      let sample_size := Nat.min 8 (length quarterly) in
      let* selected_dates :=
        match sample_size with
        | O => sample (Nat.min 4 (length (Loader.dim_date w))) (Loader.dim_date w)
        | _ => sample sample_size quarterly
        end in
      Rng.mapM (hr_record employee employee_id) selected_dates
  end.

(** The HR part of [generate_business_facts]: the rows appended to
    [fact_hr_metrics]; [cutoff] is today minus two years. *)
Definition hr_facts (cutoff : Z) (w : Loader.warehouse) : Rng.Rand (list HRFact.t) :=
  let quarterly := quarterly_dates cutoff (Loader.dim_date w) in
  let* per_employee :=
    Rng.mapM (hr_records w quarterly)
             (unique (map Employee.employee_id (Loader.dim_employee w))) in
  Rng.ret (concat per_employee).

End FactSynth.

(* ===================================================================== *)
(** * Python strings: the methods the pipeline uses, on ASCII text        *)
(* ===================================================================== *)

Module Text.

(** A text is a string of bytes, one for every character of an ASCII
    text.  The functions below are the methods of Python on ASCII text;
    what the theorems say of a text, they say under the assumption
    [is_ascii]. *)
Fixpoint is_ascii (s : string) : bool :=
  match s with
  | EmptyString => true
  | String c s' => (nat_of_ascii c <? 128)%nat && is_ascii s'
  end.

(** [len(s)]. *)
Fixpoint len (s : string) : nat :=
  match s with
  | EmptyString => O
  | String _ s' => S (len s')
  end.

(** [c.isdigit()] / the class [\d], on ASCII. *)
Definition is_digit (c : ascii) : bool :=
  let n := nat_of_ascii c in (48 <=? n)%nat && (n <=? 57)%nat.

(** [c.isspace()] on ASCII: tab, line feed, vertical tab, form feed,
    carriage return, the four separators 28 to 31, and space. *)
Definition is_space (c : ascii) : bool :=
  let n := nat_of_ascii c in
  ((9 <=? n)%nat && (n <=? 13)%nat) || ((28 <=? n)%nat && (n <=? 32)%nat).

Definition upper_char (c : ascii) : ascii :=
  let n := nat_of_ascii c in
  if (97 <=? n)%nat && (n <=? 122)%nat then ascii_of_nat (n - 32) else c.

(** [s.upper()]. *)
Fixpoint upper (s : string) : string :=
  match s with
  | EmptyString => EmptyString
  | String c s' => String (upper_char c) (upper s')
  end.

(** [s.lstrip()], [s.rstrip()], [s.strip()]. *)
Fixpoint lstrip (s : string) : string :=
  match s with
  | EmptyString => EmptyString
  | String c s' => if is_space c then lstrip s' else s
  end.

Definition rstrip (s : string) : string := String.rev (lstrip (String.rev s)).

Definition strip (s : string) : string := rstrip (lstrip s).

(** The longest prefix of digits. *)
Fixpoint take_digits (s : string) : string :=
  match s with
  | EmptyString => EmptyString
  | String c s' => if is_digit c then String c (take_digits s') else EmptyString
  end.

(** [re.search(r'(\d+)', s)]: the first maximal run of digits, [None] when
    there is no digit. *)
Fixpoint first_digits (s : string) : option string :=
  match s with
  | EmptyString => None
  | String c s' => if is_digit c then Some (String c (take_digits s'))
                   else first_digits s'
  end.

Fixpoint all_digits (s : string) : bool :=
  match s with
  | EmptyString => true
  | String c s' => is_digit c && all_digits s'
  end.

Fixpoint no_digit (s : string) : bool :=
  match s with
  | EmptyString => true
  | String c s' => negb (is_digit c) && no_digit s'
  end.

(** [s[:n]]. *)
Fixpoint prefix_of (n : nat) (s : string) : string :=
  match n, s with
  | S n', String c s' => String c (prefix_of n' s')
  | _, _ => EmptyString
  end.

(** [str(n)] and [f"{n}"] for an integer. *)
Definition str (n : Z) : string := pretty n.

End Text.

(* ===================================================================== *)
(** * Ai_analytics.py: [transform_dimensions], courses, accounts, names    *)
(* ===================================================================== *)

Module RawCourse.
(** A row of [dim_course.csv]. *)
Record t := mk {
  course_id : Z;
  course_code : option string;     (* None: missing *)
  credit_hours : option Z          (* None: missing *)
}.
End RawCourse.

Module CleanCourse.
Record t := mk {
  course_id : Z;
  course_code : string;
  credit_hours : Z;
  course_level : string
}.
End CleanCourse.

Module RawAccount.
(** A row of [dim_account.csv]. *)
Record t := mk {
  account_id : Z;
  account_type : option string;    (* None: missing *)
  category : string
}.
End RawAccount.

Module Cleaning.

(** [.astype(str)]: a missing value becomes the text [nan]. *)
Definition astype_str (x : option string) : string := default "nan"%string x.

(** [df_courses['course_code'].astype(str).str.upper().str.strip()]. *)
Definition clean_course_code (x : option string) : string :=
  Text.strip (Text.upper (astype_str x)).

(** The longest run of digits that [int] converts
    ([sys.get_int_max_str_digits()], by default). *)
Definition INT_MAX_STR_DIGITS : nat := 4300.

(** [int(s)] on a run of digits: ValueError beyond the limit. *)
Definition int_of_run (digits : string) : option Z :=
  if (INT_MAX_STR_DIGITS <? Text.len digits)%nat then None
  else Some (DateDim.int_of_string digits).

(** [extract_course_level(code)]. *)
Definition extract_course_level (code : string) : option string :=
  match Text.first_digits code with
  | Some digits =>
      match int_of_run digits with
      | Some number =>
          Some (if number <? 200 then "Introductory"%string
                else if number <? 400 then "Intermediate"%string
                else "Advanced"%string)
      | None => None
      end
  | None => Some "Unknown"%string
  end.

(** The first run of digits of the code is one that [int] converts. *)
Definition within_int_limit (code : string) : bool :=
  match Text.first_digits code with
  | Some digits => (Text.len digits <=? INT_MAX_STR_DIGITS)%nat
  | None => true
  end.

(** [lambda x: x if x in [2, 3, 4] else random.choice([2, 3, 4])]. *)
Definition fix_credit_hours (x : option Z) : Rng.Rand Z :=
  match x with
  | Some h => if bool_decide (h ∈ [2; 3; 4]) then Rng.ret h
              else Rng.random_choice [2; 3; 4]
  | None => Rng.random_choice [2; 3; 4]
  end.

(** The columns of one row.  The source computes the level of every row
    before it repairs the first credit-hours value; row by row the run
    raises in the same cases and draws the same values. *)
Definition clean_course (r : RawCourse.t) : Rng.Rand CleanCourse.t :=
  let code := clean_course_code (RawCourse.course_code r) in
  let* level := Rng.lift (extract_course_level code) in
  let* h := fix_credit_hours (RawCourse.credit_hours r) in
  Rng.ret (CleanCourse.mk (RawCourse.course_id r) code h level).

(** The course part of [transform_dimensions], with its
    [drop_duplicates(subset=['course_id'])]. *)
Definition transform_courses (rows : list RawCourse.t) : Rng.Rand (list CleanCourse.t) :=
  let* cleaned := Rng.mapM clean_course rows in
  Rng.ret (Transformer.drop_duplicates CleanCourse.course_id cleaned).

(** The columns of a cleaned course that the fact rules read. *)
Definition course_row (c : CleanCourse.t) : Course.t :=
  Course.mk (CleanCourse.course_id c) (Some (CleanCourse.course_level c))
            (CleanCourse.credit_hours c).

Definition valid_account_types : list string :=
  ["Asset"; "Liability"; "Equity"; "Revenue"; "Expense"]%string.

(** [lambda x: x if x in valid_account_types else 'Expense']. *)
Definition fix_account_type (x : option string) : string :=
  match x with
  | Some t => if bool_decide (t ∈ valid_account_types) then t else "Expense"%string
  | None => "Expense"%string
  end.

(** The account part of [transform_dimensions]. *)
Definition transform_accounts (rows : list RawAccount.t) : list Account.t :=
  map (fun r => Account.mk (RawAccount.account_id r)
                           (fix_account_type (RawAccount.account_type r))
                           (RawAccount.category r)) rows.

(** [df_departments['department_name'].str.strip()]. *)
Definition strip_department_name (d : Department.t) : Department.t :=
  Department.mk (Department.department_id d) (Text.strip (Department.department_name d))
                (Department.manager_id d).

(** The department part of [transform_dimensions]: the manager ids
    repaired by [Transformer.transform_departments], then the names
    stripped. *)
Definition clean_departments (employees : list Employee.csv)
    (departments : list Department.t) : list Department.t :=
  map strip_department_name (Transformer.transform_departments employees departments).

End Cleaning.

(* ===================================================================== *)
(** * Ai_analytics.py: [generate_business_facts], the finance facts       *)
(* ===================================================================== *)

Module DateYear.
(** The columns of [dim_date] that the finance rule reads. *)
Record t := mk {
  date_key : Z;
  year : option Z                  (* None: NULL *)
}.
End DateYear.

Module FinanceFact.
Record t := mk {
  date_key : Z;
  account_id : Z;
  department_id : Z;
  vendor_id : Z;
  transaction_type : string;
  amount : Q;
  description : string;
  reference_number : string
}.
End FinanceFact.

Module Finance.

Import PyNum.

Definition FINANCE_ROWS : nat := 2000.

(** [for _ in range(n): data.append(body)]. *)
Fixpoint repeatM {A} (n : nat) (body : Rng.Rand A) : Rng.Rand (list A) :=
  match n with
  | O => Rng.ret []
  | S n' => let* x := body in
            let* xs := repeatM n' body in
            Rng.ret (x :: xs)
  end.

(** [df_dates[df_dates['year'] >= 2020]]: a NULL year fails the test. *)
Definition valid_dates (dates : list DateYear.t) : list DateYear.t :=
  List.filter (fun d => match DateYear.year d with
                        | Some y => 2020 <=? y
                        | None => false
                        end) dates.

(** ["Expense" if account['account_type'] == 'Expense' else "Revenue"]. *)
Definition transaction_type_of (account : Account.t) : string :=
  if bool_decide (Account.account_type account = "Expense"%string)
  then "Expense"%string else "Revenue"%string.

(** [amount *= 1.5] for the departments Finance and Administration. *)
Definition department_factor (department : Department.t) (amount : Q) : Q :=
  if bool_decide (Department.department_name department
                    ∈ ["Finance"; "Administration"]%string)
  then (amount * (15 # 10))%Q else amount.

(** The body of [for _ in range(2000)]. *)
Definition finance_record (accounts : list Account.t) (departments : list Department.t)
    (vendors : list Vendor.t) (dates : list DateYear.t) : Rng.Rand FinanceFact.t :=
  let* account := Rng.random_choice accounts in
  let* department := Rng.random_choice departments in
  let* vendor := Rng.random_choice vendors in
  let* date :=
    match valid_dates dates with
    | [] => Rng.random_choice dates
    | _ => Rng.random_choice (valid_dates dates)
    end in
  let transaction_type := transaction_type_of account in
  let* u :=
    if bool_decide (transaction_type = "Revenue"%string)
    then Rng.random_uniform 1000 50000
    else Rng.random_uniform 100 20000 in
  let amount := department_factor department (py_round u 2) in
  let* n := Rng.random_randint 10000 99999 in
  Rng.ret (FinanceFact.mk
             (DateYear.date_key date) (Account.account_id account)
             (Department.department_id department) (Vendor.vendor_id vendor)
             transaction_type amount
             (transaction_type +:+ " for " +:+ Account.category account +:+ " - "
                +:+ Vendor.vendor_name vendor)
             ("REF" +:+ Text.str n)).

(** The finance part of [generate_business_facts]: the rows appended to
    [fact_finance]. *)
Definition finance_facts (accounts : list Account.t) (departments : list Department.t)
    (vendors : list Vendor.t) (dates : list DateYear.t) : Rng.Rand (list FinanceFact.t) :=
  repeatM FINANCE_ROWS (finance_record accounts departments vendors dates).

End Finance.

(* ===================================================================== *)
(** * gd.py: the generated departments, employees, courses and accounts   *)
(* ===================================================================== *)

Module Generator.

Import PyNum.

Definition F_COURSES : Z := 60.
Definition F_EMPLOYEES : Z := 60.
Definition F_DEPARTMENTS : Z := 8.
Definition F_ACCOUNTS : Z := 20.

Local Open Scope string_scope.

Definition departments_data : list string :=
  ["Computer Science"; "Software Engineering"; "Business"; "Electrical Engineering";
   "Mathematics"; "Human Resources"; "Finance"; "Administration"].

Definition job_titles : list string :=
  ["Professor"; "Associate Professor"; "Assistant Professor"; "Lecturer";
   "HR Manager"; "Finance Officer"; "Administrative Assistant"; "IT Support";
   "Department Head"; "Research Assistant"].

Definition employment_types : list string := ["Full-time"; "Part-time"; "Contract"].

Definition account_types : list string :=
  ["Asset"; "Liability"; "Equity"; "Revenue"; "Expense"].

Definition account_categories : list string :=
  ["Tuition"; "Salary"; "Equipment"; "Utilities"; "Supplies"; "Maintenance"].

Local Close Scope string_scope.

(** The body of [for i in range(1, F_DEPARTMENTS + 1)]; the budget is
    drawn, its column is not represented. *)
Definition generate_department (i : Z) : Rng.Rand Department.t :=
  match departments_data !! Z.to_nat (i - 1) with
  | None => Rng.raise                                        (* IndexError *)
  | Some name =>
      let* budget := Rng.random_uniform 50000 500000 in
      Rng.ret (Department.mk i name None)
  end.

Definition generate_departments : Rng.Rand (list Department.t) :=
  Rng.mapM generate_department (seqZ 1 F_DEPARTMENTS).

(** The body of [for i in range(1, F_EMPLOYEES + 1)]: the row and
    [is_manager].  [hire_date] stands for the dates that Faker supplies from
    a generator of its own. *)
Definition generate_employee (hire_date : Z -> Z) (i : Z)
    : Rng.Rand (Employee.csv * bool) :=
  let* dept_id := Rng.random_randint 1 F_DEPARTMENTS in
  let* u := Rng.random_random in
  let is_manager := Qltb u (1 # 10) in
  let* job_title := Rng.random_choice job_titles in
  let* salary := Rng.random_uniform 30000 120000 in
  let* employment_type := Rng.random_choice employment_types in
  let* benefits_eligible := Rng.random_choice [true; false] in
  Rng.ret (Employee.mk_csv i (Some job_title) (Employee.Number (Fin (py_round salary 2)))
                           dept_id None (Some (hire_date i)),
           is_manager).

(** The body of [for employee in employees] that sets the managers. *)
Definition set_manager (manager_ids : list Z) (e : Employee.csv) : Rng.Rand Employee.csv :=
  if bool_decide (Employee.csv_employee_id e ∉ manager_ids)
     && bool_decide (manager_ids <> [])
  then let* m := Rng.random_choice manager_ids in
       Rng.ret (Employee.mk_csv (Employee.csv_employee_id e) (Employee.csv_job_title e)
                                (Employee.csv_salary e) (Employee.csv_department_id e)
                                (Some m) (Employee.csv_hire_date e))
  else Rng.ret e.

Definition generate_employees (hire_date : Z -> Z) : Rng.Rand (list Employee.csv) :=
  let* drawn := Rng.mapM (generate_employee hire_date) (seqZ 1 F_EMPLOYEES) in
  let manager_ids :=
    map (fun p => Employee.csv_employee_id (fst p)) (List.filter snd drawn) in
  Rng.mapM (set_manager manager_ids) (map fst drawn).

(** The body of [for i in range(1, F_COURSES + 1)]:
    [code = f"{dept[:3].upper()}{100 + i}"]. *)
Definition generate_course (i : Z) : Rng.Rand RawCourse.t :=
  let* dept := Rng.random_choice (take 5 departments_data) in
  let code := (Text.upper (Text.prefix_of 3 dept) +:+ Text.str (100 + i))%string in
  let* credit_hours := Rng.random_choice [2; 3; 4] in
  Rng.ret (RawCourse.mk i (Some code) (Some credit_hours)).

Definition generate_courses : Rng.Rand (list RawCourse.t) :=
  Rng.mapM generate_course (seqZ 1 F_COURSES).

(** The body of [for i in range(1, F_ACCOUNTS + 1)]; the category drawn
    for the account name is not represented. *)
Definition generate_account (i : Z) : Rng.Rand RawAccount.t :=
  let* name_category := Rng.random_choice account_categories in
  let* account_type := Rng.random_choice account_types in
  let* category := Rng.random_choice account_categories in
  Rng.ret (RawAccount.mk i (Some account_type) category).

Definition generate_accounts : Rng.Rand (list RawAccount.t) :=
  Rng.mapM generate_account (seqZ 1 F_ACCOUNTS).

End Generator.

(* ===================================================================== *)
(** * gd.py: the export of the departments collection to a CSV file       *)
(* ===================================================================== *)

Module MongoExport.

(** A document: its fields in order, each a name and a value; the names of
    a document are distinct. *)
Definition document := list (string * Frame.cell).

(** [doc.keys()]. *)
Definition keys (doc : document) : list string := map fst doc.

(** [doc.get(key, restval)]. *)
Fixpoint get (key : string) (restval : Frame.cell) (doc : document) : Frame.cell :=
  match doc with
  | [] => restval
  | (k, v) :: rest => if String.eqb k key then v else get key restval rest
  end.

(** [fieldnames.remove('_id')] under [if '_id' in fieldnames]: the first
    occurrence is removed. *)
Fixpoint remove_name (name : string) (l : list string) : list string :=
  match l with
  | [] => []
  | k :: rest => if String.eqb k name then rest else k :: remove_name name rest
  end.

(** [del doc['_id']] under [if '_id' in doc]. *)
Definition del (name : string) (doc : document) : document :=
  List.filter (fun kv => negb (String.eqb (fst kv) name)) doc.

(** [csv.DictWriter(f, fieldnames).writerow(doc)], with the defaults
    [restval=''] and [extrasaction='raise']: a field that is not a column
    is a ValueError. *)
Definition writerow (fieldnames : list string) (doc : document) : option (list Frame.cell) :=
  if forallb (fun k => bool_decide (k ∈ fieldnames)) (keys doc)
  then Some (map (fun k => get k (Frame.CStr "") doc) fieldnames)
  else None.

(** [for doc in documents_list]: the rows written, and whether the loop
    came to its end. *)
Fixpoint write_rows (fieldnames : list string) (docs : list document)
    : list (list Frame.cell) * bool :=
  match docs with
  | [] => ([], true)
  | doc :: rest =>
      match writerow fieldnames (del "_id" doc) with
      | Some row => let '(rows, ok) := write_rows fieldnames rest in (row :: rows, ok)
      | None => ([], false)
      end
  end.

Inductive status :=
| Exported           (* the success message is printed *)
| No_data            (* "No data found in the departments collection.", exit 1 *)
| Failed.            (* "An error occurred: ...", exit 1 *)

(** What the script leaves: the file [dim_department.csv], if it was
    opened, as header and rows, and how the script ended. *)
Record outcome := mk_outcome {
  csv_file : option (list string * list (list Frame.cell));
  exit_status : status
}.

(** The export of the documents found in the collection. *)
Definition export (documents_list : list document) : outcome :=
  match documents_list with
  | [] => mk_outcome None No_data
  | first :: _ =>
      let fieldnames := remove_name "_id" (keys first) in
      let '(rows, ok) := write_rows fieldnames documents_list in
      mk_outcome (Some (fieldnames, rows)) (if ok then Exported else Failed)
  end.

End MongoExport.

(* ===================================================================== *)
(** * Concrete inputs used to run the definitions                         *)
(* ===================================================================== *)

Module Samples.

Definition run_day : DateDim.date := DateDim.mk_date 2026 11 3.

Definition generated : list DateDim.date_row :=
  default [] (DateDim.generate_dates 1100 run_day).

(** 2026-11-03 as a day ordinal, with the year of the run. *)
Definition run_clock : Transformer.clock := Transformer.mk_clock 2026 739923.

(** Five rows of [dim_student.csv]: born 2005-06-15 (age 21); born
    2016-01-01 (age 10), admitted "1990"; no birth date (age 0), no
    admission year; a second row for student 1, born 1999-09-03 (age 27),
    admitted "2030"; born 1999-09-03, admitted 2019. *)
Definition raw_students : list Student.csv :=
  [Student.mk_csv 1 (Some 732112) (Student.Year 2023) "BS Software Eng"
                  (Frame.CStr "2023-09-01");
   Student.mk_csv 2 (Some 735964) (Student.Year 1990) "BS Business" Frame.CNull;
   Student.mk_csv 3 None Student.Year_nan "BS Mathematics" Frame.CNull;
   Student.mk_csv 1 (Some 730000) (Student.Year 2030) "BS Electrical" Frame.CNull;
   Student.mk_csv 5 (Some 730000) (Student.Year 2019) "BS Electrical" (Frame.CStr "soon")].

(** A student born 2016-01-01: ten years old on the day of the run. *)
Definition child : Student.csv :=
  Student.mk_csv 2 (Some 735964) (Student.Year 2024) "BS Business" Frame.CNull.

(** A student born 2005-06-15 whose admission year field holds 2026.7. *)
Definition admitted_late : Student.csv :=
  Student.mk_csv 6 (Some 732112) (Student.Year (20267 # 10)) "BS Business" Frame.CNull.

Definition zeros : Rng.rng := Rng.const_rng 0 0.

Definition cleaned_students : list Student.t :=
  default [] (fst <$> Transformer.transform_students run_clock raw_students zeros).

(** The source after the three draws of the admission year repair. *)
Definition zeros_after_students : Rng.rng :=
  Rng.mk_rng (Rng.raw zeros) (Rng.normal zeros) 3%N.

(** A source whose first value is the smallest and whose later values are
    the largest that [random()] can use. *)
Definition low_then_high : Rng.rng :=
  Rng.mk_rng (fun n => match n with 0%N => 0%N | _ => (2 ^ 53 - 1)%N end) (fun _ => 0%Q) 0%N.

Definition sample_departments : list Department.t :=
  [Department.mk 1 "Computer Science" None; Department.mk 2 "Finance" (Some 7);
   Department.mk 3 "Administration" None].

(** A professor whose salary field is empty in the file. *)
Definition professor_without_salary : Employee.csv :=
  Employee.mk_csv 7 (Some "Professor"%string) (Employee.Number PyNum.NaN) 1 None None.

Definition sample_warehouse : Loader.warehouse :=
  Loader.mk_warehouse
    [DateRow.mk 20260301 (Some 739676) 3; DateRow.mk 20250301 (Some 739311) 3;
     DateRow.mk 20260415 (Some 739721) 4]
    sample_departments
    [Account.mk 1 "Expense" "Salary"]
    [Vendor.mk 1 "Acme"]
    [Course.mk 7 (Some "Advanced"%string) 3; Course.mk 8 (Some "Introductory"%string) 4]
    [Student.mk 1 (Some 732112) (Student.Year 2023) "BS Software Engineering" 21 Frame.CNull;
     Student.mk 2 (Some 730000) (Student.Year 2020) "BS Business" 27 Frame.CNull;
     Student.mk 3 (Some 731000) (Student.Year 2021) "BS Mathematics" 24 Frame.CNull]
    [Employee.mk 4 (Some "Professor"%string) (PyNum.Fin 90000) 1 0 (Some 737000) 8;
     Employee.mk 5 (Some "IT Support"%string) (PyNum.Fin 45000) 3 4 None 0].

(** A source whose values change from draw to draw. *)
Definition counting : Rng.rng :=
  Rng.mk_rng (fun n => (7 * n + 1)%N) (fun n => (Z.of_N (n mod 7) - 3 # 2)%Q) 0%N.

(** 2024-11-03, two years before the day of the run. *)
Definition cutoff : Z := 739193.

Definition academic_run : option (list AcademicFact.t * Rng.rng) :=
  FactSynth.academic_facts sample_warehouse counting.

Definition academic_rows : list AcademicFact.t := default [] (fst <$> academic_run).
Definition academic_rng : Rng.rng := default counting (snd <$> academic_run).

Definition hr_run : option (list HRFact.t * Rng.rng) :=
  FactSynth.hr_facts cutoff sample_warehouse counting.

Definition hr_rows : list HRFact.t := default [] (fst <$> hr_run).
Definition hr_rng : Rng.rng := default counting (snd <$> hr_run).

(** The end-to-end scenario of the specification: departments 1, 2, 3 and
    an employee that references department 99. *)
Definition stray_employee : Employee.t :=
  Employee.mk 10 (Some "Lecturer"%string) (PyNum.Fin 50000) 99 0 None 0.

Definition settled_employee : Employee.t :=
  Employee.mk 11 (Some "Professor"%string) (PyNum.Fin 90000) 2 0 None 0.

Definition sample_transformed : Loader.transformed_data :=
  Loader.mk_transformed
    [DateRow.mk 20260301 (Some 739676) 3] sample_departments [] [] [] []
    [stray_employee; settled_employee].

(** A conversion for the samples.  Timestamps and dates convert, and so
    does the text of 2023-09-01; any other value is NaT.  On a column that
    holds the two texts with different UTC offsets the conversion raises. *)
Definition sample_timestamp (v : Frame.cell) : option Frame.timestamp :=
  match v with
  | Frame.CTimestamp t => Some t
  | Frame.CDate d => Some (Frame.mk_timestamp d 0 None)
  | Frame.CStr s => if String.eqb s "2023-09-01"
                    then Some (Frame.mk_timestamp 738764 0 None) else None
  | _ => None
  end.

Definition is_text (t : string) (v : Frame.cell) : bool :=
  match v with
  | Frame.CStr s => String.eqb s t
  | _ => false
  end.

Definition sample_to_datetime : Frame.conversion :=
  fun column =>
    if existsb (is_text "2024-01-05 10:00+01:00") column
       && existsb (is_text "2024-01-05 10:00+02:00") column
    then None
    else Some (map sample_timestamp column).

Definition load_run : option (Loader.warehouse * list Loader.message * Rng.rng) :=
  Loader.load_transformed_data sample_to_datetime sample_transformed
    Loader.empty_warehouse counting.

Definition loaded : Loader.warehouse :=
  default Loader.empty_warehouse ((fun r => fst (fst r)) <$> load_run).
Definition load_log : list Loader.message := default [] ((fun r => snd (fst r)) <$> load_run).
Definition load_rng : Rng.rng := default counting (snd <$> load_run).

Definition sample_frame : Frame.dataframe :=
  [(Frame.Name "employee_id", [Frame.CInt 4; Frame.CInt 5]);
   (Frame.Name "hire_date",
      [Frame.CTimestamp (Frame.mk_timestamp 737000 36000 (Some 300)); Frame.CStr "soon"]);
   (Frame.Name "update", [Frame.CStr "2024-01-05"; Frame.CNull]);
   (Frame.Name "created_at", [Frame.CDate 739000; Frame.CNull])].

Definition sample_heap : Frame.heap := {[ 1%positive := sample_frame ]}.

(** A frame with the label [date] on two columns, a frame whose second
    label is the number 1, and a frame whose date-like column mixes two
    UTC offsets. *)
Definition repeated_label_frame : Frame.dataframe :=
  [(Frame.Name "date", [Frame.CDate 739000]); (Frame.Name "date", [Frame.CDate 739001])].

Definition numbered_label_frame : Frame.dataframe :=
  [(Frame.Name "employee_id", [Frame.CInt 4]); (Frame.Other 1, [Frame.CInt 5])].

Definition mixed_offsets_frame : Frame.dataframe :=
  [(Frame.Name "created_at",
      [Frame.CStr "2024-01-05 10:00+01:00"; Frame.CStr "2024-01-05 10:00+02:00"])].


(** Three rows of [dim_employee.csv]: the professor without salary; a
    lecturer that references department 99 and is managed by employee 7; a
    second row for employee 7. *)
Definition raw_employees : list Employee.csv :=
  [professor_without_salary;
   Employee.mk_csv 8 (Some "Lecturer"%string) (Employee.Number (PyNum.Fin 50000)) 99
                   (Some 7) (Some 737000);
   Employee.mk_csv 7 (Some "IT Support"%string) (Employee.Unparsable "n/a") 2 None None].

Definition employees_run : option (list Employee.t * Rng.rng) :=
  Transformer.transform_employees run_clock sample_departments raw_employees counting.

Definition cleaned_employees : list Employee.t := default [] (fst <$> employees_run).
Definition employees_rng : Rng.rng := default counting (snd <$> employees_run).


(** What [transform_dimensions] returns on the sample files, for the
    tables that the loader checks. *)
Definition pipeline_transformed : Loader.transformed_data :=
  Loader.mk_transformed
    [DateRow.mk 20260301 (Some 739676) 3]
    (Cleaning.clean_departments raw_employees sample_departments)
    [] [] [] cleaned_students cleaned_employees.

(** The cleaned students as written: [created_at] is a date or null. *)
Definition students_for_sql : list Student.t :=
  Loader.assign_created_at [Frame.CDate 738764; Frame.CNull] cleaned_students.

Definition pipeline_loaded : Loader.warehouse :=
  Loader.mk_warehouse
    [DateRow.mk 20260301 (Some 739676) 3]
    (Cleaning.clean_departments raw_employees sample_departments)
    [] [] [] students_for_sql cleaned_employees.

Definition pipeline_log : list Loader.message :=
  [Loader.Info "Loading transformed data into database..."; Loader.Info "Loaded dim_date";
   Loader.Info "Loaded dim_department"; Loader.Info "Loaded independent dimensions";
   Loader.Info "Loaded dim_employee"; Loader.Info "All transformed data loaded successfully!"].


(** Four rows of [dim_course.csv]: a code in lower case with blanks around
    it, a code without number, a missing code with 7 credit hours, and a
    second row for course 1. *)
Definition raw_courses : list RawCourse.t :=
  [RawCourse.mk 1 (Some " cs305 "%string) (Some 3);
   RawCourse.mk 2 (Some "Seminar"%string) None;
   RawCourse.mk 3 None (Some 7);
   RawCourse.mk 1 (Some "MAT101"%string) (Some 4)].

Definition courses_run : option (list CleanCourse.t * Rng.rng) :=
  Cleaning.transform_courses raw_courses counting.

Definition cleaned_courses_rows : list CleanCourse.t := default [] (fst <$> courses_run).
Definition courses_rng : Rng.rng := default counting (snd <$> courses_run).

Definition raw_accounts : list RawAccount.t :=
  [RawAccount.mk 1 (Some "Revenue"%string) "Tuition";
   RawAccount.mk 2 (Some "revenue"%string) "Tuition";
   RawAccount.mk 3 None "Salary"].

Definition sample_dates : list DateRow.t :=
  [DateRow.mk 20260301 (Some 739676) 3; DateRow.mk 20250301 (Some 739311) 3].

Definition sample_vendors : list Vendor.t := [Vendor.mk 1 "Acme"; Vendor.mk 2 "Globex"].

(** A date file that holds the key 20260301 twice. *)
Definition repeated_dates : list DateRow.t :=
  [DateRow.mk 20260301 (Some 739676) 3; DateRow.mk 20250301 (Some 739311) 3;
   DateRow.mk 20260301 (Some 739676) 3].


Definition sample_accounts : list Account.t :=
  [Account.mk 1 "Revenue" "Tuition"; Account.mk 2 "Expense" "Salary";
   Account.mk 3 "Asset" "Equipment"].

(** The date table as the finance rule reads it: a date of 2026, a date of
    2019 and a date whose year is NULL. *)
Definition sample_date_years : list DateYear.t :=
  [DateYear.mk 20260301 (Some 2026); DateYear.mk 20190301 (Some 2019);
   DateYear.mk 20250301 None].

Definition finance_run : option (list FinanceFact.t * Rng.rng) :=
  Finance.finance_facts sample_accounts sample_departments sample_vendors
    sample_date_years counting.

Definition finance_rows : list FinanceFact.t := default [] (fst <$> finance_run).
Definition finance_rng : Rng.rng := default counting (snd <$> finance_run).


(** Three documents of the departments collection: the second lacks the
    name, the third has a field that the first does not have. *)
Definition first_document : MongoExport.document :=
  [("_id"%string, Frame.CStr "65a1"); ("department_id"%string, Frame.CInt 1);
   ("department_name"%string, Frame.CStr "Computer Science")].

Definition second_document : MongoExport.document :=
  [("_id"%string, Frame.CStr "65a2"); ("department_id"%string, Frame.CInt 2)].

Definition third_document : MongoExport.document :=
  [("_id"%string, Frame.CStr "65a3"); ("department_id"%string, Frame.CInt 3);
   ("budget"%string, Frame.CInt 1000)].

End Samples.

(* ===================================================================== *)
(** * Properties of the date key                                          *)
(* ===================================================================== *)

Section DateKeyFacts.

Import DateDim.

Lemma digit_val_digit (k : Z) : 0 <= k <= 9 -> digit_val (digit k) = k.
Proof.
  intros Hk.
  assert (Hc : k = 0 \/ k = 1 \/ k = 2 \/ k = 3 \/ k = 4 \/
               k = 5 \/ k = 6 \/ k = 7 \/ k = 8 \/ k = 9) by lia.
  repeat (destruct Hc as [-> | Hc]; [reflexivity |]).
  subst k. reflexivity.
Qed.

Lemma mod10_digit (n : Z) : 0 <= n mod 10 <= 9.
Proof. pose proof (Z.mod_pos_bound n 10). lia. Qed.

(** The key is the number whose decimal positions are year, month, day. *)
Lemma date_key_value (d : date) :
  0 <= year d <= 9999 -> 0 <= month d <= 99 -> 0 <= day d <= 99 ->
  date_key d = year d * 10000 + month d * 100 + day d.
Proof.
  intros Hy Hm Hd.
  unfold date_key, int_of_string, strftime_Ymd, pad4, pad2. simpl.
  rewrite !digit_val_digit by apply mod10_digit.
  generalize (year d) (month d) (day d) Hy Hm Hd. clear.
  intros y m dd Hy Hm Hd.
  Z.div_mod_to_equations. lia.
Qed.

Lemma days_in_month_bounds (y m : Z) : 28 <= days_in_month y m <= 31.
Proof.
  unfold days_in_month.
  destruct (m =? 2); [destruct (is_leap y); lia |].
  destruct ((m =? 4) || (m =? 6) || (m =? 9) || (m =? 11)); lia.
Qed.

Lemma valid_date_spec (d : date) :
  valid_date d = true <->
  1 <= year d <= 9999 /\ 1 <= month d <= 12 /\
  1 <= day d <= days_in_month (year d) (month d).
Proof.
  unfold valid_date, MINYEAR, MAXYEAR.
  rewrite !andb_true_iff, !Z.leb_le. tauto.
Qed.

(** Decoding undoes encoding on every value a [datetime.date] can hold. *)
Lemma decode_date_key_inv (d : date) :
  valid_date d = true -> decode_date_key (date_key d) = d.
Proof.
  intros Hv. apply valid_date_spec in Hv as (Hy & Hm & Hd).
  pose proof (days_in_month_bounds (year d) (month d)) as Hb.
  rewrite date_key_value by lia.
  destruct d as [y m dd]. simpl in *. unfold decode_date_key. f_equal.
  - Z.div_mod_to_equations. lia.
  - Z.div_mod_to_equations. lia.
  - Z.div_mod_to_equations. lia.
Qed.

Lemma date_key_injective (d1 d2 : date) :
  valid_date d1 = true -> valid_date d2 = true ->
  date_key d1 = date_key d2 -> d1 = d2.
Proof.
  intros H1 H2 Hk.
  rewrite <- (decode_date_key_inv d1 H1), <- (decode_date_key_inv d2 H2).
  now rewrite Hk.
Qed.

Lemma date_key_eight_digits (d : date) :
  valid_date d = true -> 1000 <= year d ->
  10000000 <= date_key d <= 99999999.
Proof.
  intros Hv Hy. apply valid_date_spec in Hv as (Hy' & Hm & Hd).
  pose proof (days_in_month_bounds (year d) (month d)) as Hb.
  rewrite date_key_value by lia. lia.
Qed.

Lemma date_succ_valid (d d' : date) :
  valid_date d = true -> date_succ d = Some d' -> valid_date d' = true.
Proof.
  intros Hv Hs. apply valid_date_spec in Hv as (Hy & Hm & Hd).
  unfold date_succ, MAXYEAR in Hs.
  destruct (Z.ltb_spec (day d) (days_in_month (year d) (month d))).
  { inversion Hs; subst. apply valid_date_spec. simpl. lia. }
  destruct (Z.ltb_spec (month d) 12).
  { inversion Hs; subst. apply valid_date_spec. simpl.
    pose proof (days_in_month_bounds (year d) (month d + 1)). lia. }
  destruct (Z.ltb_spec (year d) 9999); [| discriminate].
  inversion Hs; subst. apply valid_date_spec. simpl.
  pose proof (days_in_month_bounds (year d + 1) 1). lia.
Qed.

Lemma date_pred_valid (d d' : date) :
  valid_date d = true -> date_pred d = Some d' -> valid_date d' = true.
Proof.
  intros Hv Hs. apply valid_date_spec in Hv as (Hy & Hm & Hd).
  unfold date_pred, MINYEAR in Hs.
  destruct (Z.ltb_spec 1 (day d)).
  { inversion Hs; subst. apply valid_date_spec. simpl. lia. }
  destruct (Z.ltb_spec 1 (month d)).
  { inversion Hs; subst. apply valid_date_spec. simpl.
    pose proof (days_in_month_bounds (year d) (month d - 1)). lia. }
  destruct (Z.ltb_spec 1 (year d)); [| discriminate].
  inversion Hs; subst. apply valid_date_spec. simpl.
  change (days_in_month (year d - 1) 12) with 31. lia.
Qed.

Lemma date_sub_days_valid (n : nat) (d d' : date) :
  valid_date d = true -> date_sub_days n d = Some d' -> valid_date d' = true.
Proof.
  revert d. induction n as [| n IH]; intros d Hv Hs; simpl in Hs.
  - now inversion Hs; subst.
  - destruct (date_pred d) as [p |] eqn:Hp; [| discriminate].
    eapply IH; [| exact Hs]. eapply date_pred_valid; eauto.
Qed.

(** Every row the loop emits carries a valid date and the key of that date. *)
Lemma date_loop_rows (fuel : nat) (d end_ : date) (rows : list date_row) :
  valid_date d = true -> date_loop fuel d end_ = Some rows ->
  Forall (fun r => valid_date (r_date r) = true /\ r_date_key r = date_key (r_date r)) rows.
Proof.
  revert d rows. induction fuel as [| f IH]; intros d rows Hv Hl; simpl in Hl.
  - discriminate.
  - destruct (date_leb d end_).
    + destruct (date_succ d) as [d' |] eqn:Hs; [| discriminate].
      destruct (date_loop f d' end_) as [rs |] eqn:Hr; [| discriminate].
      inversion Hl; subst. constructor.
      * split; [exact Hv | reflexivity].
      * eapply IH; [| exact Hr]. eapply date_succ_valid; eauto.
    + inversion Hl; subst. constructor.
Qed.

Lemma generate_dates_rows (fuel : nat) (today : date) (rows : list date_row) :
  valid_date today = true -> generate_dates fuel today = Some rows ->
  Forall (fun r => valid_date (r_date r) = true /\ r_date_key r = date_key (r_date r)) rows.
Proof.
  intros Hv Hg. unfold generate_dates in Hg.
  destruct (date_sub_days (365 * 3) today) as [start |] eqn:Hs; [| discriminate].
  eapply date_loop_rows; [| exact Hg].
  eapply date_sub_days_valid; eauto.
Qed.

(** ** The loop of the generator terminates *)

Lemma date_leb_true (a b : date) :
  date_leb a b = true <->
  year a < year b \/
  (year a = year b /\ (month a < month b \/ (month a = month b /\ day a <= day b))).
Proof.
  unfold date_leb.
  rewrite orb_true_iff, andb_true_iff, orb_true_iff, andb_true_iff.
  rewrite !Z.ltb_lt, !Z.eqb_eq, Z.leb_le. tauto.
Qed.

Lemma date_leb_false (a b : date) :
  date_leb a b = false <->
  year b < year a \/
  (year b = year a /\ (month b < month a \/ (month b = month a /\ day b < day a))).
Proof.
  rewrite <- not_true_iff_false, date_leb_true. lia.
Qed.

Lemma date_leb_refl (a : date) : date_leb a a = true.
Proof. apply date_leb_true. lia. Qed.

Lemma date_leb_trans (a b c : date) :
  date_leb a b = true -> date_leb b c = true -> date_leb a c = true.
Proof. rewrite !date_leb_true. lia. Qed.

Lemma date_succ_cases (d s : date) :
  date_succ d = Some s ->
  (day d < days_in_month (year d) (month d) /\ s = mk_date (year d) (month d) (day d + 1)) \/
  (days_in_month (year d) (month d) <= day d /\ month d < 12 /\
     s = mk_date (year d) (month d + 1) 1) \/
  (days_in_month (year d) (month d) <= day d /\ 12 <= month d /\ year d < MAXYEAR /\
     s = mk_date (year d + 1) 1 1).
Proof.
  unfold date_succ.
  destruct (Z.ltb_spec (day d) (days_in_month (year d) (month d))).
  { intros H0. inversion H0. auto. }
  destruct (Z.ltb_spec (month d) 12).
  { intros H1. inversion H1. auto. }
  destruct (Z.ltb_spec (year d) MAXYEAR); [| discriminate].
  intros H2. inversion H2. auto 10.
Qed.

Lemma date_succ_gt (d s : date) :
  valid_date d = true -> date_succ d = Some s ->
  date_leb d s = true /\ date_leb s d = false.
Proof.
  intros Hv Hs. apply valid_date_spec in Hv as (Hy & Hm & Hd).
  apply date_succ_cases in Hs as [[H1 ->] | [(H1 & H2 & ->) | (H1 & H2 & H3 & ->)]];
    rewrite date_leb_true, date_leb_false; simpl; lia.
Qed.

Lemma date_pred_succ (d p : date) :
  valid_date d = true -> date_pred d = Some p -> date_succ p = Some d.
Proof.
  intros Hv Hp. apply valid_date_spec in Hv as (Hy & Hm & Hd).
  unfold date_pred, MINYEAR in Hp. destruct d as [y m dd]. simpl in *.
  destruct (Z.ltb_spec 1 dd).
  { inversion Hp; subst. unfold date_succ. simpl.
    destruct (Z.ltb_spec (dd - 1) (days_in_month y m)); [| lia].
    do 2 f_equal. lia. }
  destruct (Z.ltb_spec 1 m).
  { inversion Hp; subst. unfold date_succ. simpl.
    rewrite Z.ltb_irrefl.
    destruct (Z.ltb_spec (m - 1) 12); [| lia].
    do 2 f_equal; lia. }
  destruct (Z.ltb_spec 1 y); [| discriminate].
  inversion Hp; subst. unfold date_succ, MAXYEAR. simpl.
  change (days_in_month (y - 1) 12) with 31. simpl.
  destruct (Z.ltb_spec (y - 1) 9999); [| lia].
  do 2 f_equal; lia.
Qed.

(** No date lies strictly between a date and its successor. *)
Lemma date_succ_least (d s x : date) :
  valid_date d = true -> valid_date x = true -> date_succ d = Some s ->
  date_leb x d = false -> date_leb s x = true.
Proof.
  intros Hvd Hvx Hs Hgt.
  apply valid_date_spec in Hvd as (Hy & Hm & Hd).
  apply valid_date_spec in Hvx as (Hy' & Hm' & Hd').
  apply date_leb_false in Hgt. apply date_leb_true.
  apply date_succ_cases in Hs as [[H1 ->] | [(H1 & H2 & ->) | (H1 & H2 & H3 & ->)]];
    simpl.
  - lia.
  - destruct (Z.eq_dec (year x) (year d)) as [Ey | Ney]; [| lia].
    destruct (Z.eq_dec (month x) (month d)) as [Em | Nem]; [| lia].
    rewrite Ey, Em in Hd'. lia.
  - destruct (Z.eq_dec (year x) (year d)) as [Ey | Ney]; [| lia].
    destruct (Z.eq_dec (month x) (month d)) as [Em | Nem]; [| lia].
    rewrite Ey, Em in Hd'. lia.
Qed.

Lemma date_leb_antisym (a b : date) :
  date_leb a b = true -> date_leb b a = true -> a = b.
Proof.
  rewrite !date_leb_true. destruct a, b; simpl. intros H1 H2.
  f_equal; lia.
Qed.

(** Extending the end of the range by one day adds one row at the end. *)
Lemma date_loop_extend (fuel : nat) (s p e x : date) (rows : list date_row) :
  valid_date s = true -> valid_date p = true ->
  date_succ p = Some e -> date_succ e = Some x ->
  date_leb s e = true ->
  date_loop fuel s p = Some rows ->
  date_loop (S fuel) s e = Some (rows ++ [make_row e]).
Proof.
  intros Hvs Hvp Hpe Hex. revert s rows Hvs.
  assert (Hve : valid_date e = true) by (eapply date_succ_valid; eauto).
  destruct (date_succ_gt e x Hve Hex) as [_ Hxe].
  induction fuel as [| f IH]; intros s rows Hvs Hse Hloop; [discriminate |].
  cbn [date_loop] in Hloop.
  destruct (date_leb s p) eqn:Hsp.
  - destruct (date_succ s) as [s' |] eqn:Hs'; [| discriminate].
    destruct (date_loop f s' p) as [rs |] eqn:Hrs; [| discriminate].
    inversion Hloop; subst; clear Hloop.
    assert (Hvs' : valid_date s' = true) by (eapply date_succ_valid; eauto).
    assert (Hs'e : date_leb s' e = true).
    { destruct (date_leb p s) eqn:Hps.
      - assert (s = p) by (apply date_leb_antisym; assumption). subst s.
        rewrite Hpe in Hs'. inversion Hs'; subst. apply date_leb_refl.
      - apply (date_leb_trans s' p e).
        + exact (date_succ_least s s' p Hvs Hvp Hs' Hps).
        + exact (proj1 (date_succ_gt p e Hvp Hpe)). }
    pose proof (IH s' rs Hvs' Hs'e Hrs) as Hrec.
    change (date_loop (S (S f)) s e) with
      (if date_leb s e then
         match date_succ s with
         | Some d' => match date_loop (S f) d' e with
                      | Some rows => Some (make_row s :: rows)
                      | None => None
                      end
         | None => None
         end
       else Some []).
    rewrite Hse, Hs', Hrec. reflexivity.
  - inversion Hloop; subst; clear Hloop.
    assert (Hes : date_leb e s = true)
      by exact (date_succ_least p e s Hvp Hvs Hpe Hsp).
    assert (s = e) by (apply date_leb_antisym; assumption). subst s.
    cbn [date_loop]. rewrite date_leb_refl, Hex, Hxe. reflexivity.
Qed.

Lemma date_pred_le (d p : date) :
  valid_date d = true -> date_pred d = Some p -> date_leb p d = true.
Proof.
  intros Hv Hp. pose proof (date_pred_valid d p Hv Hp) as Hvp.
  apply date_pred_succ in Hp; [| exact Hv].
  now apply date_succ_gt in Hp.
Qed.

Lemma date_sub_days_le (n : nat) (d s : date) :
  valid_date d = true -> date_sub_days n d = Some s -> date_leb s d = true.
Proof.
  revert d. induction n as [| n IH]; intros d Hv Hs; simpl in Hs.
  - inversion Hs; subst. apply date_leb_refl.
  - destruct (date_pred d) as [p |] eqn:Hp; [| discriminate].
    eapply date_leb_trans; [eapply IH; [| exact Hs] | eapply date_pred_le; eauto].
    eapply date_pred_valid; eauto.
Qed.

(** The loop over [n + 1] days returns [n + 1] rows. *)
Lemma date_loop_total (n : nat) (e s x : date) (fuel : nat) :
  valid_date e = true -> date_sub_days n e = Some s -> date_succ e = Some x ->
  (n + 2 <= fuel)%nat ->
  exists rows, date_loop fuel s e = Some rows /\ length rows = S n.
Proof.
  revert e s x fuel. induction n as [| n IH]; intros e s x fuel Hv Hs Hx Hfuel.
  - simpl in Hs. inversion Hs; subst.
    destruct fuel as [| [| f]]; [lia | lia |].
    destruct (date_succ_gt s x Hv Hx) as [_ Hxs].
    cbn [date_loop]. rewrite date_leb_refl, Hx, Hxs.
    eexists. split; reflexivity.
  - simpl in Hs. destruct (date_pred e) as [p |] eqn:Hp; [| discriminate].
    pose proof (date_pred_valid e p Hv Hp) as Hvp.
    pose proof (date_pred_succ e p Hv Hp) as Hpe.
    destruct fuel as [| f]; [lia |].
    destruct (IH p s e f Hvp Hs Hpe) as (rows & Hrows & Hlen); [lia |].
    exists (rows ++ [make_row e]). split.
    + eapply date_loop_extend; eauto.
      * eapply date_sub_days_valid; eauto.
      * apply (date_leb_trans s p e).
        -- exact (date_sub_days_le n p s Hvp Hs).
        -- exact (proj1 (date_succ_gt p e Hvp Hpe)).
    + rewrite length_app, Hlen. simpl. lia.
Qed.

(** A lower bound on the number of days since 0001-01-01 that a step back
    decreases by at most one. *)
Lemma date_pred_measure (d : date) :
  valid_date d = true ->
  0 < 339 * (year d - 1) + 28 * (month d - 1) + (day d - 1) ->
  exists p, date_pred d = Some p /\
    339 * (year d - 1) + 28 * (month d - 1) + (day d - 1) - 1
    <= 339 * (year p - 1) + 28 * (month p - 1) + (day p - 1).
Proof.
  intros Hv Hpos. apply valid_date_spec in Hv as (Hy & Hm & Hd).
  unfold date_pred, MINYEAR.
  destruct (Z.ltb_spec 1 (day d)).
  { eexists. split; [reflexivity |]. simpl. lia. }
  destruct (Z.ltb_spec 1 (month d)).
  { eexists. split; [reflexivity |]. simpl.
    pose proof (days_in_month_bounds (year d) (month d - 1)). lia. }
  destruct (Z.ltb_spec 1 (year d)); [| lia].
  eexists. split; [reflexivity |]. simpl. lia.
Qed.

Lemma date_sub_days_total (n : nat) (d : date) :
  valid_date d = true ->
  Z.of_nat n <= 339 * (year d - 1) + 28 * (month d - 1) + (day d - 1) ->
  exists s, date_sub_days n d = Some s.
Proof.
  revert d. induction n as [| n IH]; intros d Hv Hn; simpl.
  - eauto.
  - destruct (date_pred_measure d Hv) as (p & Hp & Hle); [lia |].
    rewrite Hp. apply IH; [eapply date_pred_valid; eauto | lia].
Qed.

(** The generator returns its 1096 rows for every day of the run from
    year 5 to year 9998. *)
Lemma generate_dates_total (fuel : nat) (today : date) :
  valid_date today = true -> 5 <= year today < MAXYEAR -> (1097 <= fuel)%nat ->
  exists rows, generate_dates fuel today = Some rows /\ length rows = 1096%nat.
Proof.
  intros Hv Hy Hfuel. unfold generate_dates.
  pose proof Hv as Hv'. apply valid_date_spec in Hv' as (Hy' & Hm & Hd).
  destruct (date_sub_days_total (365 * 3) today Hv) as (start & Hstart); [lia |].
  rewrite Hstart.
  assert (Hx : exists x, date_succ today = Some x).
  { unfold date_succ. destruct (_ <? _); [eauto |]. destruct (_ <? _); [eauto |].
    destruct (Z.ltb_spec (year today) MAXYEAR); [eauto | lia]. }
  destruct Hx as (x & Hx).
  apply (date_loop_total (365 * 3) today start x fuel Hv Hstart Hx). lia.
Qed.

(** C7. On the date range written by the generator the date key
    [int(d.strftime("%Y%m%d"))] has an inverse, [decode_date_key]: decoding
    the key of a generated row gives back the date of the row; hence two
    generated rows with the same key have the same date.  The key has eight
    digits from year 1000 on. *)
Theorem date_key_round_trip (fuel : nat) (today : date) (rows : list date_row) :
  valid_date today = true ->
  generate_dates fuel today = Some rows ->
  (forall r, In r rows ->
     r_date_key r = date_key (r_date r) /\
     decode_date_key (r_date_key r) = r_date r /\
     (1000 <= r_year r -> 10000000 <= r_date_key r <= 99999999)) /\
  (forall r1 r2, In r1 rows -> In r2 rows ->
     r_date_key r1 = r_date_key r2 -> r_date r1 = r_date r2).
Proof.
  intros Hv Hg.
  pose proof (generate_dates_rows fuel today rows Hv Hg) as Hall.
  rewrite List.Forall_forall in Hall.
  assert (Hy : forall r, In r rows -> r_year r = year (r_date r)).
  { unfold generate_dates in Hg.
    destruct (date_sub_days (365 * 3) today) as [start |]; [| discriminate].
    clear Hall Hv. revert start rows Hg.
    induction fuel as [| f IH]; intros start rows Hg r Hr; simpl in Hg; [discriminate |].
    destruct (date_leb start today).
    - destruct (date_succ start) as [d' |]; [| discriminate].
      destruct (date_loop f d' today) as [rs |] eqn:Hl; [| discriminate].
      inversion Hg; subst. destruct Hr as [<- | Hr]; [reflexivity |].
      eapply IH; eauto.
    - inversion Hg; subst. destruct Hr. }
  split.
  - intros r Hr. destruct (Hall r Hr) as [Hvr Hk].
    split; [exact Hk |]. split.
    + rewrite Hk. now apply decode_date_key_inv.
    + intros H1000. rewrite Hk. apply date_key_eight_digits; [exact Hvr |].
      rewrite <- (Hy r Hr). exact H1000.
  - intros r1 r2 H1 H2 Hk.
    destruct (Hall r1 H1) as [Hv1 Hk1]. destruct (Hall r2 H2) as [Hv2 Hk2].
    apply date_key_injective; congruence.
Qed.

(** A run of the generator on 2026-11-03: 1096 rows. *)
Lemma date_key_round_trip_witness :
  valid_date Samples.run_day = true /\
  generate_dates 1100 Samples.run_day = Some Samples.generated /\
  length Samples.generated = 1096%nat /\
  (forall r, In r Samples.generated ->
     r_date_key r = date_key (r_date r) /\
     decode_date_key (r_date_key r) = r_date r /\
     (1000 <= r_year r -> 10000000 <= r_date_key r <= 99999999)) /\
  (forall r1 r2, In r1 Samples.generated -> In r2 Samples.generated ->
     r_date_key r1 = r_date_key r2 -> r_date r1 = r_date r2).
Proof.
  split; [reflexivity |].
  split; [vm_compute; reflexivity |].
  split; [vm_compute; reflexivity |].
  apply (date_key_round_trip 1100 Samples.run_day Samples.generated);
    [reflexivity | vm_compute; reflexivity].
Defined.

End DateKeyFacts.

(* ===================================================================== *)
(** * Properties of the Python number model                               *)
(* ===================================================================== *)

Section PyNumFacts.

Import PyNum.
Local Open Scope Q_scope.

Lemma Qltb_true (a b : Q) : Qltb a b = true <-> a < b.
Proof.
  unfold Qltb. rewrite Qlt_alt. destruct (Qcompare a b); split; congruence.
Qed.

Lemma Qltb_false (a b : Q) : Qltb a b = false <-> b <= a.
Proof.
  split.
  - intros H. apply Qnot_lt_le. intros Hlt. apply Qltb_true in Hlt. congruence.
  - intros H. destruct (Qltb a b) eqn:E; [| reflexivity].
    apply Qltb_true in E. apply Qle_not_lt in H. contradiction.
Qed.

(** [max(lo, min(hi, x))] lies in [lo, hi]. *)
Lemma clip_bounds (lo hi x : Q) :
  lo <= hi -> lo <= py_max lo (py_min hi x) /\ py_max lo (py_min hi x) <= hi.
Proof.
  intros Hlh. unfold py_max, py_min.
  destruct (Qltb x hi) eqn:E1.
  - apply Qltb_true in E1.
    destruct (Qltb lo x) eqn:E2.
    + apply Qltb_true in E2. split; lra.
    + split; lra.
  - apply Qltb_false in E1.
    destruct (Qltb lo hi) eqn:E2.
    + split; lra.
    + split; lra.
Qed.

Lemma round_half_even_bounds (lo hi : Z) (q : Q) :
  inject_Z lo <= q -> q <= inject_Z hi ->
  (lo <= round_half_even q <= hi)%Z.
Proof.
  intros Hlo Hhi.
  assert (Hf1 : (lo <= Qfloor q)%Z).
  { rewrite <- (Qfloor_Z lo). now apply Qfloor_resp_le. }
  assert (Hf2 : (Qfloor q <= hi)%Z).
  { rewrite <- (Qfloor_Z hi). now apply Qfloor_resp_le. }
  pose proof (Qfloor_le q) as Hfl.
  unfold round_half_even.
  destruct (Qcompare (q - inject_Z (Qfloor q)) (1 # 2)) eqn:E.
  - apply Qeq_alt in E.
    assert (Hlt : inject_Z (Qfloor q) < inject_Z hi) by lra.
    rewrite <- Zlt_Qlt in Hlt.
    destruct (Z.even (Qfloor q)); lia.
  - lia.
  - apply Qgt_alt in E.
    assert (Hlt : inject_Z (Qfloor q) < inject_Z hi) by lra.
    rewrite <- Zlt_Qlt in Hlt. lia.
Qed.

(** Rounding to [n] decimals does not leave an interval with integer ends. *)
Lemma py_round_bounds (lo hi : Z) (q : Q) (n : nat) :
  inject_Z lo <= q -> q <= inject_Z hi ->
  inject_Z lo <= py_round q n /\ py_round q n <= inject_Z hi.
Proof.
  intros Hlo Hhi. unfold py_round.
  set (scale := (10 ^ Z.of_nat n)%Z).
  assert (Hs : (0 < scale)%Z) by (apply Z.pow_pos_nonneg; lia).
  assert (HS : 0 < inject_Z scale).
  { change 0 with (inject_Z 0). now rewrite <- Zlt_Qlt. }
  destruct (round_half_even_bounds (lo * scale) (hi * scale) (q * inject_Z scale))
    as [H1 H2].
  - rewrite inject_Z_mult. apply Qmult_le_compat_r; [exact Hlo | lra].
  - rewrite inject_Z_mult. apply Qmult_le_compat_r; [exact Hhi | lra].
  - rewrite Zle_Qle, inject_Z_mult in H1. rewrite Zle_Qle, inject_Z_mult in H2.
    split.
    + apply Qle_shift_div_l; assumption.
    + apply Qle_shift_div_r; assumption.
Qed.

(** [random.random()] is in [0, 1). *)
Lemma random_random_range (g g' : Rng.rng) (u : Q) :
  Rng.random_random g = Some (u, g') -> 0 <= u /\ u < 1.
Proof.
  unfold Rng.random_random, Rng.bind, Rng.next_raw, Rng.ret.
  intros H. inversion H; subst; clear H.
  assert (Hb : (Rng.raw g (Rng.pos g) mod 2 ^ 53 < 2 ^ 53)%N)
    by (apply N.mod_upper_bound; discriminate).
  set (r := (Rng.raw g (Rng.pos g) mod 2 ^ 53)%N) in *.
  assert (Hz : (0 <= Z.of_N r < 2 ^ 53)%Z).
  { split; [apply N2Z.is_nonneg |].
    change (2 ^ 53)%Z with (Z.of_N (2 ^ 53)%N). now apply N2Z.inj_lt. }
  unfold Qle, Qlt. simpl Qnum. simpl Qden.
  rewrite Z.mul_1_r. change (Z.pos (2 ^ 53)) with (2 ^ 53)%Z. lia.
Qed.

Lemma uniform_of_bounds (a b u : Q) :
  a <= b -> 0 <= u -> u <= 1 ->
  a <= Rng.uniform_of a b u /\ Rng.uniform_of a b u <= b.
Proof.
  intros Hab H0 H1. unfold Rng.uniform_of. split; nra.
Qed.

(** [random.uniform(a, b)] is in [a, b] when [a <= b]. *)
Lemma random_uniform_range (a b : Q) (g g' : Rng.rng) (x : Q) :
  a <= b -> Rng.random_uniform a b g = Some (x, g') -> a <= x /\ x <= b.
Proof.
  intros Hab. unfold Rng.random_uniform, Rng.bind.
  destruct (Rng.random_random g) as [[u g1] |] eqn:Hu; [| discriminate].
  unfold Rng.ret. intros H. inversion H; subst; clear H.
  apply random_random_range in Hu as [H0 H1].
  apply uniform_of_bounds; lra.
Qed.

End PyNumFacts.

(* ===================================================================== *)
(** * Properties of the random monad and of the list helpers              *)
(* ===================================================================== *)

Section RandFacts.

Context {A B : Type}.

(** What [mapM] returns is, element by element, what [f] returned. *)
Lemma mapM_Forall2 (f : A -> Rng.Rand B) (l : list A) (g g' : Rng.rng) (ys : list B) :
  Rng.mapM f l g = Some (ys, g') ->
  Forall2 (fun x y => exists g1 g2, f x g1 = Some (y, g2)) l ys.
Proof.
  revert g ys. induction l as [| x xs IH]; intros g ys H; simpl in H.
  - inversion H; subst. constructor.
  - unfold Rng.bind in H.
    destruct (f x g) as [[y g1] |] eqn:Hf; [| discriminate].
    destruct (Rng.mapM f xs g1) as [[ys' g2] |] eqn:Hm; [| discriminate].
    inversion H; subst. constructor; eauto.
Qed.

(** [mapM] of a function that never raises never raises. *)
Lemma mapM_total (f : A -> Rng.Rand B) (l : list A) (g : Rng.rng) :
  (forall x g0, In x l -> exists y g1, f x g0 = Some (y, g1)) ->
  exists ys g', Rng.mapM f l g = Some (ys, g').
Proof.
  revert g. induction l as [| x xs IH]; intros g Hf; simpl.
  - eexists _, _. reflexivity.
  - destruct (Hf x g (or_introl eq_refl)) as (y & g1 & Hy).
    destruct (IH g1) as (ys & g2 & Hys).
    { intros x0 g0 Hin. apply Hf. now right. }
    unfold Rng.bind. rewrite Hy, Hys. eexists _, _. reflexivity.
Qed.

Lemma mapM_length (f : A -> Rng.Rand B) (l : list A) (g g' : Rng.rng) (ys : list B) :
  Rng.mapM f l g = Some (ys, g') -> length ys = length l.
Proof.
  intros H. apply mapM_Forall2 in H. symmetry. eapply Forall2_length; eauto.
Qed.

(** A deterministic projection of the results of [mapM]. *)
Lemma mapM_map {C : Type} (f : A -> Rng.Rand B) (p : B -> C) (q : A -> C)
    (l : list A) (g g' : Rng.rng) (ys : list B) :
  (forall x g1 y g2, f x g1 = Some (y, g2) -> p y = q x) ->
  Rng.mapM f l g = Some (ys, g') -> map p ys = map q l.
Proof.
  intros Hpq H. apply mapM_Forall2 in H.
  induction H as [| x y xs ys' Hxy HF IH]; simpl; [reflexivity |].
  destruct Hxy as (g1 & g2 & Hxy). f_equal; eauto.
Qed.

Lemma bind_Some (m : Rng.Rand A) (k : A -> Rng.Rand B) (g g' : Rng.rng) (b : B) :
  Rng.bind m k g = Some (b, g') ->
  exists a g1, m g = Some (a, g1) /\ k a g1 = Some (b, g').
Proof.
  unfold Rng.bind. destruct (m g) as [[a g1] |]; [| discriminate]. eauto.
Qed.

Lemma mapM_In (f : A -> Rng.Rand B) (l : list A) (g g' : Rng.rng) (ys : list B) (y : B) :
  Rng.mapM f l g = Some (ys, g') -> In y ys ->
  exists x g1 g2, In x l /\ f x g1 = Some (y, g2).
Proof.
  intros H Hy. apply mapM_Forall2 in H.
  induction H as [| x y0 xs ys' Hxy HF IH]; [destruct Hy |].
  destruct Hy as [-> | Hy].
  - destruct Hxy as (g1 & g2 & Hxy). exists x, g1, g2. split; [now left | exact Hxy].
  - destruct (IH Hy) as (x0 & g1 & g2 & Hin & Hf). exists x0, g1, g2.
    split; [now right | exact Hf].
Qed.

End RandFacts.

Section ListFacts.

Import Transformer.

Context {A : Type}.

Lemma drop_duplicates_from_incl (key : A -> Z) (seen : gset Z) (l : list A) (x : A) :
  In x (drop_duplicates_from key seen l) -> In x l /\ key x ∉ seen.
Proof.
  revert seen. induction l as [| y ys IH]; intros seen H; simpl in H; [destruct H |].
  case_bool_decide as Hs.
  - apply IH in H as [H1 H2]. split; [now right | exact H2].
  - destruct H as [<- | H].
    + split; [now left | exact Hs].
    + apply IH in H as [H1 H2]. split; [now right |].
      intros Hx. apply H2, elem_of_union. now right.
Qed.

Lemma drop_duplicates_incl (key : A -> Z) (l : list A) (x : A) :
  In x (drop_duplicates key l) -> In x l.
Proof. intros H. now apply drop_duplicates_from_incl in H. Qed.

Lemma drop_duplicates_from_NoDup (key : A -> Z) (seen : gset Z) (l : list A) :
  NoDup (map key (drop_duplicates_from key seen l)).
Proof.
  revert seen. induction l as [| y ys IH]; intros seen; simpl; [constructor |].
  case_bool_decide as Hs; [apply IH |].
  simpl. constructor; [| apply IH].
  rewrite list_elem_of_In, in_map_iff. intros (z & Hz & Hin).
  apply drop_duplicates_from_incl in Hin as [_ Hn]. set_solver.
Qed.

(** Dropping duplicates commutes with a projection that keeps the key. *)
Lemma drop_duplicates_from_map {C : Type} (p : A -> C) (key : A -> Z) (key' : C -> Z)
    (seen : gset Z) (l : list A) :
  (forall x, key' (p x) = key x) ->
  map p (drop_duplicates_from key seen l) = drop_duplicates_from key' seen (map p l).
Proof.
  intros Hk. revert seen. induction l as [| y ys IH]; intros seen; simpl; [reflexivity |].
  rewrite Hk. case_bool_decide; simpl; now rewrite IH.
Qed.

Lemma filter_map_comm {C : Type} (p : A -> C) (f : C -> bool) (l : list A) :
  List.filter f (map p l) = map p (List.filter (fun x => f (p x)) l).
Proof.
  induction l as [| y ys IH]; simpl; [reflexivity |].
  destruct (f (p y)); simpl; now rewrite IH.
Qed.

End ListFacts.

(* ===================================================================== *)
(** * Properties of the Dimension Transformer: students                   *)
(* ===================================================================== *)

Section StudentFacts.

Import Transformer.

Lemma randint_of_range (a b : Z) (k : N) : a <= b -> a <= Rng.randint_of a b k <= b.
Proof.
  intros Hab. unfold Rng.randint_of.
  pose proof (Z.mod_pos_bound (Z.of_N k) (b - a + 1)). lia.
Qed.

Lemma random_randint_range (a b : Z) (g g' : Rng.rng) (x : Z) :
  Rng.random_randint a b g = Some (x, g') -> a <= x <= b.
Proof.
  unfold Rng.random_randint. destruct (Z.leb_spec a b) as [Hab | Hab]; [| discriminate].
  unfold Rng.bind, Rng.next_raw, Rng.ret. intros H. inversion H; subst.
  now apply randint_of_range.
Qed.

Lemma random_randint_total (a b : Z) (g : Rng.rng) :
  a <= b -> exists x g', Rng.random_randint a b g = Some (x, g').
Proof.
  intros Hab. unfold Rng.random_randint.
  destruct (Z.leb_spec a b); [| lia]. eexists _, _. reflexivity.
Qed.

(** [int] of a float that lies between two whole numbers. *)
Lemma py_int_bounds (lo hi : Z) (q : Q) :
  0 <= lo -> (inject_Z lo <= q)%Q -> (q <= inject_Z hi)%Q ->
  lo <= PyNum.py_int q <= hi.
Proof.
  intros Hlo H1 H2. destruct q as [n d]. unfold PyNum.py_int, Qle in *. simpl in *.
  assert (Hn : 0 <= n) by nia.
  rewrite Z.quot_div_nonneg by lia. split.
  - apply Z.div_le_lower_bound; lia.
  - apply Z.div_le_upper_bound; lia.
Qed.

(** A float whose whole part lies between two whole numbers, the lower
    one positive. *)
Lemma py_int_inv (lo hi : Z) (q : Q) :
  0 < lo -> lo <= PyNum.py_int q <= hi ->
  (inject_Z lo <= q)%Q /\ (q < inject_Z (hi + 1))%Q.
Proof.
  intros Hlo [H1 H2]. destruct q as [n d]. unfold PyNum.py_int, Qle, Qlt in *. simpl in *.
  assert (Hn : 0 <= n).
  { destruct (Z.le_gt_cases 0 n) as [| Hneg]; [assumption |].
    pose proof (Z.quot_opp_l n (Z.pos d) ltac:(lia)) as Ho.
    pose proof (Z.quot_pos (- n) (Z.pos d) ltac:(lia) ltac:(lia)). lia. }
  rewrite Z.quot_div_nonneg in H1, H2 by lia.
  pose proof (Z.mul_div_le n (Z.pos d) ltac:(lia)).
  pose proof (Z.mul_succ_div_gt n (Z.pos d) ltac:(lia)).
  split; nia.
Qed.

(** One application of the admission year lambda: the value is kept, with
    its whole part in [2000, current_year], or drawn in
    [2019, current_year]. *)
Lemma fix_admission_year_spec (cy : Z) (x y : Student.year) (g g' : Rng.rng) :
  fix_admission_year cy x g = Some (y, g') ->
  (y = x /\ g' = g /\
   ((exists q, x = Student.Year q /\ 2000 <= PyNum.py_int q <= cy) \/
    (exists t n, x = Student.Year_text t (Some n) /\ 2000 <= n <= cy))) \/
  (exists k, y = Student.Year (inject_Z k) /\ 2019 <= k <= cy /\
             Rng.random_randint 2019 cy g = Some (k, g')).
Proof.
  assert (Hdraw : draw_admission_year cy g = Some (y, g') ->
            exists k, y = Student.Year (inject_Z k) /\ 2019 <= k <= cy /\
                      Rng.random_randint 2019 cy g = Some (k, g')).
  { unfold draw_admission_year. intros H. apply bind_Some in H as (k & g1 & Hk & H).
    inversion H; subst; clear H. exists k. split; [reflexivity |].
    split; [now apply random_randint_range in Hk | exact Hk]. }
  unfold fix_admission_year. intros H.
  destruct x as [q | | | t [n |]]; try discriminate.
  - destruct ((2000 <=? PyNum.py_int q) && (PyNum.py_int q <=? cy)) eqn:E.
    + inversion H; subst. apply andb_true_iff in E as [E1 E2].
      left. split; [reflexivity |]. split; [reflexivity |]. left. exists q.
      split; [reflexivity | lia].
    + right. now apply Hdraw.
  - right. now apply Hdraw.
  - destruct ((2000 <=? n) && (n <=? cy)) eqn:E.
    + inversion H; subst. apply andb_true_iff in E as [E1 E2].
      left. split; [reflexivity |]. split; [reflexivity |]. right. exists t, n.
      split; [reflexivity | lia].
    + right. now apply Hdraw.
Qed.

Lemma derive_student_spec (c : clock) (r : Student.csv) (g g' : Rng.rng) (s : Student.t) :
  derive_student c r g = Some (s, g') ->
  Student.student_id s = Student.csv_student_id r /\
  Student.age s = derive_age (today c) (Student.csv_birth_date r) /\
  fix_admission_year (current_year c) (Student.csv_admission_year r) g
    = Some (Student.admission_year s, g').
Proof.
  unfold derive_student, Rng.bind.
  destruct (fix_admission_year (current_year c) (Student.csv_admission_year r) g)
    as [[y g1] |] eqn:Hy; [| discriminate].
  intros H. inversion H; subst; simpl. auto.
Qed.

Lemma transform_students_unfold (c : clock) (rows : list Student.csv)
    (g g' : Rng.rng) (out : list Student.t) :
  transform_students c rows g = Some (out, g') ->
  exists derived,
    Rng.mapM (derive_student c) rows g = Some (derived, g') /\
    out = drop_duplicates Student.student_id
            (map set_program (List.filter (fun s => age_in_range (Student.age s)) derived)).
Proof.
  unfold transform_students, Rng.bind.
  destruct (Rng.mapM (derive_student c) rows g) as [[derived g1] |]; [| discriminate].
  intros H. inversion H; subst. eauto.
Qed.

(** What the student cleaning does establish.  Every cleaned row has
    [16 <= age <= 60].  Its admission year is a number whose whole part is
    in [2000, current_year], so the number is in [2000, current_year + 1);
    or it is the text of the file, when [int] reads it as a year of
    [2000, current_year]. *)
Lemma cleaned_students_age_and_year (c : clock) (rows : list Student.csv)
    (g g' : Rng.rng) (out : list Student.t) :
  transform_students c rows g = Some (out, g') ->
  Forall (fun s => 16 <= Student.age s <= 60 /\
                   match Student.admission_year s with
                   | Student.Year q =>
                       (inject_Z 2000 <= q)%Q /\ (q < inject_Z (current_year c + 1))%Q
                   | Student.Year_text _ (Some n) => 2000 <= n <= current_year c
                   | _ => False
                   end) out.
Proof.
  intros H. apply transform_students_unfold in H as (derived & Hm & ->).
  apply List.Forall_forall. intros s Hs.
  apply drop_duplicates_incl in Hs.
  apply in_map_iff in Hs as (s0 & <- & Hs0).
  apply filter_In in Hs0 as [Hin Hage].
  destruct (mapM_In _ _ _ _ _ _ Hm Hin) as (r & g1 & g2 & Hr & Hd).
  apply derive_student_spec in Hd as (_ & _ & Hy).
  unfold age_in_range in Hage. apply andb_true_iff in Hage as [H16 H60].
  split; [simpl; lia |]. simpl.
  apply fix_admission_year_spec in Hy
    as [(-> & _ & [(q & -> & Hq) | (t & n & -> & Hn)]) | (k & -> & Hk & _)].
  - apply py_int_inv; lia.
  - exact Hn.
  - split.
    + rewrite <- Zle_Qle. lia.
    + rewrite <- Zlt_Qlt. lia.
Qed.

(** C2 at its failing input.  The test of the admission year lambda is on
    [int(x)], the value it keeps is [x]: a year whose whole part is in
    [2000, current_year] is kept with its fraction.  In the run of 2026 the
    student whose admission year field holds 2026.7 is in the cleaned
    output, aged 21, with the admission year 2026.7, which is not in
    [2000, 2026]. *)
Theorem fractional_admission_year_above_current_year :
  (forall cy q g, 2000 <= PyNum.py_int q <= cy ->
     fix_admission_year cy (Student.Year q) g = Some (Student.Year q, g)) /\
  exists s g',
    transform_students Samples.run_clock [Samples.admitted_late] Samples.zeros
      = Some ([s], g') /\
    16 <= Student.age s <= 60 /\
    current_year Samples.run_clock = 2026 /\
    Student.admission_year s = Student.Year (20267 # 10) /\
    ~ Student.year_in 2000 (current_year Samples.run_clock) (Student.admission_year s).
Proof.
  split.
  - intros cy q g [H1 H2]. unfold fix_admission_year.
    replace ((2000 <=? PyNum.py_int q) && (PyNum.py_int q <=? cy)) with true; [reflexivity |].
    symmetry. apply andb_true_iff. split; apply Z.leb_le; assumption.
  - eexists _, _. split; [vm_compute; reflexivity |].
    split; [vm_compute; split; discriminate |].
    split; [reflexivity |]. split; [reflexivity |].
    simpl. intros [_ H]. vm_compute in H. apply H. reflexivity.
Qed.

(** The student cleaning returns whenever the clock is not before 2019 and
    no admission year is an infinity or a text that [int] does not read. *)
Lemma transform_students_total (c : clock) (rows : list Student.csv) (g : Rng.rng) :
  2019 <= current_year c ->
  (forall r, In r rows ->
     Student.csv_admission_year r <> Student.Year_inf /\
     forall t, Student.csv_admission_year r <> Student.Year_text t None) ->
  exists out g', transform_students c rows g = Some (out, g').
Proof.
  intros Hc Hrows. unfold transform_students, Rng.bind.
  destruct (mapM_total (derive_student c) rows g) as (derived & g' & Hm).
  { intros r g0 Hr. destruct (Hrows r Hr) as [Hinf Htext].
    assert (Hdraw : exists y g1, draw_admission_year (current_year c) g0 = Some (y, g1)).
    { unfold draw_admission_year, Rng.bind.
      destruct (random_randint_total 2019 (current_year c) g0 Hc) as (x & g1 & ->).
      eexists _, _. reflexivity. }
    assert (Hfix : exists y g1,
               fix_admission_year (current_year c) (Student.csv_admission_year r) g0
               = Some (y, g1)).
    { unfold fix_admission_year.
      destruct (Student.csv_admission_year r) as [q | | | t [n |]].
      - destruct (_ && _); [eexists _, _; reflexivity | exact Hdraw].
      - exact Hdraw.
      - congruence.
      - destruct (_ && _); [eexists _, _; reflexivity | exact Hdraw].
      - exfalso. now apply (Htext t). }
    destruct Hfix as (y & g1 & Hy).
    unfold derive_student, Rng.bind. rewrite Hy. eexists _, _. reflexivity. }
  rewrite Hm. eexists _, _. reflexivity.
Qed.

(** The identifiers and ages of the derived rows are those of the raw rows. *)
Lemma derived_ids_ages (c : clock) (rows : list Student.csv) (g g' : Rng.rng)
    (derived : list Student.t) :
  Rng.mapM (derive_student c) rows g = Some (derived, g') ->
  map (fun s => (Student.student_id s, Student.age s)) derived =
  map (fun r => (Student.csv_student_id r,
                 derive_age (today c) (Student.csv_birth_date r))) rows.
Proof.
  apply mapM_map. intros r g1 s g2 H.
  apply derive_student_spec in H as (-> & -> & _). reflexivity.
Qed.

(** C5, as the code has it. The age of a raw row is derived from its birth
    date and the day of the run (0 without a birth date) and is never
    clipped: the rows whose age is in [16, 60] are kept with exactly that
    age, the first row of every student id winning, and every other row is
    removed. *)
Theorem student_ages_filtered (c : clock) (rows : list Student.csv)
    (g g' : Rng.rng) (out : list Student.t) :
  transform_students c rows g = Some (out, g') ->
  map (fun s => (Student.student_id s, Student.age s)) out =
  drop_duplicates fst
    (List.filter (fun p => age_in_range (snd p))
       (map (fun r => (Student.csv_student_id r,
                       derive_age (today c) (Student.csv_birth_date r))) rows)).
Proof.
  intros H. apply transform_students_unfold in H as (derived & Hm & ->).
  apply derived_ids_ages in Hm. rewrite <- Hm.
  unfold drop_duplicates.
  rewrite (drop_duplicates_from_map
             (fun s => (Student.student_id s, Student.age s)) Student.student_id fst)
    by reflexivity.
  f_equal. rewrite map_map. simpl.
  rewrite (filter_map_comm (fun s => (Student.student_id s, Student.age s))
             (fun p => age_in_range (snd p))).
  reflexivity.
Qed.

Lemma student_ages_filtered_witness :
  transform_students Samples.run_clock Samples.raw_students Samples.zeros
    = Some (Samples.cleaned_students, Samples.zeros_after_students) /\
  map (fun s => (Student.student_id s, Student.age s)) Samples.cleaned_students =
  drop_duplicates fst
    (List.filter (fun p => age_in_range (snd p))
       (map (fun r => (Student.csv_student_id r,
                       derive_age (today Samples.run_clock) (Student.csv_birth_date r)))
            Samples.raw_students)).
Proof.
  split; [vm_compute; reflexivity |].
  apply (student_ages_filtered Samples.run_clock Samples.raw_students
           Samples.zeros Samples.zeros_after_students Samples.cleaned_students).
  vm_compute; reflexivity.
Defined.

(** C5, as stated, fails: a student of derived age 10 is not kept with age
    16; the row is absent from the cleaned output. *)
Lemma student_age_not_clipped :
  ~ (forall (c : clock) (rows : list Student.csv) (g g' : Rng.rng) (out : list Student.t),
       transform_students c rows g = Some (out, g') ->
       forall r, In r rows ->
         exists s, In s out /\
           Student.student_id s = Student.csv_student_id r /\
           Student.age s =
             Z.max 16 (Z.min 60 (derive_age (today c) (Student.csv_birth_date r)))).
Proof.
  intros Hclaim.
  destruct (Hclaim Samples.run_clock [Samples.child] Samples.zeros Samples.zeros []
              eq_refl Samples.child (or_introl eq_refl)) as (s & Hin & _).
  destruct Hin.
Qed.

End StudentFacts.

(* ===================================================================== *)
(** * Properties of the Dimension Transformer: salaries                   *)
(* ===================================================================== *)

Section SalaryFacts.

Import PyNum Transformer.
Local Open Scope Q_scope.

(** Every band, the default one included, has its ends in order. *)
Lemma salary_band_ordered (title : option string) :
  (fst (salary_band title) <= snd (salary_band title))%Z.
Proof.
  unfold salary_band.
  destruct (title ≫= (salary_ranges !!.)) as [[lo hi] |] eqn:E; simpl; [| lia].
  destruct title as [t |]; simpl in E; [| discriminate].
  unfold salary_ranges in E. apply elem_of_list_to_map_2 in E.
  repeat (apply elem_of_cons in E as [E | E]; [inversion E; subst; lia |]).
  inversion E.
Qed.

Lemma float_ltb_true (a b : Q) : float_ltb (Fin a) (Fin b) = true <-> a < b.
Proof. apply Qltb_true. Qed.

Lemma float_ltb_false (a b : Q) : float_ltb (Fin a) (Fin b) = false <-> b <= a.
Proof. apply Qltb_false. Qed.

(** The range test and the redraw of [adjust_salary], on a number. *)
Lemma adjust_number (lo hi : Z) (q : Q) (g g' : Rng.rng) (x : pyfloat) :
  (lo <= hi)%Z ->
  (if float_ltb (Fin q) (Fin (inject_Z lo)) || float_gtb (Fin q) (Fin (inject_Z hi))
   then let* u := Rng.random_uniform (inject_Z lo) (inject_Z hi) in
        Rng.ret (Fin (py_round u 2))
   else Rng.ret (float_round (Fin q) 2)) g = Some (x, g') ->
  float_in (inject_Z lo) (inject_Z hi) x.
Proof.
  intros Hlh H.
  assert (HlhQ : inject_Z lo <= inject_Z hi) by now rewrite <- Zle_Qle.
  destruct (float_ltb (Fin q) (Fin (inject_Z lo)) || float_gtb (Fin q) (Fin (inject_Z hi)))
    eqn:E.
  - unfold Rng.bind in H.
    destruct (Rng.random_uniform (inject_Z lo) (inject_Z hi) g) as [[u g1] |] eqn:Hu;
      [| discriminate].
    inversion H; subst. apply random_uniform_range in Hu as [Hu1 Hu2]; [| exact HlhQ].
    now apply py_round_bounds.
  - apply orb_false_iff in E as [E1 E2]. unfold float_gtb in E2.
    apply float_ltb_false in E1. apply float_ltb_false in E2.
    inversion H; subst. simpl. now apply py_round_bounds.
Qed.

(** A salary that is a number, or text that is not one, ends in the band of
    the job title (the default band for an unknown or missing title). *)
Lemma adjust_salary_in_band (title : option string) (salary : Employee.csv_number)
    (g g' : Rng.rng) (x : pyfloat) :
  salary <> Employee.Number NaN ->
  adjust_salary title salary g = Some (x, g') ->
  float_in (inject_Z (fst (salary_band title))) (inject_Z (snd (salary_band title))) x.
Proof.
  intros Hn H. unfold adjust_salary in H.
  pose proof (salary_band_ordered title) as Hb.
  destruct (salary_band title) as [lo hi]. cbn [fst snd] in Hb |- *.
  unfold Rng.bind at 1 in H.
  destruct salary as [[q |] | text].
  - unfold Rng.ret at 1 in H. eapply adjust_number; eauto.
  - congruence.
  - match type of H with
    | match ?m with _ => _ end = _ => destruct m as [[f g1] |] eqn:E; [| discriminate]
    end.
    unfold Rng.bind in E.
    destruct (Rng.random_uniform (inject_Z (fst default_range))
                (inject_Z (snd default_range)) g) as [[u g2] |]; [| discriminate].
    inversion E; subst. eapply adjust_number; eauto.
Qed.

(** [adjust_salary] never raises. *)
Lemma adjust_salary_total (title : option string) (salary : Employee.csv_number)
    (g : Rng.rng) :
  exists x g', adjust_salary title salary g = Some (x, g').
Proof.
  unfold adjust_salary. destruct (salary_band title) as [lo hi].
  unfold Rng.bind, Rng.random_uniform, Rng.random_random, Rng.bind, Rng.next_raw, Rng.ret.
  destruct salary as [f | text]; simpl.
  - match goal with
    | |- context [if ?b then _ else _] => destruct b
    end; eexists _, _; reflexivity.
  - match goal with
    | |- context [if ?b then _ else _] => destruct b
    end; eexists _, _; reflexivity.
Qed.

(** Every cleaned employee row whose salary field held a number, or text
    that is not a number, has its salary in the band of its job title. *)
Lemma cleaned_salaries_in_band (c : clock) (departments : list Department.t)
    (rows : list Employee.csv) (g g' : Rng.rng) (out : list Employee.t) :
  transform_employees c departments rows g = Some (out, g') ->
  (forall r, In r rows -> Employee.csv_salary r <> Employee.Number NaN) ->
  Forall (fun e =>
            float_in (inject_Z (fst (salary_band (Employee.job_title e))))
                     (inject_Z (snd (salary_band (Employee.job_title e))))
                     (Employee.salary e)) out.
Proof.
  intros H Hnum. unfold transform_employees in H.
  apply bind_Some in H as (repaired & g1 & Hrep & H).
  apply bind_Some in H as (adjusted & g2 & Hadj & H).
  inversion H; subst; clear H.
  apply List.Forall_forall. intros e He.
  apply drop_duplicates_incl in He.
  destruct (mapM_In _ _ _ _ _ _ Hadj He) as (r' & ga & gb & Hr' & Hpass).
  destruct (mapM_In _ _ _ _ _ _ Hrep Hr') as (r & gc & gd & Hr & Hder).
  unfold derive_employee in Hder.
  apply bind_Some in Hder as (m & gm & _ & Hder).
  apply bind_Some in Hder as (d & ge & _ & Hder). inversion Hder; subst; clear Hder.
  unfold salary_pass in Hpass. simpl in Hpass.
  apply bind_Some in Hpass as (x & gf & Hx & Hpass). inversion Hpass; subst; clear Hpass.
  simpl. eapply adjust_salary_in_band; [| exact Hx]. now apply Hnum.
Qed.

(** C3 at its failing input. A salary field that is empty in the file is
    NaN; both comparisons of [adjust_salary] are false on it, so it is
    returned as it is, and NaN lies in no band.  The cleaned row of the
    sample professor therefore has a salary outside [70000, 120000]. *)
Theorem missing_salary_left_outside_band :
  (forall title g, adjust_salary title (Employee.Number NaN) g = Some (NaN, g)) /\
  (forall lo hi, ~ float_in lo hi NaN) /\
  exists e g',
    transform_employees Samples.run_clock Samples.sample_departments
      [Samples.professor_without_salary] Samples.zeros = Some ([e], g') /\
    Employee.job_title e = Some "Professor"%string /\
    salary_band (Employee.job_title e) = (70000, 120000)%Z /\
    ~ float_in 70000 120000 (Employee.salary e).
Proof.
  split; [| split].
  - intros title g. unfold adjust_salary. destruct (salary_band title) as [lo hi].
    reflexivity.
  - intros lo hi H. exact H.
  - eexists _, _. split; [vm_compute; reflexivity |].
    split; [reflexivity |]. split; [vm_compute; reflexivity |].
    simpl. intros H. exact H.
Qed.

(** C6, as the code has it. For a salary that is not a number the code
    draws from the default band, keeps that draw if it lies in the band of
    the job title, and otherwise draws again from the band of the job
    title; the result, rounded to cents, is in the band of the job title
    (the default band only for an unknown or missing title). *)
Theorem unparsable_salary_in_title_band (title : option string) (text : string)
    (g : Rng.rng) :
  let lo := inject_Z (fst (salary_band title)) in
  let hi := inject_Z (snd (salary_band title)) in
  exists u g1,
    Rng.random_uniform 30000 120000 g = Some (u, g1) /\
    30000 <= u /\ u <= 120000 /\
    exists x g',
      adjust_salary title (Employee.Unparsable text) g = Some (Fin x, g') /\
      lo <= x /\ x <= hi /\
      ((lo <= u /\ u <= hi /\ x = py_round u 2 /\ g' = g1) \/
       ((u < lo \/ hi < u) /\
        exists v, Rng.random_uniform lo hi g1 = Some (v, g') /\ x = py_round v 2)).
Proof.
  intros lo hi.
  destruct (Rng.random_uniform 30000 120000 g) as [[u g1] |] eqn:Hu.
  2:{ unfold Rng.random_uniform, Rng.random_random, Rng.bind, Rng.next_raw, Rng.ret in Hu.
      discriminate. }
  exists u, g1. split; [reflexivity |].
  pose proof Hu as Hr. apply random_uniform_range in Hr as [Hu1 Hu2]; [| lra].
  split; [exact Hu1 |]. split; [exact Hu2 |].
  destruct (adjust_salary_total title (Employee.Unparsable text) g) as (x & g' & Hx).
  pose proof Hx as Hband. apply adjust_salary_in_band in Hband; [| discriminate].
  pose proof Hx as Hx'. unfold adjust_salary in Hx'. subst lo hi.
  destruct (salary_band title) as [l h] eqn:Eb. cbn [fst snd] in Hband |- *.
  unfold Rng.bind at 1 in Hx'. unfold Rng.bind at 1 in Hx'.
  change (inject_Z (fst default_range)) with (30000 : Q) in Hx'.
  change (inject_Z (snd default_range)) with (120000 : Q) in Hx'.
  rewrite Hu in Hx'. cbv beta iota in Hx'. unfold Rng.ret at 1 in Hx'.
  destruct (float_ltb (Fin u) (Fin (inject_Z l)) || float_gtb (Fin u) (Fin (inject_Z h)))
    eqn:E.
  - unfold Rng.bind in Hx'.
    destruct (Rng.random_uniform (inject_Z l) (inject_Z h) g1) as [[v g2] |] eqn:Hv;
      [| discriminate].
    inversion Hx'; subst. destruct Hband as [Hb1 Hb2].
    exists (py_round v 2), g'. repeat split; try assumption.
    right. split.
    + apply orb_true_iff in E as [E | E]; [left | right; unfold float_gtb in E];
        now apply float_ltb_true in E.
    + exists v. split; [first [assumption | reflexivity] | reflexivity].
  - apply orb_false_iff in E as [E1 E2]. unfold float_gtb in E2.
    apply float_ltb_false in E1. apply float_ltb_false in E2.
    inversion Hx'; subst. destruct Hband as [Hb1 Hb2].
    exists (py_round u 2), g'. repeat split; try assumption.
    left. repeat split; assumption.
Qed.

(** C6, as stated, fails: for a department head whose salary is not a
    number the cleaned salary can be 130000, outside the default band. *)
Lemma unparsable_salary_leaves_default_band :
  ~ (forall (title : option string) (text : string) (g g' : Rng.rng) (x : pyfloat),
       adjust_salary title (Employee.Unparsable text) g = Some (x, g') ->
       float_in 30000 120000 x).
Proof.
  intros Hclaim.
  destruct (adjust_salary (Some "Department Head"%string) (Employee.Unparsable "n/a")
              Samples.low_then_high) as [[x g'] |] eqn:E; [| vm_compute in E; discriminate].
  pose proof (Hclaim _ _ _ _ _ E) as Hin.
  vm_compute in E. inversion E; subst. 
  destruct Hin as [_ Hhi]. vm_compute in Hhi. apply Hhi. reflexivity.
Qed.

End SalaryFacts.

(* ===================================================================== *)
(** * Properties of the Fact Synthesizer                                  *)
(* ===================================================================== *)

Section FactFacts.

Import PyNum FactSynth.
Local Open Scope Q_scope.

Lemma adjust_grade_bounds (level : option string) (age : Z) (base : Q) :
  0 <= adjust_grade level age base /\ adjust_grade level age base <= 100.
Proof. unfold adjust_grade. apply clip_bounds. lra. Qed.

Lemma clip_attendance_bounds (x : Q) :
  60 <= clip_attendance x /\ clip_attendance x <= 100.
Proof. unfold clip_attendance. apply clip_bounds. lra. Qed.

Lemma adjust_performance_bounds (e : Employee.t) (base : Q) :
  1 <= adjust_performance e base /\ adjust_performance e base <= 5.
Proof. unfold adjust_performance. apply clip_bounds. lra. Qed.

(** The measures of one academic record. *)
Lemma academic_record_spec (w : Loader.warehouse) (sid : Z) (g g' : Rng.rng)
    (f : AcademicFact.t) :
  academic_record w sid g = Some (f, g') ->
  AcademicFact.student_id f = sid /\
  (0 <= AcademicFact.grade f /\ AcademicFact.grade f <= 100) /\
  (60 <= AcademicFact.attendance_percent f /\ AcademicFact.attendance_percent f <= 100).
Proof.
  unfold academic_record. intros H.
  destruct (List.find _ _) as [student |]; [| discriminate].
  apply bind_Some in H as (course & g1 & _ & H).
  apply bind_Some in H as (instructor & g2 & _ & H).
  apply bind_Some in H as (date & g3 & _ & H).
  apply bind_Some in H as (base_grade & g4 & _ & H).
  apply bind_Some in H as (noise & g5 & _ & H).
  apply bind_Some in H as (u & g6 & _ & H).
  inversion H; subst; clear H. simpl.
  split; [reflexivity |]. split.
  - apply (py_round_bounds 0 100). 
    + apply adjust_grade_bounds.
    + apply adjust_grade_bounds.
  - apply (py_round_bounds 60 100).
    + apply clip_attendance_bounds.
    + apply clip_attendance_bounds.
Qed.

Lemma hr_record_spec (e : Employee.t) (eid : Z) (d : DateRow.t) (g g' : Rng.rng)
    (f : HRFact.t) :
  hr_record e eid d g = Some (f, g') ->
  1 <= HRFact.performance_rating f /\ HRFact.performance_rating f <= 5.
Proof.
  unfold hr_record. intros H.
  apply bind_Some in H as (base & g1 & _ & H).
  apply bind_Some in H as (overtime & g2 & _ & H).
  apply bind_Some in H as (leave & g3 & _ & H).
  inversion H; subst; clear H. simpl.
  apply (py_round_bounds 1 5); apply adjust_performance_bounds.
Qed.

Lemma academic_facts_unfold (w : Loader.warehouse) (g g' : Rng.rng)
    (rows : list AcademicFact.t) :
  academic_facts w g = Some (rows, g') ->
  exists sampled g1,
    sample_with_replacement ACADEMIC_SAMPLE
      (map Student.student_id (Loader.dim_student w)) g = Some (sampled, g1) /\
    Rng.mapM (academic_record w) (unique sampled) g1 = Some (rows, g').
Proof. unfold academic_facts. intros H. now apply bind_Some in H. Qed.

(** C4. Every synthesized academic fact has its grade and its attendance
    in [0, 100], and every synthesized HR fact has its performance rating
    in [1, 5], whatever the random draws. *)
Theorem synthesized_measures_in_range (w : Loader.warehouse) (cutoff : Z)
    (g1 g1' g2 g2' : Rng.rng) (academic : list AcademicFact.t) (hr : list HRFact.t) :
  academic_facts w g1 = Some (academic, g1') ->
  hr_facts cutoff w g2 = Some (hr, g2') ->
  Forall (fun f => (0 <= AcademicFact.grade f /\ AcademicFact.grade f <= 100) /\
                   (0 <= AcademicFact.attendance_percent f /\
                    AcademicFact.attendance_percent f <= 100)) academic /\
  Forall (fun f => 1 <= HRFact.performance_rating f /\
                   HRFact.performance_rating f <= 5) hr.
Proof.
  intros Ha Hh. split.
  - apply academic_facts_unfold in Ha as (sampled & g3 & _ & Hm).
    apply List.Forall_forall. intros f Hf.
    destruct (mapM_In _ _ _ _ _ _ Hm Hf) as (sid & ga & gb & _ & Hrec).
    apply academic_record_spec in Hrec as (_ & Hg & Hatt).
    split; [exact Hg |]. split; [lra | tauto].
  - unfold hr_facts in Hh.
    apply bind_Some in Hh as (per_employee & g3 & Hm & Hret).
    inversion Hret; subst; clear Hret.
    apply Forall_concat. apply List.Forall_forall. intros rows Hrows.
    destruct (mapM_In _ _ _ _ _ _ Hm Hrows) as (eid & ga & gb & _ & Hrec).
    unfold hr_records in Hrec.
    destruct (List.find _ _) as [employee |]; [| discriminate].
    apply bind_Some in Hrec as (selected & gc & _ & Hrec).
    apply List.Forall_forall. intros f Hf.
    destruct (mapM_In _ _ _ _ _ _ Hrec Hf) as (d & gd & ge & _ & Hone).
    now apply hr_record_spec in Hone.
Qed.

Lemma synthesized_measures_in_range_witness :
  academic_facts Samples.sample_warehouse Samples.counting
    = Some (Samples.academic_rows, Samples.academic_rng) /\
  hr_facts Samples.cutoff Samples.sample_warehouse Samples.counting
    = Some (Samples.hr_rows, Samples.hr_rng) /\
  length Samples.academic_rows = 3%nat /\
  length Samples.hr_rows = 4%nat /\
  Forall (fun f => (0 <= AcademicFact.grade f /\ AcademicFact.grade f <= 100) /\
                   (0 <= AcademicFact.attendance_percent f /\
                    AcademicFact.attendance_percent f <= 100)) Samples.academic_rows /\
  Forall (fun f => 1 <= HRFact.performance_rating f /\
                   HRFact.performance_rating f <= 5) Samples.hr_rows.
Proof.
  split; [vm_compute; reflexivity |].
  split; [vm_compute; reflexivity |].
  split; [vm_compute; reflexivity |].
  split; [vm_compute; reflexivity |].
  apply (synthesized_measures_in_range Samples.sample_warehouse Samples.cutoff
           Samples.counting Samples.academic_rng Samples.counting Samples.hr_rng
           Samples.academic_rows Samples.hr_rows).
  - vm_compute; reflexivity.
  - vm_compute; reflexivity.
Defined.

Lemma unique_from_drop (seen : gset Z) (l : list Z) :
  unique_from seen l = Transformer.drop_duplicates_from (fun x => x) seen l.
Proof.
  revert seen. induction l as [| x xs IH]; intros seen; simpl; [reflexivity |].
  case_bool_decide; now rewrite IH.
Qed.

Lemma unique_NoDup (l : list Z) : NoDup (unique l).
Proof.
  unfold unique. rewrite unique_from_drop.
  rewrite <- (map_id (Transformer.drop_duplicates_from _ _ _)).
  apply drop_duplicates_from_NoDup.
Qed.

Lemma unique_incl (l : list Z) (x : Z) : In x (unique l) -> In x l.
Proof.
  unfold unique. rewrite unique_from_drop. intros H.
  now apply drop_duplicates_from_incl in H.
Qed.

Lemma unique_complete (l : list Z) (x : Z) : In x l -> In x (unique l).
Proof.
  unfold unique. intros Hin.
  assert (Hgen : forall seen, x ∉ seen -> In x (unique_from seen l)).
  { induction l as [| y ys IH]; intros seen Hs; [destruct Hin |]. simpl.
    destruct (decide (y = x)) as [-> | Hne].
    - rewrite bool_decide_eq_false_2 by exact Hs. now left.
    - destruct Hin as [Heq | Hin]; [congruence |].
      case_bool_decide.
      + now apply IH.
      + right. apply IH; [exact Hin |].
        rewrite elem_of_union, elem_of_singleton. intros [Heq | Hx]; [congruence | auto]. }
  apply Hgen. apply not_elem_of_empty.
Qed.

Lemma random_choice_In {T : Type} (l : list T) (g g' : Rng.rng) (x : T) :
  Rng.random_choice l g = Some (x, g') -> In x l.
Proof.
  unfold Rng.random_choice. destruct l as [| y ys]; [discriminate |].
  intros H. apply bind_Some in H as (k & g1 & _ & H).
  destruct (Rng.choice_of (y :: ys) k) as [z |] eqn:Hc; [| discriminate].
  inversion H; subst. unfold Rng.choice_of in Hc.
  eapply nth_error_In; eauto.
Qed.

Lemma sample_with_replacement_spec {T : Type} (n : nat) (l : list T)
    (g g' : Rng.rng) (xs : list T) :
  sample_with_replacement n l g = Some (xs, g') ->
  length xs = n /\ forall x, In x xs -> In x l.
Proof.
  revert g xs. induction n as [| n IH]; intros g xs H; simpl in H.
  - inversion H; subst. split; [reflexivity | intros x []].
  - apply bind_Some in H as (x & g1 & Hx & H).
    apply bind_Some in H as (rest & g2 & Hrest & H).
    inversion H; subst. apply IH in Hrest as [Hlen Hin].
    apply random_choice_In in Hx.
    split; [simpl; now rewrite Hlen |].
    intros y [<- | Hy]; auto.
Qed.

(** [random.choice] returns the element at the index that the next value
    of the source gives, and moves the source by one value. *)
Lemma random_choice_spec {T : Type} (l : list T) (g g' : Rng.rng) (x : T) :
  Rng.random_choice l g = Some (x, g') ->
  Rng.choice_of l (Rng.raw g (Rng.pos g)) = Some x /\
  g' = Rng.mk_rng (Rng.raw g) (Rng.normal g) (N.succ (Rng.pos g)).
Proof.
  unfold Rng.random_choice. destruct l as [| y ys]; [discriminate |].
  unfold Rng.bind, Rng.next_raw.
  destruct (Rng.choice_of (y :: ys) (Rng.raw g (Rng.pos g))) as [z |]; [| discriminate].
  intros H. inversion H; subst. auto.
Qed.

(** The sample with replacement: pick [j] is the element at the index
    given by value [j] of the source, counted from where the source
    stands. *)
Lemma sample_with_replacement_draws {T : Type} (n : nat) (l : list T) (p0 : N) (a : nat)
    (g g' : Rng.rng) (xs : list T) :
  Rng.pos g = (p0 + N.of_nat a)%N ->
  sample_with_replacement n l g = Some (xs, g') ->
  Forall2 (fun j x => Rng.choice_of l (Rng.raw g (p0 + N.of_nat j)) = Some x) (seq a n) xs /\
  Rng.raw g' = Rng.raw g /\ Rng.normal g' = Rng.normal g /\
  Rng.pos g' = (Rng.pos g + N.of_nat n)%N.
Proof.
  revert a g xs. induction n as [| n IH]; intros a g xs Hp H; simpl in H.
  - inversion H; subst. split; [constructor |]. repeat split. lia.
  - apply bind_Some in H as (x & g1 & Hx & H).
    apply bind_Some in H as (rest & g2 & Hrest & H).
    inversion H; subst; clear H.
    apply random_choice_spec in Hx as [Hx ->].
    apply (IH (S a)) in Hrest; [| simpl; lia].
    destruct Hrest as (HF & Hraw & Hnormal & Hpos). simpl in *.
    split; [| repeat split; try assumption; lia].
    constructor; [now rewrite <- Hp | exact HF].
Qed.

(** C9. The academic-fact generator samples 5000 student ids with
    replacement: pick [j] is the id of the student table at the index that
    value [j] of the random source gives.  It removes the repeated ids and
    emits exactly one record per remaining id, in the order of first
    appearance: no student has two records, the records are in one-to-one
    correspondence with the distinct sampled ids, and their number is at
    most min(5000, number of persisted students). *)
Theorem academic_facts_one_per_student (w : Loader.warehouse) (g g' : Rng.rng)
    (rows : list AcademicFact.t) :
  academic_facts w g = Some (rows, g') ->
  let ids := map Student.student_id (Loader.dim_student w) in
  exists sampled,
    Forall2 (fun j x => Rng.choice_of ids (Rng.raw g (Rng.pos g + N.of_nat j)) = Some x)
            (seq 0 5000) sampled /\
    length sampled = 5000%nat /\
    (forall x, In x sampled -> In x ids) /\
    map AcademicFact.student_id rows = unique sampled /\
    (forall x, In x sampled <-> In x (map AcademicFact.student_id rows)) /\
    NoDup (map AcademicFact.student_id rows) /\
    length rows = length (unique sampled) /\
    (length rows <= Nat.min 5000 (length (Loader.dim_student w)))%nat.
Proof.
  intros H ids. apply academic_facts_unfold in H as (sampled & g1 & Hs & Hm).
  pose proof (sample_with_replacement_draws ACADEMIC_SAMPLE ids (Rng.pos g) 0 g g1 sampled
                ltac:(simpl; lia) Hs) as (Hdraws & _).
  apply sample_with_replacement_spec in Hs as [Hlen Hin].
  assert (Hids : map AcademicFact.student_id rows = unique sampled).
  { rewrite <- (map_id (unique sampled)).
    eapply mapM_map; [| exact Hm].
    intros sid ga f gb Hrec. now apply academic_record_spec in Hrec as (-> & _). }
  exists sampled. split; [exact Hdraws |]. split; [exact Hlen |]. split; [exact Hin |].
  split; [exact Hids |]. split; [| split; [| split]].
  - intros x. rewrite Hids. split; [apply unique_complete | apply unique_incl].
  - rewrite Hids. apply unique_NoDup.
  - now rewrite <- (length_map AcademicFact.student_id rows), Hids.
  - rewrite <- (length_map AcademicFact.student_id rows), Hids.
    pose proof (unique_NoDup sampled) as Hnd. apply NoDup_ListNoDup in Hnd.
    apply Nat.min_glb.
    + replace 5000%nat with (length sampled) by exact Hlen.
      apply NoDup_incl_length; [exact Hnd |].
      intros x Hx. now apply unique_incl.
    + rewrite <- (length_map Student.student_id (Loader.dim_student w)).
      apply NoDup_incl_length; [exact Hnd |].
      intros x Hx. apply Hin. now apply unique_incl.
Qed.

(** On the sample warehouse, whose students are 1, 2 and 3, the source
    that counts gives the indices 1, 2, 0, 1, ...: the records are those
    of the students 2, 3 and 1, in this order. *)
Lemma academic_facts_one_per_student_witness :
  academic_facts Samples.sample_warehouse Samples.counting
    = Some (Samples.academic_rows, Samples.academic_rng) /\
  map AcademicFact.student_id Samples.academic_rows = [2; 3; 1]%Z /\
  let ids := map Student.student_id (Loader.dim_student Samples.sample_warehouse) in
  exists sampled,
    Forall2 (fun j x => Rng.choice_of ids (Rng.raw Samples.counting
                                             (Rng.pos Samples.counting + N.of_nat j)) = Some x)
            (seq 0 5000) sampled /\
    length sampled = 5000%nat /\
    (forall x, In x sampled -> In x ids) /\
    map AcademicFact.student_id Samples.academic_rows = unique sampled /\
    (forall x, In x sampled <-> In x (map AcademicFact.student_id Samples.academic_rows)) /\
    NoDup (map AcademicFact.student_id Samples.academic_rows) /\
    length Samples.academic_rows = length (unique sampled) /\
    (length Samples.academic_rows <=
     Nat.min 5000 (length (Loader.dim_student Samples.sample_warehouse)))%nat.
Proof.
  split; [vm_compute; reflexivity |].
  split; [vm_compute; reflexivity |].
  apply (academic_facts_one_per_student Samples.sample_warehouse Samples.counting
           Samples.academic_rng Samples.academic_rows).
  vm_compute; reflexivity.
Defined.

(** The academic part returns whenever no table it samples from is empty. *)
Lemma academic_facts_total (w : Loader.warehouse) (g : Rng.rng) :
  Loader.dim_student w <> [] -> Loader.dim_course w <> [] ->
  Loader.dim_employee w <> [] -> Loader.dim_date w <> [] ->
  exists rows g', academic_facts w g = Some (rows, g').
Proof.
  intros Hs Hc He Hd.
  assert (Hchoice : forall (T : Type) (l : list T) g0,
             l <> [] -> exists x g1, Rng.random_choice l g0 = Some (x, g1)).
  { intros T l g0 Hl. destruct l as [| y ys]; [congruence |].
    unfold Rng.random_choice, Rng.bind, Rng.next_raw.
    destruct (Rng.choice_of (y :: ys) (Rng.raw g0 (Rng.pos g0))) as [z |] eqn:Hz.
    - eexists _, _. reflexivity.
    - unfold Rng.choice_of in Hz. apply nth_error_None in Hz.
      pose proof (N.mod_upper_bound (Rng.raw g0 (Rng.pos g0))
                    (N.of_nat (length (y :: ys)))) as Hb.
      simpl length in *. lia. }
  assert (Hsample : forall n g0, exists xs g1,
             sample_with_replacement n (map Student.student_id (Loader.dim_student w)) g0
             = Some (xs, g1)).
  { induction n as [| n IH]; intros g0; simpl.
    - eexists _, _. reflexivity.
    - destruct (Hchoice _ (map Student.student_id (Loader.dim_student w)) g0)
        as (x & g1 & Hx).
      { destruct (Loader.dim_student w); [congruence | discriminate]. }
      destruct (IH g1) as (xs & g2 & Hxs).
      unfold Rng.bind. rewrite Hx, Hxs. eexists _, _. reflexivity. }
  unfold academic_facts.
  destruct (Hsample ACADEMIC_SAMPLE g) as (sampled & g1 & Hsamp).
  unfold Rng.bind at 1. rewrite Hsamp.
  apply mapM_total. intros sid g0 Hsid.
  apply unique_incl in Hsid.
  apply sample_with_replacement_spec in Hsamp as [_ Hin].
  apply Hin in Hsid. apply in_map_iff in Hsid as (s & Hsid & Hs_in).
  unfold academic_record.
  destruct (List.find (fun s0 => Student.student_id s0 =? sid)%Z (Loader.dim_student w))
    as [student |] eqn:Hfind.
  2:{ eapply find_none in Hfind; [| exact Hs_in]. simpl in Hfind. lia. }
  destruct (Hchoice _ (Loader.dim_course w) g0 Hc) as (course & g2 & Hcourse).
  unfold Rng.bind at 1. rewrite Hcourse.
  set (profs := List.filter is_instructor (Loader.dim_employee w)).
  assert (Hinstr : exists i g3,
             match profs with
             | [] => Rng.random_choice (Loader.dim_employee w)
             | _ :: _ => Rng.random_choice profs
             end g2 = Some (i, g3)).
  { destruct profs as [| p ps] eqn:Hp; [now apply Hchoice |].
    apply Hchoice. discriminate. }
  destruct Hinstr as (i & g3 & Hi).
  unfold Rng.bind at 1. rewrite Hi.
  destruct (Hchoice _ (Loader.dim_date w) g3 Hd) as (date & g4 & Hdate).
  unfold Rng.bind at 1. rewrite Hdate.
  eexists _, _. reflexivity.
Qed.

End FactFacts.

(* ===================================================================== *)
(** * Properties of the Loader                                            *)
(* ===================================================================== *)

Section LoaderFacts.

Import Loader.

Lemma to_sql_spec {T : Type} (key : T -> Z) (table rows : list T) (g g' : Rng.rng)
    (t' : list T) :
  to_sql key table rows g = Some (t', g') -> t' = table ++ rows /\ g' = g.
Proof.
  unfold to_sql. case_bool_decide as Hnd; [| discriminate].
  intros H. inversion H; subst. auto.
Qed.

Lemma set_department_id_same (e : Employee.t) :
  set_department_id (Employee.department_id e) e = e.
Proof. now destruct e. Qed.

(** [random.choice] over a list without duplicates: the index is drawn
    below the length, and each element sits at exactly one index. *)
Lemma choice_of_uniform {T : Type} (l : list T) (x : T) :
  NoDup l -> In x l ->
  exists k, (k < N.of_nat (length l))%N /\ Rng.choice_of l k = Some x /\
    forall k', (k' < N.of_nat (length l))%N -> Rng.choice_of l k' = Some x -> k' = k.
Proof.
  intros Hnd Hin. apply NoDup_ListNoDup in Hnd.
  apply In_nth_error in Hin as [i Hi].
  assert (Hlt : (i < length l)%nat) by (apply nth_error_Some; congruence).
  exists (N.of_nat i). split; [lia |]. split.
  - unfold Rng.choice_of. rewrite N.mod_small by lia. now rewrite Nat2N.id.
  - intros k' Hk' Hc. unfold Rng.choice_of in Hc. rewrite N.mod_small in Hc by lia.
    assert (Hlt' : (N.to_nat k' < length l)%nat) by lia.
    pose proof (proj1 (NoDup_nth_error l) Hnd (N.to_nat k') i Hlt') as Heq.
    rewrite Hc, Hi in Heq. specialize (Heq eq_refl). lia.
Qed.

(** One application of the repair lambda. *)
Lemma fix_department_id_spec (valid : gset Z) (x d : Z) (g g' : Rng.rng) :
  Transformer.fix_department_id valid x g = Some (d, g') ->
  d ∈ valid /\
  (x ∈ valid -> d = x) /\
  (x ∉ valid -> exists k, Rng.choice_of (elements valid) k = Some d).
Proof.
  unfold Transformer.fix_department_id. case_bool_decide as Hx.
  - intros H. inversion H; subst. split; [exact Hx |]. split; [auto | contradiction].
  - intros H. pose proof H as Hc. apply random_choice_In in Hc.
    split; [apply elem_of_elements; now apply list_elem_of_In |].
    split; [contradiction |]. intros _.
    unfold Rng.random_choice in H. destruct (elements valid) as [| y ys]; [discriminate |].
    apply bind_Some in H as (k & g1 & _ & H).
    destruct (Rng.choice_of (y :: ys) k) as [z |] eqn:Hz; [| discriminate].
    inversion H; subst. eauto.
Qed.

Lemma repair_employees_spec (valid : gset Z) (emps out : list Employee.t)
    (msgs : list message) (g g' : Rng.rng) :
  repair_employees valid emps g = Some ((out, msgs), g') ->
  Forall2 (repaired_from valid) emps out /\
  ((exists e, In e emps /\ Employee.department_id e ∉ valid) <->
   exists ids, In (Warning_invalid_department_ids ids) msgs) /\
  (forall ids, In (Warning_invalid_department_ids ids) msgs ->
     forall x, x ∈ ids <-> (x ∉ valid) /\ In x (map Employee.department_id emps)).
Proof.
  unfold repair_employees.
  set (invalid := list_to_set (map Employee.department_id emps) ∖ valid).
  assert (Hinv : forall x, x ∈ invalid <->
                   (x ∉ valid) /\ In x (map Employee.department_id emps)).
  { intros x. unfold invalid. rewrite elem_of_difference, elem_of_list_to_set,
      list_elem_of_In. tauto. }
  case_bool_decide as Hempty.
  - assert (Hall : forall e, In e emps -> Employee.department_id e ∈ valid).
    { intros e He. destruct (decide (Employee.department_id e ∈ valid)) as [| Hn]; [done |].
      exfalso. apply (not_elem_of_empty (C := gset Z) (Employee.department_id e)).
      rewrite <- Hempty. apply Hinv. split; [exact Hn |]. now apply in_map. }
    intros H. inversion H; subst; clear H.
    split; [| split].
    + clear Hempty Hinv invalid. induction out as [| e es IH]; constructor.
      * unfold repaired_from. rewrite set_department_id_same.
        split; [reflexivity |]. split; [apply Hall; now left |].
        split; [reflexivity |]. intros Hn. exfalso. apply Hn, Hall. now left.
      * apply IH. intros e0 He0. apply Hall. now right.
    + split.
      * intros (e & He & Hn). exfalso. now apply Hn, Hall.
      * intros (ids & []).
    + intros ids [].
  - intros H. apply bind_Some in H as (repaired & g1 & Hm & H).
    inversion H; subst; clear H.
    split; [| split].
    + apply mapM_Forall2 in Hm. clear Hinv Hempty. clear invalid.
      induction Hm as [| e e' es es' Hee HF IH]; [constructor |].
      constructor; [| exact IH].
      destruct Hee as (ga & gb & Hee).
      apply bind_Some in Hee as (d & gc & Hd & Hret).
      inversion Hret; subst; clear Hret.
      apply fix_department_id_spec in Hd as (Hv & Hsame & Hdraw).
      unfold repaired_from. simpl.
      split; [now destruct e |]. split; [exact Hv |]. split.
      * intros Hin. rewrite (Hsame Hin). apply set_department_id_same.
      * exact Hdraw.
    + split.
      * intros _. exists invalid. now left.
      * intros _.
        destruct (set_choose_or_empty invalid) as [[x Hx] | He].
        -- apply Hinv in Hx as [Hn Hx]. apply in_map_iff in Hx as (e & <- & He).
           eauto.
        -- exfalso. apply Hempty. now apply leibniz_equiv.
    + intros ids [Heq | []]. inversion Heq; subst. exact Hinv.
Qed.

(** The assignment of the converted column changes [created_at] only. *)
Lemma assign_created_at_spec (dates : list Frame.cell) (rows : list Student.t) :
  Forall2 (fun s s' => s' = set_created_at (Student.created_at s') s)
          rows (assign_created_at dates rows).
Proof.
  revert dates. induction rows as [| s rest IH]; intros dates; simpl; constructor; auto.
Qed.

Lemma assign_created_at_ids (dates : list Frame.cell) (rows : list Student.t) :
  map Student.student_id (assign_created_at dates rows) = map Student.student_id rows.
Proof.
  revert dates. induction rows as [| s rest IH]; intros dates; simpl; [reflexivity |].
  now rewrite IH.
Qed.

Lemma ensure_sql_types_students_spec (to_datetime : Frame.conversion)
    (rows out : list Student.t) (g g' : Rng.rng) :
  ensure_sql_types_students to_datetime rows g = Some (out, g') ->
  g' = g /\
  exists ts, to_datetime (map Student.created_at rows) = Some ts /\
             out = assign_created_at (map Frame.date_of ts) rows.
Proof.
  unfold ensure_sql_types_students.
  destruct (to_datetime (map Student.created_at rows)) as [ts |]; [| discriminate].
  intros H. inversion H; subst. eauto.
Qed.

Lemma load_unfold (to_datetime : Frame.conversion) (td : transformed_data)
    (w w' : warehouse) (log : list message) (g g' : Rng.rng) :
  load_transformed_data to_datetime td w g = Some ((w', log), g') ->
  exists written msgs,
    repair_employees (list_to_set (map Department.department_id (departments td)))
      (employees td) g = Some ((written, msgs), g') /\
    dim_department w' = dim_department w ++ departments td /\
    dim_employee w' = dim_employee w ++ written /\
    log = [Info "Loading transformed data into database..."; Info "Loaded dim_date";
            Info "Loaded dim_department";
           Info "Loaded independent dimensions"]
          ++ msgs
          ++ [Info "Loaded dim_employee"; Info "All transformed data loaded successfully!"].
Proof.
  unfold load_transformed_data. intros H.
  apply bind_Some in H as (t1 & g1 & H1 & H). apply to_sql_spec in H1 as [-> ->].
  apply bind_Some in H as (t2 & g2 & H2 & H). apply to_sql_spec in H2 as [-> ->].
  apply bind_Some in H as (t3 & g3 & H3 & H). apply to_sql_spec in H3 as [-> ->].
  apply bind_Some in H as (t4 & g4 & H4 & H). apply to_sql_spec in H4 as [-> ->].
  apply bind_Some in H as (t5 & g5 & H5 & H). apply to_sql_spec in H5 as [-> ->].
  apply bind_Some in H as (st & gs & Hst & H).
  apply ensure_sql_types_students_spec in Hst as [-> _].
  apply bind_Some in H as (t6 & g6 & H6 & H). apply to_sql_spec in H6 as [-> ->].
  apply bind_Some in H as ([written msgs] & g7 & Hrep & H).
  apply bind_Some in H as (t7 & g8 & H7 & H). apply to_sql_spec in H7 as [-> ->].
  inversion H; subst; clear H. simpl.
  exists written, msgs. auto.
Qed.

Lemma warning_in_log (ids : gset Z) (msgs : list message) :
  In (Warning_invalid_department_ids ids)
     ([Info "Loading transformed data into database..."; Info "Loaded dim_date";
            Info "Loaded dim_department";
       Info "Loaded independent dimensions"]
      ++ msgs
      ++ [Info "Loaded dim_employee"; Info "All transformed data loaded successfully!"])
  <-> In (Warning_invalid_department_ids ids) msgs.
Proof.
  rewrite !in_app_iff. simpl. split.
  - intros [[H | [H | [H | [H | []]]]] | [H | [H | [H | []]]]]; try discriminate. exact H.
  - intros H. right. now left.
Qed.

(** The rows of the repair lambda and the source.  Row [i], when its
    reference is invalid, gets the id at the index that the next unused
    value of the source gives: the value number "invalid rows before [i]"
    from where the source stands.  The source ends moved by the number of
    invalid rows. *)
Lemma repair_rows_draws (valid : gset Z) (emps out : list Employee.t) (g g' : Rng.rng) :
  Rng.mapM (fun e =>
      let* d := Transformer.fix_department_id valid (Employee.department_id e) in
      Rng.ret (set_department_id d e)) emps g = Some (out, g') ->
  Rng.raw g' = Rng.raw g /\ Rng.normal g' = Rng.normal g /\
  Rng.pos g' =
    (Rng.pos g + N.of_nat (length (List.filter
       (fun e => bool_decide (Employee.department_id e ∉ valid)) emps)))%N /\
  forall i e, emps !! i = Some e -> Employee.department_id e ∉ valid ->
    exists d,
      Rng.choice_of (elements valid)
        (Rng.raw g (Rng.pos g + N.of_nat (length (List.filter
           (fun e => bool_decide (Employee.department_id e ∉ valid)) (take i emps)))))
      = Some d /\
      out !! i = Some (set_department_id d e).
Proof.
  revert out g. induction emps as [| e es IH]; intros out g H.
  - inversion H; subst. simpl. repeat split; [lia |]. intros i e Hi. discriminate Hi.
  - cbn [Rng.mapM] in H.
    apply bind_Some in H as (e' & g1 & He & H).
    apply bind_Some in H as (es' & g2 & Hes & H).
    inversion H; subst; clear H.
    apply bind_Some in He as (d & gd & Hd & Hret). inversion Hret; subst; clear Hret.
    apply IH in Hes as (Hraw & Hnormal & Hpos & Hrows). clear IH.
    unfold Transformer.fix_department_id in Hd. cbn [List.filter].
    case_bool_decide as Hv.
    + inversion Hd; subst; clear Hd.
      rewrite bool_decide_eq_false_2 by (intros Hn; now apply Hn).
      split; [exact Hraw |]. split; [exact Hnormal |]. split; [exact Hpos |].
      intros [| i] e0 Hi Hn; simpl in Hi.
      * inversion Hi; subst. contradiction.
      * cbn [take List.filter].
        rewrite bool_decide_eq_false_2 by (intros Hn'; now apply Hn').
        destruct (Hrows i e0 Hi Hn) as (d & Hc & Ho). exists d. split; assumption.
    + apply random_choice_spec in Hd as [Hd ->]. simpl in Hraw, Hnormal, Hpos, Hrows.
      rewrite bool_decide_eq_true_2 by exact Hv.
      split; [exact Hraw |]. split; [exact Hnormal |].
      split; [rewrite Hpos; simpl length; lia |].
      intros [| i] e0 Hi Hn; simpl in Hi.
      * inversion Hi; subst. exists d. split; [| reflexivity].
        simpl. now rewrite N.add_0_r.
      * cbn [take List.filter]. rewrite bool_decide_eq_true_2 by exact Hv.
        destruct (Hrows i e0 Hi Hn) as (d' & Hc & Ho). exists d'. split; [| exact Ho].
        simpl length. rewrite <- Hc. f_equal. f_equal. lia.
Qed.

Lemma repair_employees_draws (valid : gset Z) (emps out : list Employee.t)
    (msgs : list message) (g g' : Rng.rng) :
  repair_employees valid emps g = Some ((out, msgs), g') ->
  Rng.raw g' = Rng.raw g /\ Rng.normal g' = Rng.normal g /\
  Rng.pos g' =
    (Rng.pos g + N.of_nat (length (List.filter
       (fun e => bool_decide (Employee.department_id e ∉ valid)) emps)))%N /\
  forall i e, emps !! i = Some e -> Employee.department_id e ∉ valid ->
    exists d,
      Rng.choice_of (elements valid)
        (Rng.raw g (Rng.pos g + N.of_nat (length (List.filter
           (fun e => bool_decide (Employee.department_id e ∉ valid)) (take i emps)))))
      = Some d /\
      out !! i = Some (set_department_id d e).
Proof.
  unfold repair_employees. case_bool_decide as Hempty.
  - assert (Hall : forall e, In e emps -> Employee.department_id e ∈ valid).
    { intros e He. destruct (decide (Employee.department_id e ∈ valid)) as [| Hn]; [done |].
      exfalso. apply (not_elem_of_empty (C := gset Z) (Employee.department_id e)).
      rewrite <- Hempty. apply elem_of_difference. split; [| exact Hn].
      apply elem_of_list_to_set, list_elem_of_In. now apply in_map. }
    intros H. inversion H; subst; clear H.
    assert (Hnone : List.filter (fun e => bool_decide (Employee.department_id e ∉ valid)) out
                    = []).
    { clear Hempty. induction out as [| e es IH]; [reflexivity |]. cbn [List.filter].
      rewrite bool_decide_eq_false_2.
      - apply IH. intros e0 He0. apply Hall. now right.
      - intros Hn. apply Hn, Hall. now left. }
    rewrite Hnone. simpl. repeat split; [lia |].
    intros i e Hi Hn. exfalso. apply Hn, Hall.
    apply list_elem_of_In. eapply list_elem_of_lookup_2. exact Hi.
  - intros H. apply bind_Some in H as (repaired & g1 & Hm & H).
    inversion H; subst; clear H. now apply repair_rows_draws.
Qed.

(** [random.choice] gives every element of a list without repetition
    equally often: among the values 0 to [m * len - 1] of the source,
    exactly [m] lead to a given element. *)
Lemma choice_of_equally_often (l : list Z) (x : Z) (m : nat) :
  NoDup l -> In x l ->
  length (List.filter (fun k => bool_decide (Rng.choice_of l (N.of_nat k) = Some x))
                      (seq 0 (m * length l))) = m.
Proof.
  intros Hnd Hin.
  destruct (choice_of_uniform l x Hnd Hin) as (k0 & Hk0 & Hc0 & Huniq).
  set (n := length l) in *.
  assert (Hn : (0 < n)%nat) by lia.
  assert (Hiff : forall k, Rng.choice_of l (N.of_nat k) = Some x <->
                           (N.of_nat k mod N.of_nat n)%N = k0).
  { intros k.
    assert (Hb : (N.of_nat k mod N.of_nat n < N.of_nat n)%N) by (apply N.mod_lt; lia).
    assert (Heq : Rng.choice_of l (N.of_nat k)
                  = Rng.choice_of l (N.of_nat k mod N.of_nat n)%N).
    { unfold Rng.choice_of. fold n. now rewrite N.Div0.mod_mod. }
    rewrite Heq. split.
    - intros H. now apply Huniq.
    - intros ->. exact Hc0. }
  assert (Hblock : forall a j, (j <= n)%nat ->
            length (List.filter
                      (fun k => bool_decide (Rng.choice_of l (N.of_nat k) = Some x))
                      (seq (a * n) j))
            = if (N.to_nat k0 <? j)%nat then 1%nat else 0%nat).
  { intros a j. induction j as [| j IH]; intros Hj; [reflexivity |].
    rewrite seq_S, List.filter_app, length_app, IH by lia. cbn [List.filter].
    assert (Hmod : (N.of_nat (a * n + j) mod N.of_nat n)%N = N.of_nat j).
    { rewrite Nat2N.inj_add, Nat2N.inj_mul, N.add_comm, N.Div0.mod_add.
      apply N.mod_small. lia. }
    destruct (decide (N.of_nat j = k0)) as [Heq | Hne].
    - rewrite bool_decide_eq_true_2 by (apply Hiff; congruence).
      destruct (Nat.ltb_spec (N.to_nat k0) j), (Nat.ltb_spec (N.to_nat k0) (S j));
        simpl; lia.
    - rewrite bool_decide_eq_false_2 by (rewrite Hiff; congruence).
      destruct (Nat.ltb_spec (N.to_nat k0) j), (Nat.ltb_spec (N.to_nat k0) (S j));
        simpl; lia. }
  induction m as [| m IH]; [reflexivity |].
  rewrite Nat.mul_succ_l, seq_app, List.filter_app, length_app, IH.
  rewrite Nat.add_0_l, Hblock by lia.
  destruct (Nat.ltb_spec (N.to_nat k0) n); lia.
Qed.

(** C1. Every employee row that the Loader writes references a department
    id of the department rows it has persisted.  A row whose reference is
    valid is written unchanged.  A row whose reference is invalid is
    written with the id that [random.choice] returns on
    [list(valid_dept_ids)], and nothing else changed: the id stands at the
    index given by the next unused value of the random source, one value
    per invalid row in the order of the rows, and the source ends moved by
    the number of invalid rows.  Each valid id sits at exactly one index,
    and over every whole number of rounds of the source values each valid
    id is chosen equally often: a uniform source gives a uniform id.  The
    warning is printed exactly when some reference is invalid, and it
    lists the invalid ids. *)
Theorem loader_repairs_department_references (to_datetime : Frame.conversion)
    (td : transformed_data) (w w' : warehouse) (log : list message) (g g' : Rng.rng) :
  load_transformed_data to_datetime td w g = Some ((w', log), g') ->
  let valid : gset Z := list_to_set (map Department.department_id (departments td)) in
  let invalid_before (i : nat) : nat :=
    length (List.filter (fun e => bool_decide (Employee.department_id e ∉ valid))
                        (take i (employees td))) in
  exists written,
    dim_department w' = dim_department w ++ departments td /\
    dim_employee w' = dim_employee w ++ written /\
    Forall2 (repaired_from valid) (employees td) written /\
    Forall (fun e => exists d, In d (dim_department w') /\
                       Department.department_id d = Employee.department_id e) written /\
    (forall i e, employees td !! i = Some e -> Employee.department_id e ∉ valid ->
       exists d,
         Rng.choice_of (elements valid)
           (Rng.raw g (Rng.pos g + N.of_nat (invalid_before i))) = Some d /\
         written !! i = Some (set_department_id d e)) /\
    Rng.raw g' = Rng.raw g /\
    Rng.pos g' = (Rng.pos g + N.of_nat (invalid_before (length (employees td))))%N /\
    ((exists e, In e (employees td) /\ Employee.department_id e ∉ valid) <->
     exists ids, In (Warning_invalid_department_ids ids) log) /\
    (forall ids, In (Warning_invalid_department_ids ids) log ->
       forall x, x ∈ ids <->
         (x ∉ valid) /\ In x (map Employee.department_id (employees td))) /\
    (forall v, v ∈ valid ->
       exists k, (k < N.of_nat (length (elements valid)))%N /\
         Rng.choice_of (elements valid) k = Some v /\
         forall k', (k' < N.of_nat (length (elements valid)))%N ->
           Rng.choice_of (elements valid) k' = Some v -> k' = k) /\
    (forall v m, v ∈ valid ->
       length (List.filter
                 (fun k => bool_decide (Rng.choice_of (elements valid) (N.of_nat k) = Some v))
                 (seq 0 (m * length (elements valid)))) = m).
Proof.
  intros H valid invalid_before.
  apply load_unfold in H as (written & msgs & Hrep & Hdep & Hemp & ->).
  pose proof (repair_employees_draws _ _ _ _ _ _ Hrep) as (Hraw & _ & Hpos & Hdraws).
  apply repair_employees_spec in Hrep as (Hrel & Hwarn & Hids).
  fold valid in Hrel, Hwarn, Hids, Hpos, Hdraws.
  exists written. split; [exact Hdep |]. split; [exact Hemp |].
  split; [exact Hrel |]. split; [| split; [| split; [| split; [| split; [| split; [| split]]]]]].
  - apply List.Forall_forall. intros e' He'.
    assert (Hv : Employee.department_id e' ∈ valid).
    { clear -Hrel He'. induction Hrel as [| e e0 es es' Hee HF IH]; [destruct He' |].
      destruct He' as [<- | He']; [apply Hee | auto]. }
    unfold valid in Hv. apply elem_of_list_to_set, list_elem_of_In in Hv.
    apply in_map_iff in Hv as (d & Hd & Hin).
    exists d. split; [| exact Hd]. rewrite Hdep. apply in_or_app. now right.
  - exact Hdraws.
  - exact Hraw.
  - unfold invalid_before. rewrite firstn_all. exact Hpos.
  - rewrite Hwarn. split; intros (ids & Hi); exists ids.
    + exact (proj2 (warning_in_log ids msgs) Hi).
    + exact (proj1 (warning_in_log ids msgs) Hi).
  - intros ids Hi. apply Hids. exact (proj1 (warning_in_log ids msgs) Hi).
  - intros v Hv. apply choice_of_uniform.
    + apply NoDup_elements.
    + apply list_elem_of_In, elem_of_elements, Hv.
  - intros v m Hv. apply choice_of_equally_often.
    + apply NoDup_elements.
    + apply list_elem_of_In, elem_of_elements, Hv.
Qed.

(** The scenario of the specification: departments 1, 2 and 3, an employee
    that references department 99 and one that references department 2.
    The source that counts stands at its first value, 1: the first
    employee is written with the id at index 1 of the enumeration of the
    three ids, which is 2; the second is written as it is; the source has
    moved by one value, and the warning names 99. *)
Lemma loader_repairs_department_references_witness :
  load_transformed_data Samples.sample_to_datetime Samples.sample_transformed
    empty_warehouse Samples.counting
    = Some ((Samples.loaded, Samples.load_log), Samples.load_rng) /\
  map Employee.department_id (dim_employee Samples.loaded) = [2; 2] /\
  In (Warning_invalid_department_ids {[99]}) Samples.load_log /\
  Rng.pos Samples.load_rng = 1%N /\
  let valid : gset Z :=
    list_to_set (map Department.department_id (departments Samples.sample_transformed)) in
  let invalid_before (i : nat) : nat :=
    length (List.filter (fun e => bool_decide (Employee.department_id e ∉ valid))
                        (take i (employees Samples.sample_transformed))) in
  exists written,
    dim_department Samples.loaded
      = dim_department empty_warehouse ++ departments Samples.sample_transformed /\
    dim_employee Samples.loaded = dim_employee empty_warehouse ++ written /\
    Forall2 (repaired_from valid) (employees Samples.sample_transformed) written /\
    Forall (fun e => exists d, In d (dim_department Samples.loaded) /\
                       Department.department_id d = Employee.department_id e) written /\
    (forall i e, employees Samples.sample_transformed !! i = Some e ->
       Employee.department_id e ∉ valid ->
       exists d,
         Rng.choice_of (elements valid)
           (Rng.raw Samples.counting
              (Rng.pos Samples.counting + N.of_nat (invalid_before i))) = Some d /\
         written !! i = Some (set_department_id d e)) /\
    Rng.raw Samples.load_rng = Rng.raw Samples.counting /\
    Rng.pos Samples.load_rng =
      (Rng.pos Samples.counting
       + N.of_nat (invalid_before (length (employees Samples.sample_transformed))))%N /\
    ((exists e, In e (employees Samples.sample_transformed) /\
                Employee.department_id e ∉ valid) <->
     exists ids, In (Warning_invalid_department_ids ids) Samples.load_log) /\
    (forall ids, In (Warning_invalid_department_ids ids) Samples.load_log ->
       forall x, x ∈ ids <->
         (x ∉ valid) /\
         In x (map Employee.department_id (employees Samples.sample_transformed))) /\
    (forall v, v ∈ valid ->
       exists k, (k < N.of_nat (length (elements valid)))%N /\
         Rng.choice_of (elements valid) k = Some v /\
         forall k', (k' < N.of_nat (length (elements valid)))%N ->
           Rng.choice_of (elements valid) k' = Some v -> k' = k) /\
    (forall v m, v ∈ valid ->
       length (List.filter
                 (fun k => bool_decide (Rng.choice_of (elements valid) (N.of_nat k) = Some v))
                 (seq 0 (m * length (elements valid)))) = m).
Proof.
  split; [vm_compute; reflexivity |].
  split; [vm_compute; reflexivity |].
  split; [vm_compute; tauto |].
  split; [vm_compute; reflexivity |].
  apply (loader_repairs_department_references Samples.sample_to_datetime
           Samples.sample_transformed empty_warehouse
           Samples.loaded Samples.load_log Samples.counting Samples.load_rng).
  vm_compute; reflexivity.
Defined.

Lemma to_sql_new {T : Type} (key : T -> Z) (table rows : list T) (g : Rng.rng) :
  NoDup (map key (table ++ rows)) -> to_sql key table rows g = Some (table ++ rows, g).
Proof. intros Hnd. unfold to_sql. now rewrite bool_decide_eq_true_2. Qed.

(** The repair pass returns when there is a valid id. *)
Lemma repair_employees_total (valid : gset Z) (emps : list Employee.t) (g : Rng.rng) :
  elements valid <> [] ->
  exists out msgs g1,
    repair_employees valid emps g = Some ((out, msgs), g1) /\
    map Employee.employee_id out = map Employee.employee_id emps.
Proof.
  intros Hne. unfold repair_employees. case_bool_decide.
  - eexists _, _, _. split; reflexivity.
  - destruct (mapM_total
                (fun e => let* d := Transformer.fix_department_id valid
                                      (Employee.department_id e) in
                          Rng.ret (set_department_id d e)) emps g)
      as (out & g1 & Hout).
    { intros e g0 _. unfold Transformer.fix_department_id.
      case_bool_decide.
      - eexists _, _. reflexivity.
      - unfold Rng.bind, Rng.random_choice.
        destruct (elements valid) as [| y ys] eqn:El; [congruence |].
        unfold Rng.bind, Rng.next_raw.
        destruct (Rng.choice_of (y :: ys) (Rng.raw g0 (Rng.pos g0))) as [z |] eqn:Hz.
        + eexists _, _. reflexivity.
        + unfold Rng.choice_of in Hz. apply nth_error_None in Hz.
          pose proof (N.mod_upper_bound (Rng.raw g0 (Rng.pos g0))
                        (N.of_nat (length (y :: ys)))) as Hb.
          simpl length in *. lia. }
    unfold Rng.bind at 1. rewrite Hout.
    eexists _, _, _. split; [reflexivity |].
    eapply mapM_map; [| exact Hout].
    intros e ga e' gb He. apply bind_Some in He as (d & gc & _ & He).
    inversion He; subst. reflexivity.
Qed.

(** In the model the Loader returns whenever the conversion of
    [created_at] returns, the keys written to every table are new and
    distinct, and some department exists. *)
Lemma load_transformed_data_total (to_datetime : Frame.conversion)
    (td : transformed_data) (w : warehouse) (g : Rng.rng) :
  is_Some (to_datetime (map Student.created_at (students td))) ->
  NoDup (map DateRow.date_key (dim_date w ++ dates td)) ->
  NoDup (map Department.department_id (dim_department w ++ departments td)) ->
  NoDup (map Account.account_id (dim_account w ++ accounts td)) ->
  NoDup (map Vendor.vendor_id (dim_vendor w ++ vendors td)) ->
  NoDup (map Course.course_id (dim_course w ++ courses td)) ->
  NoDup (map Student.student_id (dim_student w ++ students td)) ->
  NoDup (map Employee.employee_id (dim_employee w ++ employees td)) ->
  departments td <> [] ->
  exists w' log g', load_transformed_data to_datetime td w g = Some ((w', log), g').
Proof.
  intros [ts Hts] N1 N2 N3 N4 N5 N6 N7 Hdep.
  rewrite map_app, <- (assign_created_at_ids (map Frame.date_of ts) (students td)),
    <- map_app in N6.
  set (valid := list_to_set (map Department.department_id (departments td)) : gset Z).
  assert (Hne : elements valid <> []).
  { destruct (departments td) as [| d ds] eqn:Ed; [congruence |].
    intros He. apply elements_empty_inv in He.
    assert (Hd : Department.department_id d ∈ valid).
    { unfold valid. simpl. set_solver. }
    rewrite He in Hd. now apply not_elem_of_empty in Hd. }
  destruct (repair_employees_total valid (employees td) g Hne)
    as (out & msgs & g1 & Hrep & Hkeys).
  rewrite map_app, <- Hkeys, <- map_app in N7.
  unfold load_transformed_data. fold valid.
  unfold Rng.bind at 1. rewrite (to_sql_new _ _ _ _ N1).
  unfold Rng.bind at 1. rewrite (to_sql_new _ _ _ _ N2).
  unfold Rng.bind at 1. rewrite (to_sql_new _ _ _ _ N3).
  unfold Rng.bind at 1. rewrite (to_sql_new _ _ _ _ N4).
  unfold Rng.bind at 1. rewrite (to_sql_new _ _ _ _ N5).
  unfold Rng.bind at 1. unfold ensure_sql_types_students. rewrite Hts. unfold Rng.ret at 1.
  unfold Rng.bind at 1. rewrite (to_sql_new _ _ _ _ N6).
  unfold Rng.bind at 1. rewrite Hrep. cbn [fst snd].
  unfold Rng.bind at 1. rewrite (to_sql_new _ _ _ _ N7).
  eexists _, _, _. reflexivity.
Qed.

End LoaderFacts.

(* ===================================================================== *)
(** * Properties of the Schema Manager                                    *)
(* ===================================================================== *)

Section SchemaFacts.

Import SchemaManager.

Lemma lookup_drop (names : list string) (m : gmap string table) (k : string) :
  foldr delete m names !! k = if decide (k ∈ names) then None else m !! k.
Proof.
  induction names as [| n ns IH]; cbn [foldr].
  - destruct (decide (k ∈ [])) as [Hk | _]; [| reflexivity]. now apply elem_of_nil in Hk.
  - destruct (decide (n = k)) as [-> | Hne].
    + rewrite lookup_delete_eq.
      destruct (decide (k ∈ k :: ns)) as [_ | Hk]; [reflexivity |].
      exfalso. apply Hk, list_elem_of_here.
    + rewrite lookup_delete_ne by exact Hne. rewrite IH.
      destruct (decide (k ∈ ns)) as [Hin | Hnin];
        destruct (decide (k ∈ n :: ns)) as [Hin' | Hnin']; try reflexivity.
      * exfalso. apply Hnin'. now apply list_elem_of_further.
      * exfalso. apply elem_of_cons in Hin' as [-> | Hin']; contradiction.
Qed.

Lemma lookup_install_other (defs : list (string * table)) (m : gmap string table)
    (k : string) :
  k ∉ map fst defs -> install defs m !! k = m !! k.
Proof.
  revert m. induction defs as [| [n t] rest IH]; intros m Hk; simpl; [reflexivity |].
  simpl in Hk. apply not_elem_of_cons in Hk as [Hne Hk].
  rewrite IH by exact Hk. now apply lookup_insert_ne.
Qed.

Lemma lookup_install_in (defs : list (string * table)) (m : gmap string table)
    (n : string) (t : table) :
  NoDup (map fst defs) -> In (n, t) defs -> install defs m !! n = Some t.
Proof.
  revert m. induction defs as [| [n0 t0] rest IH]; intros m Hnd Hin; [destruct Hin |].
  simpl in Hnd. apply NoDup_cons in Hnd as [Hfresh Hnd]. simpl.
  destruct Hin as [Heq | Hin].
  - inversion Heq; subst. rewrite lookup_install_other by exact Hfresh.
    apply lookup_insert_eq.
  - now apply IH.
Qed.

Lemma execute_all_app (s1 s2 : list statement) (db : database) :
  execute_all (s1 ++ s2) db =
  match execute_all s1 db with
  | Some db' => execute_all s2 db'
  | None => None
  end.
Proof.
  revert db. induction s1 as [| st rest IH]; intros db; simpl; [reflexivity |].
  destruct (execute st db); [apply IH | reflexivity].
Qed.

(** With the integrity checks off, creating tables whose names are free and
    pairwise distinct succeeds and installs them. *)
Lemma execute_creates (sts : list statement) (m : gmap string table) :
  Forall (fun st => is_Some (created st)) sts ->
  NoDup (map fst (omap created sts)) ->
  (forall n, n ∈ map fst (omap created sts) -> m !! n = None) ->
  execute_all sts (mk_database m false)
  = Some (mk_database (install (omap created sts) m) false).
Proof.
  revert m. induction sts as [| st rest IH]; intros m Hall Hnd Hfree; [reflexivity |].
  apply Forall_cons in Hall as [[[n t] Hst] Hall].
  destruct st as [b | names | name cols fks]; simpl in Hst; try discriminate.
  inversion Hst; subst; clear Hst.
  simpl in Hnd, Hfree |- *.
  apply NoDup_cons in Hnd as [Hfresh Hnd].
  rewrite (Hfree n) by apply list_elem_of_here.
  apply IH; [exact Hall | exact Hnd |].
  intros n' Hn. rewrite lookup_insert_ne.
  - apply Hfree. now apply list_elem_of_further.
  - intros ->. contradiction.
Qed.

Lemma create_statements_are_creates :
  Forall (fun st => is_Some (created st)) create_statements.
Proof. unfold create_statements. repeat constructor; eexists; reflexivity. Qed.

Lemma warehouse_table_names :
  map fst warehouse_tables =
  ["dim_date"; "dim_student"; "dim_course"; "dim_department"; "dim_employee";
   "dim_account"; "dim_vendor"; "fact_academics"; "fact_hr_metrics"; "fact_finance"]%string.
Proof. reflexivity. Qed.

Lemma warehouse_tables_NoDup : NoDup (map fst warehouse_tables).
Proof. rewrite warehouse_table_names. compute_done. Qed.

(** The tables that are dropped are the tables that are created. *)
Lemma dropped_iff_created (k : string) :
  k ∈ fact_tables ∨ k ∈ dim_tables <-> k ∈ map fst warehouse_tables.
Proof.
  rewrite warehouse_table_names. unfold fact_tables, dim_tables.
  rewrite !elem_of_cons, !elem_of_nil. tauto.
Qed.

Lemma lookup_rebuilt_created (m : gmap string table) (n : string) (t : table) :
  In (n, t) warehouse_tables -> rebuilt m !! n = Some t.
Proof. intros Hin. apply lookup_install_in; [apply warehouse_tables_NoDup | exact Hin]. Qed.

Lemma lookup_rebuilt_other (m : gmap string table) (k : string) :
  k ∉ map fst warehouse_tables -> rebuilt m !! k = m !! k.
Proof.
  intros Hk. unfold rebuilt. rewrite lookup_install_other by exact Hk.
  rewrite !lookup_drop.
  destruct (decide (k ∈ dim_tables)) as [Hd | _].
  { exfalso. apply Hk, dropped_iff_created. now right. }
  destruct (decide (k ∈ fact_tables)) as [Hf | _]; [| reflexivity].
  exfalso. apply Hk, dropped_iff_created. now left.
Qed.

(** One run of the Schema Manager, from any schema. *)
Lemma create_transformed_tables_result (db : database) :
  create_transformed_tables db = Some (mk_database (rebuilt (tables db)) true).
Proof.
  unfold create_transformed_tables, script.
  change ([SET_FOREIGN_KEY_CHECKS false; DROP_TABLE_IF_EXISTS fact_tables;
           DROP_TABLE_IF_EXISTS dim_tables] ++ create_statements ++
          [SET_FOREIGN_KEY_CHECKS true])
    with (SET_FOREIGN_KEY_CHECKS false :: DROP_TABLE_IF_EXISTS fact_tables ::
          DROP_TABLE_IF_EXISTS dim_tables ::
          (create_statements ++ [SET_FOREIGN_KEY_CHECKS true])).
  cbn [execute_all execute foreign_key_checks tables andb].
  rewrite execute_all_app.
  rewrite execute_creates.
  - reflexivity.
  - apply create_statements_are_creates.
  - apply warehouse_tables_NoDup.
  - intros n Hn. apply dropped_iff_created in Hn. rewrite !lookup_drop.
    destruct (decide (n ∈ dim_tables)); [reflexivity |].
    destruct (decide (n ∈ fact_tables)); [reflexivity | tauto].
Qed.

Lemma rebuilt_idempotent (m : gmap string table) : rebuilt (rebuilt m) = rebuilt m.
Proof.
  apply map_eq. intros k.
  destruct (decide (k ∈ map fst warehouse_tables)) as [Hin | Hnin].
  - apply list_elem_of_In, in_map_iff in Hin as ([n t] & <- & Hin). simpl.
    now rewrite !(lookup_rebuilt_created _ n t Hin).
  - now rewrite (lookup_rebuilt_other (rebuilt m)) by exact Hnin.
Qed.

(** C8. From any schema, one rebuild succeeds; a second rebuild right
    after it succeeds too and leaves exactly the same schema.  After the
    rebuild the integrity checks are on, the ten warehouse tables exist
    with their columns and foreign keys and hold no rows, and every other
    table is as it was. *)
Theorem schema_rebuild_idempotent (db : database) :
  exists db1,
    create_transformed_tables db = Some db1 /\
    create_transformed_tables db1 = Some db1 /\
    foreign_key_checks db1 = true /\
    length warehouse_tables = 10%nat /\
    (forall n t, In (n, t) warehouse_tables ->
       tables db1 !! n = Some t /\ rows t = []) /\
    (forall k, k ∉ map fst warehouse_tables -> tables db1 !! k = tables db !! k).
Proof.
  exists (mk_database (rebuilt (tables db)) true).
  split; [apply create_transformed_tables_result |].
  split.
  { rewrite create_transformed_tables_result. simpl. now rewrite rebuilt_idempotent. }
  split; [reflexivity |]. split; [reflexivity |]. split.
  - intros n t Hin. split; [now apply lookup_rebuilt_created |].
    unfold warehouse_tables, create_statements in Hin. simpl in Hin.
    repeat (destruct Hin as [Heq | Hin]; [inversion Heq; reflexivity |]).
    destruct Hin.
  - intros k Hk. now apply lookup_rebuilt_other.
Qed.

End SchemaFacts.

(* ===================================================================== *)
(** * Properties of [ensure_sql_types_before_load]                        *)
(* ===================================================================== *)

Section FrameFacts.

Import Frame.

Variable to_datetime : conversion.

(** [endswith] holds exactly of the strings that end in the suffix. *)
Lemma endswith_spec (s suffix : string) :
  endswith s suffix = true <-> exists p, s = (p +:+ suffix)%string.
Proof.
  split.
  - induction s as [| c s' IH].
    + destruct suffix; simpl; [| discriminate].
      intros _. exists EmptyString. reflexivity.
    + cbn [endswith]. destruct (String.eqb_spec (String c s') suffix) as [<- | Hne].
      * intros _. exists EmptyString. reflexivity.
      * intros H. destruct (IH H) as [p ->]. exists (String c p). reflexivity.
  - intros [p ->]. induction p as [| c p' IH].
    + change (EmptyString +:+ suffix)%string with suffix.
      destruct suffix; cbn [endswith]; now rewrite String.eqb_refl.
    + change (String c p' +:+ suffix)%string with (String c (p' +:+ suffix)).
      cbn [endswith].
      destruct (String.eqb (String c (p' +:+ suffix)) suffix); [reflexivity | exact IH].
Qed.

(** The columns that the function converts: the label is [date], or ends
    in [_date], or ends in [_at]. *)
Lemma is_date_column_spec (col : string) :
  is_date_column col = true <->
  col = "date"%string \/
  (exists p, col = (p +:+ "_date")%string) \/
  (exists p, col = (p +:+ "_at")%string).
Proof.
  unfold is_date_column. rewrite !orb_true_iff, String.eqb_eq, !endswith_spec. tauto.
Qed.

Lemma df_get_app (col : label) (a b : dataframe) :
  df_get col (a ++ b) = df_get col a ++ df_get col b.
Proof. unfold df_get. now rewrite List.filter_app, map_app. Qed.

(** The number of columns under a label depends on the labels only. *)
Lemma occurrences_labels (col : label) (a b : dataframe) :
  map fst a = map fst b -> length (df_get col a) = length (df_get col b).
Proof.
  revert b. induction a as [| [c d] a IH]; intros [| [c' d'] b] H; try discriminate;
    [reflexivity |].
  simpl in H. inversion H; subst. unfold df_get in *. cbn [List.filter fst].
  case_bool_decide; simpl; rewrite (IH b); auto.
Qed.

(** An assignment to a label that the frame does not have changes nothing. *)
Lemma df_set_absent (col : label) (data : list cell) (df : dataframe) :
  df_get col df = [] -> df_set col data df = df.
Proof.
  unfold df_get, df_set. induction df as [| [c d] rest IH]; [reflexivity |].
  cbn [List.filter map fst]. case_bool_decide as Hc; [discriminate |].
  intros Hrest. now rewrite IH.
Qed.

Lemma df_set_app (col : label) (data : list cell) (a b : dataframe) :
  df_set col data (a ++ b) = df_set col data a ++ df_set col data b.
Proof. unfold df_set. apply map_app. Qed.

(** The loop on the columns [suf] that are left, when the columns [pre]
    before them have been visited: it returns the frame with the columns
    of [suf] converted, or raises because one of them cannot be. *)
Lemma convert_columns_spec (frame : dataframe) (l : loc) (suf : dataframe) :
  forall (pre pre' : dataframe) (h : heap),
    frame = pre ++ suf -> map fst pre' = map fst pre -> h !! l = Some (pre' ++ suf) ->
    match convert_columns to_datetime (df_columns suf) l h with
    | Some h' => exists suf', h' = <[l := pre' ++ suf']> h /\
                              Forall2 (converted_from to_datetime frame) suf suf'
    | None => Exists (not_convertible to_datetime frame) suf
    end.
Proof.
  induction suf as [| [lab data] suf IH]; intros pre pre' h Hframe Hlabels Hl.
  - simpl. exists []. split; [now rewrite insert_id | constructor].
  - cbn [df_columns map fst convert_columns].
    destruct lab as [s | n]; [| now apply Exists_cons_hd].
    destruct (is_date_column s) eqn:Hdate.
    + unfold dataframe in *. rewrite Hl.
      assert (Hocc : occurrences (Name s) frame
                     = length (df_get (Name s) (pre' ++ (Name s, data) :: suf))).
      { unfold occurrences. apply occurrences_labels. rewrite Hframe, !map_app.
        now rewrite Hlabels. }
      assert (Hsel : df_get (Name s) (pre' ++ (Name s, data) :: suf)
                     = df_get (Name s) pre' ++ data :: df_get (Name s) suf).
      { rewrite df_get_app. f_equal. unfold df_get. cbn [List.filter fst].
        now rewrite bool_decide_eq_true_2. }
      destruct (decide (occurrences (Name s) frame = 1%nat)) as [Hone | Hmore].
      * assert (Hpre : df_get (Name s) pre' = []).
        { rewrite Hocc, Hsel, length_app in Hone. simpl in Hone.
          destruct (df_get (Name s) pre'); [reflexivity | simpl in Hone; lia]. }
        assert (Hsuf : df_get (Name s) suf = []).
        { rewrite Hocc, Hsel, length_app in Hone. simpl in Hone.
          destruct (df_get (Name s) suf); [reflexivity | simpl in Hone; lia]. }
        rewrite Hsel, Hpre, Hsuf. cbn [app to_dates].
        destruct (to_datetime data) as [ts |] eqn:Hts.
        2:{ apply Exists_cons_hd. unfold not_convertible. simpl. auto. }
        assert (Hset : df_set (Name s) (map date_of ts) (pre' ++ (Name s, data) :: suf)
                       = (pre' ++ [(Name s, map date_of ts)]) ++ suf).
        { rewrite df_set_app, (df_set_absent _ _ pre' Hpre).
          change ((Name s, data) :: suf) with ([(Name s, data)] ++ suf).
          rewrite df_set_app, (df_set_absent _ _ suf Hsuf). unfold df_set. simpl.
          rewrite bool_decide_eq_true_2 by reflexivity. now rewrite <- app_assoc. }
        rewrite Hset.
        assert (Hrec := IH (pre ++ [(Name s, data)]) (pre' ++ [(Name s, map date_of ts)])
                  (<[l := (pre' ++ [(Name s, map date_of ts)]) ++ suf]> h)).
        rewrite Hframe, <- app_assoc, !map_app, Hlabels, lookup_insert_eq in Hrec.
        specialize (Hrec eq_refl eq_refl eq_refl).
        revert Hrec. unfold df_columns.
        destruct (convert_columns to_datetime (map fst suf) l
                    (<[l := (pre' ++ [(Name s, map date_of ts)]) ++ suf]> h)) as [h' |];
          intros Hrec.
        -- destruct Hrec as (suf' & -> & HF).
           exists ((Name s, map date_of ts) :: suf'). split.
           ++ rewrite insert_insert_eq, <- app_assoc. reflexivity.
           ++ constructor; [| rewrite Hframe; exact HF]. split; [reflexivity |].
              exists s. split; [reflexivity |]. rewrite Hdate. split; [exact Hone |].
              exists ts. split; [exact Hts | reflexivity].
        -- apply Exists_cons_tl. rewrite Hframe. exact Hrec.
      * replace (to_dates to_datetime (df_get (Name s) (pre' ++ (Name s, data) :: suf)))
          with (@None (list cell)).
        -- apply Exists_cons_hd. unfold not_convertible. simpl. auto.
        -- rewrite Hocc in Hmore.
           destruct (df_get (Name s) (pre' ++ (Name s, data) :: suf)) as [| a [| b c]];
             [reflexivity | simpl in Hmore; congruence | reflexivity].
    + assert (Hrec := IH (pre ++ [(Name s, data)]) (pre' ++ [(Name s, data)]) h).
      rewrite Hframe, <- !app_assoc, !map_app, Hlabels in Hrec.
      specialize (Hrec eq_refl eq_refl Hl).
      revert Hrec. unfold df_columns.
      destruct (convert_columns to_datetime (map fst suf) l h) as [h' |]; intros Hrec.
      * destruct Hrec as (suf' & -> & HF).
        exists ((Name s, data) :: suf'). split.
        -- rewrite <- app_assoc. reflexivity.
        -- constructor; [| rewrite Hframe; exact HF]. split; [reflexivity |].
           exists s. split; [reflexivity |]. now rewrite Hdate.
      * apply Exists_cons_tl. rewrite Hframe. exact Hrec.
Qed.

(** C10. [ensure_sql_types_before_load] works on a copy: when it returns,
    its result is a new frame and no frame that existed has changed, the
    input frame included.  The new frame has the labels of the input in
    the same order; a column whose label is not [date] and ends neither in
    [_date] nor in [_at] has the values of the input; every other column
    holds the calendar dates of the conversion of its values, null where a
    value does not convert.  The call returns exactly when every label is
    a text and every date-like label occurs once and heads a column that
    pandas converts without raising. *)
Theorem ensure_sql_types_frame (h : heap) (df : loc) (frame : dataframe) :
  h !! df = Some frame ->
  let date_like (s : string) : Prop :=
    s = "date"%string \/
    (exists p, s = (p +:+ "_date")%string) \/
    (exists p, s = (p +:+ "_at")%string) in
  ((exists copy h', ensure_sql_types_before_load to_datetime df h = Some (copy, h')) <->
   Forall (fun cd => exists s, fst cd = Name s /\
              (date_like s -> occurrences (Name s) frame = 1%nat /\
                              is_Some (to_datetime (snd cd))))
          frame) /\
  forall copy h',
    ensure_sql_types_before_load to_datetime df h = Some (copy, h') ->
    copy <> df /\ h !! copy = None /\
    h' !! df = Some frame /\
    (forall l, l <> copy -> h' !! l = h !! l) /\
    exists out,
      h' !! copy = Some out /\
      Forall2 (fun cd cd' =>
                 fst cd' = fst cd /\
                 exists s, fst cd = Name s /\
                   (~ date_like s -> snd cd' = snd cd) /\
                   (date_like s -> exists ts, to_datetime (snd cd) = Some ts /\
                                              snd cd' = map date_of ts))
              frame out.
Proof.
  intros Hdf date_like.
  assert (Hlike : forall s, date_like s <-> is_date_column s = true).
  { intros s. symmetry. apply is_date_column_spec. }
  unfold ensure_sql_types_before_load. rewrite Hdf.
  set (copy := fresh (dom h)).
  assert (Hfresh : h !! copy = None).
  { apply not_elem_of_dom. apply is_fresh. }
  assert (Hne : copy <> df) by congruence.
  pose proof (convert_columns_spec frame copy frame [] [] (<[copy := frame]> h)
                eq_refl eq_refl (lookup_insert_eq h copy frame)) as Hspec.
  destruct (convert_columns to_datetime (df_columns frame) copy (<[copy := frame]> h))
    as [h2 |].
  - destruct Hspec as (out & -> & HF). rewrite insert_insert_eq. split.
    + split; [intros _ | eauto].
      assert (Hgen : forall f f', Forall2 (converted_from to_datetime frame) f f' ->
                Forall (fun cd => exists s, fst cd = Name s /\
                          (date_like s -> occurrences (Name s) frame = 1%nat /\
                                          is_Some (to_datetime (snd cd)))) f).
      { intros f f' HF'. induction HF' as [| cd cd' f f' Hc HF' IH]; constructor; [| exact IH].
        destruct Hc as (_ & s & Hs & Hc). exists s. split; [exact Hs |].
        intros Hd. apply Hlike in Hd. rewrite Hd in Hc.
        destruct Hc as (Hone & ts & Hts & _). split; [exact Hone |]. rewrite Hts. eauto. }
      exact (Hgen _ _ HF).
    + intros copy' h' Heq. inversion Heq; subst copy' h'; clear Heq.
      split; [exact Hne |]. split; [exact Hfresh |].
      split; [now rewrite lookup_insert_ne |].
      split; [intros l Hl; now rewrite lookup_insert_ne |].
      exists out. split; [apply lookup_insert_eq |].
      eapply Forall2_impl; [exact HF |].
      intros cd cd' (Hlab & s & Hs & Hc). split; [exact Hlab |].
      exists s. split; [exact Hs |].
      destruct (is_date_column s) eqn:Hdate.
      * split; [intros Hn; exfalso; now apply Hn, Hlike |].
        intros _. destruct Hc as (_ & ts & Hts & Hv). eauto.
      * split; [intros _; exact Hc |].
        intros Hd. apply Hlike in Hd. congruence.
  - split; [| intros copy' h' Heq; discriminate].
    split; [intros (c & h' & Heq); discriminate |].
    intros Hall. exfalso.
    apply Exists_exists in Hspec as (cd & Hin & Hbad). apply list_elem_of_In in Hin.
    rewrite List.Forall_forall in Hall. destruct (Hall cd Hin) as (s & Hs & Hok).
    unfold not_convertible in Hbad. rewrite Hs in Hbad.
    destruct Hbad as (Hdate & Hbad). apply Hlike in Hdate.
    destruct (Hok Hdate) as (Hone & ts & Hts).
    destruct Hbad as [Hbad | Hbad]; congruence.
Qed.

End FrameFacts.

(** The sample frame: [hire_date] and [created_at] are converted,
    [employee_id] and [update] are not, and the frame at reference 1 is
    still the sample frame.  The call raises on the frame with the label
    [date] on two columns, on the frame with a label that is a number and
    on the frame whose date-like column mixes two UTC offsets. *)
Lemma ensure_sql_types_frame_witness :
  Samples.sample_heap !! 1%positive = Some Samples.sample_frame /\
  (exists h',
     Frame.ensure_sql_types_before_load Samples.sample_to_datetime 1%positive Samples.sample_heap
       = Some (2%positive, h') /\
     h' !! 1%positive = Some Samples.sample_frame /\
     h' !! 2%positive =
       Some [(Frame.Name "employee_id", [Frame.CInt 4; Frame.CInt 5]);
             (Frame.Name "hire_date", [Frame.CDate 737000; Frame.CNull]);
             (Frame.Name "update", [Frame.CStr "2024-01-05"; Frame.CNull]);
             (Frame.Name "created_at", [Frame.CDate 739000; Frame.CNull])]) /\
  Frame.ensure_sql_types_before_load Samples.sample_to_datetime 1%positive
    {[ 1%positive := Samples.repeated_label_frame ]} = None /\
  Frame.ensure_sql_types_before_load Samples.sample_to_datetime 1%positive
    {[ 1%positive := Samples.numbered_label_frame ]} = None /\
  Frame.ensure_sql_types_before_load Samples.sample_to_datetime 1%positive
    {[ 1%positive := Samples.mixed_offsets_frame ]} = None /\
  forall copy h',
    Frame.ensure_sql_types_before_load Samples.sample_to_datetime 1%positive
      Samples.sample_heap = Some (copy, h') ->
    copy <> 1%positive /\ Samples.sample_heap !! copy = None /\
    h' !! 1%positive = Some Samples.sample_frame /\
    (forall l, l <> copy -> h' !! l = Samples.sample_heap !! l).
Proof.
  split; [reflexivity |].
  split; [eexists; repeat split; vm_compute; reflexivity |].
  split; [vm_compute; reflexivity |].
  split; [vm_compute; reflexivity |].
  split; [vm_compute; reflexivity |].
  intros copy h' Hrun.
  destruct (ensure_sql_types_frame Samples.sample_to_datetime Samples.sample_heap
              1%positive Samples.sample_frame eq_refl) as [_ Hres].
  destruct (Hres copy h' Hrun) as (H1 & H2 & H3 & H4 & _).
  auto.
Defined.

(* ===================================================================== *)
(** * Properties of the string helpers                                    *)
(* ===================================================================== *)

Section TextFacts.

Import Text.

Lemma digit_val_pretty_char (r : N) :
  (r < 10)%N ->
  DateDim.digit_val (pretty_N_char r) = Z.of_N r /\ is_digit (pretty_N_char r) = true.
Proof.
  intros Hr.
  assert (Hc : r = 0%N \/ r = 1%N \/ r = 2%N \/ r = 3%N \/ r = 4%N \/
               r = 5%N \/ r = 6%N \/ r = 7%N \/ r = 8%N \/ r = 9%N) by lia.
  repeat (destruct Hc as [-> | Hc]; [split; reflexivity |]).
  subst r. split; reflexivity.
Qed.

(** Reading back the digits that [pretty_N_go] writes in front of [s]. *)
Lemma int_of_digits_pretty_go (x : N) :
  exists k : Z, 0 <= k /\ forall acc s,
    DateDim.int_of_digits acc (pretty_N_go x s)
    = DateDim.int_of_digits (acc * 10 ^ k + Z.of_N x) s.
Proof.
  induction (N.lt_wf_0 x) as [x _ IH].
  destruct (N.eq_dec x 0) as [-> | Hx].
  - exists 0. split; [lia |]. intros acc s. rewrite pretty_N_go_0. f_equal. lia.
  - assert (Hpos : (0 < x)%N) by lia.
    destruct (IH (x `div` 10)%N) as (k & Hk & Hgo).
    { apply N.div_lt; lia. }
    exists (k + 1). split; [lia |]. intros acc s.
    rewrite pretty_N_go_step by exact Hpos. rewrite Hgo. cbn [DateDim.int_of_digits].
    destruct (digit_val_pretty_char (x `mod` 10)%N) as [-> _].
    { apply N.mod_lt. lia. }
    f_equal. rewrite Z.pow_add_r by lia.
    rewrite N2Z.inj_div, N2Z.inj_mod. change (Z.of_N 10) with 10.
    pose proof (Z.div_mod (Z.of_N x) 10). lia.
Qed.

Lemma all_digits_pretty_go (x : N) (s : string) :
  all_digits s = true -> all_digits (pretty_N_go x s) = true.
Proof.
  revert s. induction (N.lt_wf_0 x) as [x _ IH]. intros s Hs.
  destruct (N.eq_dec x 0) as [-> | Hx]; [now rewrite pretty_N_go_0 |].
  rewrite pretty_N_go_step by lia. apply IH; [apply N.div_lt; lia |].
  cbn [all_digits]. rewrite Hs.
  destruct (digit_val_pretty_char (x `mod` 10)%N) as [_ ->]; [apply N.mod_lt; lia |].
  reflexivity.
Qed.

Lemma pretty_go_nonempty (x : N) (s : string) :
  s <> EmptyString -> pretty_N_go x s <> EmptyString.
Proof.
  revert s. induction (N.lt_wf_0 x) as [x _ IH]. intros s Hs.
  destruct (N.eq_dec x 0) as [-> | Hx]; [now rewrite pretty_N_go_0 |].
  rewrite pretty_N_go_step by lia. apply IH; [apply N.div_lt; lia | discriminate].
Qed.

(** [int(str(n)) == n] for a natural number, and [str(n)] is a non-empty
    string of digits. *)
Lemma int_of_str (n : Z) :
  0 <= n ->
  DateDim.int_of_string (str n) = n /\
  all_digits (str n) = true /\ str n <> EmptyString.
Proof.
  intros Hn. unfold str, pretty, pretty_Z.
  destruct n as [| p | p]; [repeat split; discriminate | | lia].
  unfold pretty, pretty_positive, pretty, pretty_N.
  rewrite decide_False by discriminate.
  split; [| split].
  - destruct (int_of_digits_pretty_go (N.pos p)) as (k & _ & Hgo).
    unfold DateDim.int_of_string. rewrite Hgo. reflexivity.
  - now apply all_digits_pretty_go.
  - rewrite pretty_N_go_step by lia. apply pretty_go_nonempty. discriminate.
Qed.

Lemma take_digits_app (ds rest : string) :
  all_digits ds = true -> take_digits rest = EmptyString ->
  take_digits (ds +:+ rest) = ds.
Proof.
  intros Hd Hr. induction ds as [| c ds IH]; [exact Hr |].
  cbn [all_digits] in Hd. apply andb_true_iff in Hd as [Hc Hd].
  change (String c ds +:+ rest)%string with (String c (ds +:+ rest)).
  cbn [take_digits]. rewrite Hc. now rewrite IH.
Qed.

(** The search finds the first number of the string whole. *)
Lemma first_digits_app (p ds rest : string) :
  no_digit p = true -> all_digits ds = true -> ds <> EmptyString ->
  take_digits rest = EmptyString ->
  first_digits (p +:+ ds +:+ rest) = Some ds.
Proof.
  intros Hp Hd Hne Hr. induction p as [| c p IH].
  - change (EmptyString +:+ ds +:+ rest)%string with (ds +:+ rest)%string.
    destruct ds as [| d ds]; [congruence |].
    cbn [all_digits] in Hd. apply andb_true_iff in Hd as [Hc Hd].
    change (String d ds +:+ rest)%string with (String d (ds +:+ rest)).
    cbn [first_digits]. rewrite Hc. now rewrite take_digits_app.
  - cbn [no_digit] in Hp. apply andb_true_iff in Hp as [Hc Hp].
    change (String c p +:+ ds +:+ rest)%string with (String c (p +:+ ds +:+ rest)).
    cbn [first_digits]. apply negb_true_iff in Hc. rewrite Hc. now apply IH.
Qed.

Lemma first_digits_None (s : string) :
  first_digits s = None <-> no_digit s = true.
Proof.
  induction s as [| c s IH]; cbn [first_digits no_digit]; [tauto |].
  destruct (is_digit c); simpl; [split; discriminate | exact IH].
Qed.

End TextFacts.

(* ===================================================================== *)
(** * Properties of the Dimension Transformer: courses and accounts       *)
(* ===================================================================== *)

Section CleaningFacts.

Import Cleaning.

Lemma int_of_run_within (digits : string) :
  (Text.len digits <= INT_MAX_STR_DIGITS)%nat ->
  int_of_run digits = Some (DateDim.int_of_string digits).
Proof.
  intros H. unfold int_of_run.
  destruct (Nat.ltb_spec INT_MAX_STR_DIGITS (Text.len digits)); [lia | reflexivity].
Qed.

(** X1. A course code in ASCII made of a part without digits, the decimal
    writing of a number [n] of at most 4300 digits, and a rest that does
    not begin with a digit has the level of [n]: Introductory below 200,
    Intermediate below 400, Advanced from 400 on.  Later digits of the
    code play no part. *)
Theorem course_level_of_first_number (p rest : string) (n : Z) :
  Text.is_ascii p = true -> Text.is_ascii rest = true ->
  0 <= n -> (Text.len (Text.str n) <= 4300)%nat ->
  Text.no_digit p = true -> Text.take_digits rest = EmptyString ->
  extract_course_level (p +:+ Text.str n +:+ rest) =
  Some (if n <? 200 then "Introductory"%string
        else if n <? 400 then "Intermediate"%string else "Advanced"%string).
Proof.
  intros _ _ Hn Hlen Hp Hr. destruct (int_of_str n Hn) as (Hval & Hd & Hne).
  unfold extract_course_level.
  rewrite (first_digits_app p (Text.str n) rest Hp Hd Hne Hr).
  rewrite (int_of_run_within _ Hlen). now rewrite Hval.
Qed.

Lemma course_level_of_first_number_witness :
  Text.is_ascii "CS" = true /\ Text.is_ascii "-B2" = true /\
  0 <= 305 /\ (Text.len (Text.str 305) <= 4300)%nat /\
  Text.no_digit "CS" = true /\ Text.take_digits "-B2" = EmptyString /\
  extract_course_level "CS305-B2" = Some "Intermediate"%string.
Proof.
  split; [reflexivity |]. split; [reflexivity |]. split; [lia |].
  split; [vm_compute; lia |]. split; [reflexivity |]. split; [reflexivity |].
  apply (course_level_of_first_number "CS" "-B2" 305);
    [reflexivity | reflexivity | lia | vm_compute; lia | reflexivity | reflexivity].
Defined.

(** X2. For a code in ASCII the level is Unknown exactly when the code has
    no digit. *)
Theorem course_level_unknown_iff (code : string) :
  Text.is_ascii code = true ->
  (extract_course_level code = Some "Unknown"%string <-> Text.no_digit code = true).
Proof.
  intros _. rewrite <- first_digits_None. unfold extract_course_level.
  destruct (Text.first_digits code) as [ds |].
  - split; [| discriminate]. destruct (int_of_run ds); [| discriminate].
    destruct (_ <? 200); [discriminate |]. destruct (_ <? 400); discriminate.
  - tauto.
Qed.

Lemma course_level_unknown_iff_witness :
  Text.is_ascii "SEMINAR" = true /\ Text.no_digit "SEMINAR" = true /\
  extract_course_level "SEMINAR" = Some "Unknown"%string.
Proof.
  split; [reflexivity |]. split; [reflexivity |].
  apply (course_level_unknown_iff "SEMINAR"); reflexivity.
Defined.

End CleaningFacts.

(* ===================================================================== *)
(** * More on [drop_duplicates] and on the employee and student cleaning  *)
(* ===================================================================== *)

Section DedupFacts.

Import Transformer.

Context {A : Type}.

Lemma drop_duplicates_from_complete (key : A -> Z) (seen : gset Z) (l : list A) (x : A) :
  In x l -> key x ∉ seen ->
  exists y, In y (drop_duplicates_from key seen l) /\ key y = key x.
Proof.
  revert seen. induction l as [| z zs IH]; intros seen Hin Hs; [destruct Hin |].
  cbn [drop_duplicates_from]. case_bool_decide as Hz.
  - destruct Hin as [-> | Hin]; [contradiction |]. now apply IH.
  - destruct (decide (key z = key x)) as [Heq | Hne].
    + exists z. split; [now left | exact Heq].
    + destruct Hin as [-> | Hin]; [congruence |].
      destruct (IH ({[key z]} ∪ seen) Hin) as (y & Hy & Hk).
      { rewrite elem_of_union, elem_of_singleton. intros [Heq | Hx]; [congruence | auto]. }
      exists y. split; [now right | exact Hk].
Qed.

(** Every key of the input is a key of the output. *)
Lemma drop_duplicates_complete (key : A -> Z) (l : list A) (x : A) :
  In x l -> exists y, In y (drop_duplicates key l) /\ key y = key x.
Proof.
  intros Hin. apply drop_duplicates_from_complete; [exact Hin | apply not_elem_of_empty].
Qed.

Lemma drop_duplicates_NoDup (key : A -> Z) (l : list A) :
  NoDup (map key (drop_duplicates key l)).
Proof. apply drop_duplicates_from_NoDup. Qed.

Lemma drop_duplicates_from_first (key : A -> Z) (seen : gset Z) (l : list A) (x : A) :
  In x (drop_duplicates_from key seen l) ->
  exists l1 l2, l = l1 ++ x :: l2 /\ ~ In (key x) (map key l1).
Proof.
  revert seen. induction l as [| z zs IH]; intros seen Hin; [destruct Hin |].
  cbn [drop_duplicates_from] in Hin. case_bool_decide as Hz.
  - pose proof Hin as Hin'. apply drop_duplicates_from_incl in Hin' as [_ Hns].
    destruct (IH seen Hin) as (l1 & l2 & -> & Hfresh).
    exists (z :: l1), l2. split; [reflexivity |].
    simpl. intros [Heq | Hk]; [| contradiction]. congruence.
  - destruct Hin as [<- | Hin].
    + exists [], zs. split; [reflexivity | intros []].
    + pose proof Hin as Hin'. apply drop_duplicates_from_incl in Hin' as [_ Hns].
      destruct (IH _ Hin) as (l1 & l2 & -> & Hfresh).
      exists (z :: l1), l2. split; [reflexivity |].
      simpl. intros [Heq | Hk]; [| contradiction].
      apply Hns. rewrite elem_of_union, elem_of_singleton. now left.
Qed.

(** A row that is kept is the first row of its key. *)
Lemma drop_duplicates_first (key : A -> Z) (l : list A) (x : A) :
  In x (drop_duplicates key l) ->
  exists l1 l2, l = l1 ++ x :: l2 /\ ~ In (key x) (map key l1).
Proof. apply drop_duplicates_from_first. Qed.

End DedupFacts.

Section CleaningTables.

Import Transformer Cleaning.

Lemma fix_credit_hours_spec (x : option Z) (g : Rng.rng) :
  exists h g', fix_credit_hours x g = Some (h, g') /\
    h ∈ [2; 3; 4] /\
    (forall v, x = Some v -> v ∈ [2; 3; 4] -> h = v /\ g' = g).
Proof.
  assert (Hdraw : exists h g', Rng.random_choice [2; 3; 4] g = Some (h, g') /\ h ∈ [2; 3; 4]).
  { unfold Rng.random_choice, Rng.bind, Rng.next_raw, Rng.choice_of.
    change (N.of_nat (length [2; 3; 4])) with 3%N.
    pose proof (N.mod_upper_bound (Rng.raw g (Rng.pos g)) 3) as Hb.
    destruct (N.to_nat (Rng.raw g (Rng.pos g) mod 3)) as [| [| [| k]]] eqn:E;
      [| | | lia]; simpl; eexists _, _; (split; [reflexivity |]);
      rewrite !elem_of_cons; auto. }
  unfold fix_credit_hours. destruct x as [v |].
  - case_bool_decide as Hv.
    + exists v, g. split; [reflexivity |]. split; [exact Hv |].
      intros v' Hv' _. inversion Hv'. auto.
    + destruct Hdraw as (h & g' & Hh & Hin). exists h, g'.
      split; [exact Hh |]. split; [exact Hin |].
      intros v' Hv' Hin'. inversion Hv'; subst. contradiction.
  - destruct Hdraw as (h & g' & Hh & Hin). exists h, g'.
    split; [exact Hh |]. split; [exact Hin |]. intros v' Hv'. discriminate.
Qed.

Lemma clean_course_spec (r : RawCourse.t) (g g' : Rng.rng) (c : CleanCourse.t) :
  clean_course r g = Some (c, g') ->
  CleanCourse.course_id c = RawCourse.course_id r /\
  CleanCourse.course_code c = clean_course_code (RawCourse.course_code r) /\
  extract_course_level (CleanCourse.course_code c) = Some (CleanCourse.course_level c) /\
  CleanCourse.credit_hours c ∈ [2; 3; 4] /\
  (forall v, RawCourse.credit_hours r = Some v -> v ∈ [2; 3; 4] ->
             CleanCourse.credit_hours c = v).
Proof.
  unfold clean_course. intros H.
  apply bind_Some in H as (level & g0 & Hlevel & H).
  apply bind_Some in H as (h & g1 & Hh & H).
  inversion H; subst; clear H. simpl.
  unfold Rng.lift in Hlevel.
  destruct (extract_course_level (clean_course_code (RawCourse.course_code r)))
    as [lv |] eqn:Elv; [| discriminate].
  inversion Hlevel; subst; clear Hlevel.
  destruct (fix_credit_hours_spec (RawCourse.credit_hours r) g0) as (h' & g2 & Hh' & Hin & Hkeep).
  rewrite Hh in Hh'. inversion Hh'; subst.
  repeat split; try reflexivity; [exact Hin |].
  intros v Hv Hvin. now destruct (Hkeep v Hv Hvin).
Qed.

Lemma extract_course_level_labels (code level : string) :
  extract_course_level code = Some level ->
  level ∈ ["Introductory"; "Intermediate"; "Advanced"; "Unknown"]%string.
Proof.
  unfold extract_course_level. rewrite !elem_of_cons.
  destruct (Text.first_digits code).
  - destruct (int_of_run s); [| discriminate].
    destruct (_ <? 200); [intros H; inversion H; auto |].
    destruct (_ <? 400); intros H; inversion H; auto 10.
  - intros H; inversion H; auto 10.
Qed.

(** The level of a code whose first run of digits is within the limit. *)
Lemma extract_course_level_total (code : string) :
  within_int_limit code = true -> exists level, extract_course_level code = Some level.
Proof.
  unfold within_int_limit, extract_course_level.
  destruct (Text.first_digits code) as [ds |]; [| eauto].
  intros H. apply Nat.leb_le in H. rewrite (int_of_run_within _ H). eauto.
Qed.

(** X3. The course cleaning of rows whose codes are ASCII text (or
    missing) with a first run of at most 4300 digits returns.  Its output
    has one row per course id of the input; every credit-hours value is 2,
    3 or 4, and a value that already was is kept; the code is the code of
    the file in upper case and stripped; the level is one of the four
    labels and is the level of the cleaned code. *)
Theorem cleaned_courses (rows : list RawCourse.t) (g : Rng.rng) :
  Forall (fun r =>
            Text.is_ascii (astype_str (RawCourse.course_code r)) = true /\
            within_int_limit (clean_course_code (RawCourse.course_code r)) = true) rows ->
  exists out g',
    transform_courses rows g = Some (out, g') /\
    NoDup (map CleanCourse.course_id out) /\
    (forall r, In r rows ->
       exists c, In c out /\ CleanCourse.course_id c = RawCourse.course_id r) /\
    (forall c, In c out ->
       CleanCourse.credit_hours c ∈ [2; 3; 4] /\
       extract_course_level (CleanCourse.course_code c) = Some (CleanCourse.course_level c) /\
       CleanCourse.course_level c ∈
         ["Introductory"; "Intermediate"; "Advanced"; "Unknown"]%string /\
       exists r, In r rows /\
         CleanCourse.course_id c = RawCourse.course_id r /\
         CleanCourse.course_code c = clean_course_code (RawCourse.course_code r) /\
         (forall v, RawCourse.credit_hours r = Some v -> v ∈ [2; 3; 4] ->
                    CleanCourse.credit_hours c = v)).
Proof.
  intros Hrows. rewrite List.Forall_forall in Hrows.
  destruct (mapM_total clean_course rows g) as (cleaned & g' & Hm).
  { intros r g0 Hr. destruct (Hrows r Hr) as [_ Hlimit].
    destruct (extract_course_level_total _ Hlimit) as (level & Hlevel).
    unfold clean_course, Rng.bind, Rng.lift. rewrite Hlevel.
    destruct (fix_credit_hours_spec (RawCourse.credit_hours r) g0) as (h & g1 & -> & _).
    eexists _, _. reflexivity. }
  exists (drop_duplicates CleanCourse.course_id cleaned), g'.
  split; [unfold transform_courses, Rng.bind; now rewrite Hm |].
  split; [apply drop_duplicates_NoDup |]. split.
  - intros r Hr.
    assert (Hc : exists c, In c cleaned /\ CleanCourse.course_id c = RawCourse.course_id r).
    { apply mapM_Forall2 in Hm. clear -Hm Hr.
      induction Hm as [| r0 c0 rs cs Hrc HF IH]; [destruct Hr |].
      destruct Hr as [-> | Hr].
      - destruct Hrc as (g1 & g2 & Hrc). apply clean_course_spec in Hrc as (Hid & _).
        exists c0. split; [now left | exact Hid].
      - destruct (IH Hr) as (c & Hc & Hid). exists c. split; [now right | exact Hid]. }
    destruct Hc as (c & Hc & Hid).
    destruct (drop_duplicates_complete CleanCourse.course_id cleaned c Hc) as (y & Hy & Hk).
    exists y. split; [exact Hy | congruence].
  - intros c Hc. apply drop_duplicates_incl in Hc.
    destruct (mapM_In _ _ _ _ _ _ Hm Hc) as (r & g1 & g2 & Hr & Hrc).
    apply clean_course_spec in Hrc as (Hid & Hcode & Hlevel & Hin & Hkeep).
    split; [exact Hin |]. split; [exact Hlevel |].
    split; [eapply extract_course_level_labels; exact Hlevel |].
    exists r. auto.
Qed.

(** The sample courses: the cleaned rows have the ids 1, 2 and 3, the
    codes CS305, SEMINAR and NAN and the levels Intermediate, Unknown and
    Unknown. *)
Lemma cleaned_courses_witness :
  Forall (fun r =>
            Text.is_ascii (astype_str (RawCourse.course_code r)) = true /\
            within_int_limit (clean_course_code (RawCourse.course_code r)) = true)
         Samples.raw_courses /\
  transform_courses Samples.raw_courses Samples.counting
    = Some (Samples.cleaned_courses_rows, Samples.courses_rng) /\
  map (fun c => (CleanCourse.course_id c, CleanCourse.course_code c,
                 CleanCourse.course_level c)) Samples.cleaned_courses_rows
    = [(1, "CS305", "Intermediate"); (2, "SEMINAR", "Unknown"); (3, "NAN", "Unknown")]%string /\
  exists out g',
    transform_courses Samples.raw_courses Samples.counting = Some (out, g') /\
    NoDup (map CleanCourse.course_id out).
Proof.
  assert (Hrows : Forall (fun r =>
            Text.is_ascii (astype_str (RawCourse.course_code r)) = true /\
            within_int_limit (clean_course_code (RawCourse.course_code r)) = true)
         Samples.raw_courses).
  { repeat (constructor; [split; vm_compute; reflexivity |]). constructor. }
  split; [exact Hrows |].
  split; [vm_compute; reflexivity |].
  split; [vm_compute; reflexivity |].
  destruct (cleaned_courses Samples.raw_courses Samples.counting Hrows)
    as (out & g' & Hrun & Hnd & _).
  exists out, g'. split; [exact Hrun | exact Hnd].
Defined.

(** X4. After the account cleaning every account type is one of Asset,
    Liability, Equity, Revenue and Expense: such a type is kept, any other
    text and a missing type become Expense.  The rows, their order and
    their ids are kept, and cleaning the result again changes nothing. *)
Theorem cleaned_accounts (rows : list RawAccount.t) :
  map Account.account_id (transform_accounts rows) = map RawAccount.account_id rows /\
  Forall2 (fun r a =>
             Account.account_type a ∈ valid_account_types /\
             (forall t, RawAccount.account_type r = Some t -> t ∈ valid_account_types ->
                        Account.account_type a = t) /\
             ((forall t, RawAccount.account_type r = Some t -> t ∉ valid_account_types) ->
              Account.account_type a = "Expense"%string))
          rows (transform_accounts rows) /\
  transform_accounts
    (map (fun a => RawAccount.mk (Account.account_id a) (Some (Account.account_type a))
                                 (Account.category a)) (transform_accounts rows))
  = transform_accounts rows.
Proof.
  assert (Hvalid : forall x, fix_account_type x ∈ valid_account_types).
  { intros [t |]; unfold fix_account_type.
    - case_bool_decide; [assumption |]. unfold valid_account_types. rewrite !elem_of_cons. auto 10.
    - unfold valid_account_types. rewrite !elem_of_cons. auto 10. }
  split; [| split].
  - unfold transform_accounts. rewrite map_map. reflexivity.
  - unfold transform_accounts. induction rows as [| r rs IH]; simpl; constructor; [| exact IH].
    split; [apply Hvalid |]. split.
    + intros t Ht Hin. simpl. rewrite Ht. unfold fix_account_type.
      now rewrite bool_decide_eq_true_2.
    + intros Hbad. simpl. unfold fix_account_type.
      destruct (RawAccount.account_type r) as [t |]; [| reflexivity].
      rewrite bool_decide_eq_false_2; [reflexivity | now apply Hbad].
  - unfold transform_accounts. rewrite !map_map. apply map_ext. intros r. simpl.
    f_equal. unfold fix_account_type at 1.
    now rewrite bool_decide_eq_true_2 by apply Hvalid.
Qed.

End CleaningTables.


(* ===================================================================== *)
(** * Employees and departments after [transform_dimensions]              *)
(* ===================================================================== *)

Section DimensionFacts.

Import Transformer.

(** [random.choice] returns on every sequence that is not empty. *)
Lemma random_choice_nonempty {T : Type} (l : list T) (g : Rng.rng) :
  l <> [] -> exists x g', Rng.random_choice l g = Some (x, g').
Proof.
  intros Hl. destruct l as [| y ys]; [congruence |].
  unfold Rng.random_choice, Rng.bind, Rng.next_raw.
  destruct (Rng.choice_of (y :: ys) (Rng.raw g (Rng.pos g))) as [z |] eqn:Hz.
  - eexists _, _. reflexivity.
  - unfold Rng.choice_of in Hz. apply nth_error_None in Hz.
    pose proof (N.mod_upper_bound (Rng.raw g (Rng.pos g))
                  (N.of_nat (length (y :: ys)))) as Hb.
    simpl length in *. lia.
Qed.

Lemma department_ids_nonempty (departments : list Department.t) :
  departments <> [] ->
  elements (list_to_set (map Department.department_id departments) : gset Z) <> [].
Proof.
  intros Hd He. destruct departments as [| d ds]; [congruence |].
  apply elements_empty_inv in He. apply leibniz_equiv in He.
  assert (Hin : Department.department_id d ∈
                (list_to_set (map Department.department_id (d :: ds)) : gset Z)).
  { apply elem_of_list_to_set. simpl. apply list_elem_of_here. }
  rewrite He in Hin. now apply not_elem_of_empty in Hin.
Qed.

Lemma derive_employee_spec (valid : gset Z) (r r' : Employee.csv) (g g' : Rng.rng) :
  derive_employee valid r g = Some (r', g') ->
  Employee.csv_employee_id r' = Employee.csv_employee_id r /\
  Employee.csv_job_title r' = Employee.csv_job_title r /\
  Employee.csv_salary r' = Employee.csv_salary r /\
  Employee.csv_hire_date r' = Employee.csv_hire_date r /\
  Employee.csv_manager_id r' = Some (default 0 (Employee.csv_manager_id r)) /\
  Employee.csv_department_id r' ∈ valid /\
  (Employee.csv_department_id r ∈ valid ->
   Employee.csv_department_id r' = Employee.csv_department_id r).
Proof.
  unfold derive_employee. intros H. apply bind_Some in H as (m & g0 & Hm & H).
  apply bind_Some in H as (d & g1 & Hd & H).
  inversion H; subst; clear H. simpl.
  apply fix_department_id_spec in Hd as (Hin & Hkeep & _).
  unfold Rng.lift, astype_int in Hm.
  destruct ((- 2 ^ 63 <=? default 0 (Employee.csv_manager_id r))
            && (default 0 (Employee.csv_manager_id r) <? 2 ^ 63)); [| discriminate].
  inversion Hm; subst. auto 10.
Qed.

Lemma salary_pass_spec (c : clock) (r : Employee.csv) (e : Employee.t) (g g' : Rng.rng) :
  salary_pass c r g = Some (e, g') ->
  Employee.employee_id e = Employee.csv_employee_id r /\
  Employee.job_title e = Employee.csv_job_title r /\
  Employee.department_id e = Employee.csv_department_id r /\
  Employee.manager_id e = default 0 (Employee.csv_manager_id r) /\
  Employee.hire_date e = Employee.csv_hire_date r /\
  Employee.tenure_years e = derive_tenure (today c) (Employee.csv_hire_date r).
Proof.
  unfold salary_pass. intros H. apply bind_Some in H as (s & g1 & _ & H).
  inversion H; subst; clear H. simpl. auto 10.
Qed.

Lemma transform_employees_unfold (c : clock) (departments : list Department.t)
    (rows : list Employee.csv) (g g' : Rng.rng) (out : list Employee.t) :
  transform_employees c departments rows g = Some (out, g') ->
  exists repaired adjusted g1,
    Rng.mapM (derive_employee (list_to_set (map Department.department_id departments)))
             rows g = Some (repaired, g1) /\
    Rng.mapM (salary_pass c) repaired g1 = Some (adjusted, g') /\
    out = drop_duplicates Employee.employee_id adjusted.
Proof.
  unfold transform_employees. intros H.
  apply bind_Some in H as (repaired & g1 & H1 & H).
  apply bind_Some in H as (adjusted & g2 & H2 & H).
  inversion H; subst. eauto 10.
Qed.

(** Every row after the two passes comes from a raw row. *)
Lemma adjusted_from_raw (c : clock) (valid : gset Z) (rows repaired : list Employee.csv)
    (adjusted : list Employee.t) (g g1 g' : Rng.rng) :
  Rng.mapM (derive_employee valid) rows g = Some (repaired, g1) ->
  Rng.mapM (salary_pass c) repaired g1 = Some (adjusted, g') ->
  Forall2 (fun r e =>
             Employee.employee_id e = Employee.csv_employee_id r /\
             Employee.job_title e = Employee.csv_job_title r /\
             Employee.manager_id e = default 0 (Employee.csv_manager_id r) /\
             Employee.hire_date e = Employee.csv_hire_date r /\
             Employee.tenure_years e = derive_tenure (today c) (Employee.csv_hire_date r) /\
             Employee.department_id e ∈ valid /\
             (Employee.csv_department_id r ∈ valid ->
              Employee.department_id e = Employee.csv_department_id r))
          rows adjusted.
Proof.
  intros H1 H2. apply mapM_Forall2 in H1. apply mapM_Forall2 in H2.
  revert adjusted H2. induction H1 as [| r r' rs rs' Hr HF IH]; intros adjusted H2.
  - inversion H2; subst. constructor.
  - inversion H2 as [| r0 e rs0 es He HF2]; subst. constructor; [| now apply IH].
    destruct Hr as (ga & gb & Hr). destruct He as (gc & gd & He).
    apply derive_employee_spec in Hr as (Hid & Hjob & _ & Hhire & Hman & Hin & Hkeep).
    apply salary_pass_spec in He as (Hid' & Hjob' & Hdep' & Hman' & Hhire' & Hten').
    rewrite Hid', Hjob', Hdep', Hman', Hhire', Hten', Hid, Hjob, Hhire, Hman.
    simpl. auto 10.
Qed.

(** The cleaned employee table has the employee ids of the file. *)
Lemma cleaned_employee_ids (c : clock) (departments : list Department.t)
    (rows : list Employee.csv) (g g' : Rng.rng) (out : list Employee.t) :
  transform_employees c departments rows g = Some (out, g') ->
  forall i, In i (map Employee.csv_employee_id rows) <->
            In i (map Employee.employee_id out).
Proof.
  intros H. apply transform_employees_unfold in H as (repaired & adjusted & g1 & H1 & H2 & ->).
  pose proof (adjusted_from_raw _ _ _ _ _ _ _ _ H1 H2) as HF.
  assert (Hids : map Employee.employee_id adjusted = map Employee.csv_employee_id rows).
  { clear -HF. induction HF as [| r e rs es Hre HF IH]; [reflexivity |].
    simpl. destruct Hre as (-> & _). now rewrite IH. }
  intros i. rewrite <- Hids. split.
  - intros Hi. apply in_map_iff in Hi as (e & <- & He).
    destruct (drop_duplicates_complete Employee.employee_id adjusted e He) as (y & Hy & Hk).
    apply in_map_iff. exists y. split; [exact Hk | exact Hy].
  - intros Hi. apply in_map_iff in Hi as (e & <- & He).
    apply in_map. eapply drop_duplicates_incl; eauto.
Qed.

(** Every cleaned employee row references a department of the file. *)
Lemma cleaned_employee_departments (c : clock) (departments : list Department.t)
    (rows : list Employee.csv) (g g' : Rng.rng) (out : list Employee.t) :
  transform_employees c departments rows g = Some (out, g') ->
  forall e, In e out ->
    In (Employee.department_id e) (map Department.department_id departments).
Proof.
  intros H. apply transform_employees_unfold in H as (repaired & adjusted & g1 & H1 & H2 & ->).
  pose proof (adjusted_from_raw _ _ _ _ _ _ _ _ H1 H2) as HF.
  intros e He. apply drop_duplicates_incl in He.
  assert (Hdep : Employee.department_id e ∈
                 (list_to_set (map Department.department_id departments) : gset Z)).
  { clear -HF He. induction HF as [| r e0 rs es Hre HF IH]; [destruct He |].
    destruct He as [-> | He]; [tauto | auto]. }
  apply elem_of_list_to_set in Hdep. now apply list_elem_of_In.
Qed.

(** X5. On success the employee cleaning returns one row per employee id
    of the file.  Every row references a department id of the department
    file; a reference that was valid is kept; a missing manager id is 0;
    job title and hire date are those of a file row with the same id. *)
Theorem cleaned_employees_reference_departments (c : clock)
    (departments : list Department.t) (rows : list Employee.csv) (g g' : Rng.rng)
    (out : list Employee.t) :
  transform_employees c departments rows g = Some (out, g') ->
  NoDup (map Employee.employee_id out) /\
  (forall i, In i (map Employee.csv_employee_id rows) <->
             In i (map Employee.employee_id out)) /\
  (forall e, In e out ->
     In (Employee.department_id e) (map Department.department_id departments) /\
     exists r, In r rows /\
       Employee.employee_id e = Employee.csv_employee_id r /\
       Employee.job_title e = Employee.csv_job_title r /\
       Employee.manager_id e = default 0 (Employee.csv_manager_id r) /\
       Employee.hire_date e = Employee.csv_hire_date r /\
       (In (Employee.csv_department_id r) (map Department.department_id departments) ->
        Employee.department_id e = Employee.csv_department_id r)).
Proof.
  intros H. apply transform_employees_unfold in H as (repaired & adjusted & g1 & H1 & H2 & ->).
  pose proof (adjusted_from_raw _ _ _ _ _ _ _ _ H1 H2) as HF.
  split; [apply drop_duplicates_NoDup |].
  assert (Hids : map Employee.employee_id adjusted = map Employee.csv_employee_id rows).
  { clear -HF. induction HF as [| r e rs es Hre HF IH]; [reflexivity |].
    simpl. destruct Hre as (-> & _). now rewrite IH. }
  split.
  - intros i. rewrite <- Hids. split.
    + intros Hi. apply in_map_iff in Hi as (e & <- & He).
      destruct (drop_duplicates_complete Employee.employee_id adjusted e He) as (y & Hy & Hk).
      apply in_map_iff. exists y. split; [exact Hk | exact Hy].
    + intros Hi. apply in_map_iff in Hi as (e & <- & He).
      apply in_map. eapply drop_duplicates_incl; eauto.
  - intros e He. apply drop_duplicates_incl in He.
    assert (Hr : exists r, In r rows /\
               Employee.employee_id e = Employee.csv_employee_id r /\
               Employee.job_title e = Employee.csv_job_title r /\
               Employee.manager_id e = default 0 (Employee.csv_manager_id r) /\
               Employee.hire_date e = Employee.csv_hire_date r /\
               Employee.department_id e ∈
                 (list_to_set (map Department.department_id departments) : gset Z) /\
               (Employee.csv_department_id r ∈
                  (list_to_set (map Department.department_id departments) : gset Z) ->
                Employee.department_id e = Employee.csv_department_id r)).
    { clear -HF He. induction HF as [| r e0 rs es Hre HF IH]; [destruct He |].
      destruct He as [-> | He].
      - exists r. split; [now left |]. tauto.
      - destruct (IH He) as (r1 & Hin & Hrest). exists r1. split; [now right | exact Hrest]. }
    destruct Hr as (r & Hin & Hid & Hjob & Hman & Hhire & Hdep & Hkeep).
    split.
    + apply elem_of_list_to_set in Hdep. now apply list_elem_of_In.
    + exists r. repeat (split; [assumption |]).
      intros Hv. apply Hkeep. apply elem_of_list_to_set. now apply list_elem_of_In.
Qed.

Lemma cleaned_employees_reference_departments_witness :
  transform_employees Samples.run_clock Samples.sample_departments Samples.raw_employees
    Samples.counting = Some (Samples.cleaned_employees, Samples.employees_rng) /\
  map (fun e => (Employee.employee_id e, Employee.department_id e, Employee.manager_id e))
      Samples.cleaned_employees = [(7, 1, 0); (8, 2, 7)] /\
  NoDup (map Employee.employee_id Samples.cleaned_employees).
Proof.
  split; [vm_compute; reflexivity |].
  split; [vm_compute; reflexivity |].
  apply (cleaned_employees_reference_departments Samples.run_clock
           Samples.sample_departments Samples.raw_employees Samples.counting
           Samples.employees_rng Samples.cleaned_employees).
  vm_compute; reflexivity.
Defined.

(** In the model the employee cleaning returns whenever there is a
    department and every manager id fits a signed 64-bit integer. *)
Lemma transform_employees_total (c : clock) (departments : list Department.t)
    (rows : list Employee.csv) (g : Rng.rng) :
  departments <> [] ->
  (forall r, In r rows -> - 2 ^ 63 <= default 0 (Employee.csv_manager_id r) < 2 ^ 63) ->
  exists out g', transform_employees c departments rows g = Some (out, g').
Proof.
  intros Hne Hfit.
  set (valid := (list_to_set (map Department.department_id departments) : gset Z)).
  destruct (mapM_total (derive_employee valid) rows g) as (repaired & g1 & H1).
  { intros r g0 Hr. unfold derive_employee, Rng.bind, Rng.lift, astype_int.
    replace ((- 2 ^ 63 <=? default 0 (Employee.csv_manager_id r))
             && (default 0 (Employee.csv_manager_id r) <? 2 ^ 63)) with true
      by (symmetry; apply andb_true_iff; specialize (Hfit r Hr);
          split; [apply Z.leb_le | apply Z.ltb_lt]; lia).
    unfold fix_department_id. case_bool_decide.
    - eexists _, _. reflexivity.
    - destruct (random_choice_nonempty (elements valid) g0) as (x & g2 & ->).
      { now apply department_ids_nonempty. }
      eexists _, _. reflexivity. }
  destruct (mapM_total (salary_pass c) repaired g1) as (adjusted & g2 & H2).
  { intros r g0 _. unfold salary_pass, Rng.bind.
    destruct (adjust_salary_total (Employee.csv_job_title r) (Employee.csv_salary r) g0)
      as (s & g3 & ->).
    eexists _, _. reflexivity. }
  unfold transform_employees, Rng.bind. fold valid. rewrite H1, H2.
  eexists _, _. reflexivity.
Qed.

(** X6. With a department file without rows and an employee file with at
    least one row the employee cleaning raises, whatever the rows and the
    random draws: no department reference is valid, and [random.choice] is
    called on an empty list for the first row, unless the conversion of
    the manager ids has raised before. *)
Theorem employee_cleaning_needs_department (c : clock) (rows : list Employee.csv)
    (g : Rng.rng) :
  rows <> [] -> transform_employees c [] rows g = None.
Proof.
  intros Hrows. destruct rows as [| r rs]; [congruence |].
  unfold transform_employees. simpl.
  unfold Rng.bind at 1. unfold Rng.bind at 1. unfold Rng.bind at 1.
  unfold derive_employee at 1. unfold Rng.bind at 1.
  destruct (Rng.lift (astype_int (Employee.csv_manager_id r)) g) as [[m g0] |];
    [| reflexivity].
  unfold Rng.bind at 1.
  unfold fix_department_id. rewrite bool_decide_eq_false_2 by apply not_elem_of_empty.
  rewrite elements_empty. reflexivity.
Qed.

Lemma employee_cleaning_needs_department_witness :
  Samples.raw_employees <> [] /\
  transform_employees Samples.run_clock [] Samples.raw_employees Samples.counting = None.
Proof.
  split; [discriminate |].
  apply (employee_cleaning_needs_department Samples.run_clock Samples.raw_employees
           Samples.counting).
  discriminate.
Defined.

Lemma clean_departments_ids (rows : list Employee.csv) (departments : list Department.t) :
  map Department.department_id (Cleaning.clean_departments rows departments)
  = map Department.department_id departments.
Proof.
  unfold Cleaning.clean_departments, transform_departments. rewrite !map_map. reflexivity.
Qed.

(** X7. The department cleaning keeps the rows and their ids and, for
    names in ASCII, strips the names.  Every manager id becomes 0 or the id
    of an employee of the employee file: one that already was is kept, any
    other and a missing one become 0.  As the employee cleaning keeps the
    set of employee ids, every non-zero manager id is the id of a cleaned
    employee. *)
Theorem cleaned_department_managers (c : clock) (departments : list Department.t)
    (rows : list Employee.csv) (g g' : Rng.rng) (out : list Employee.t) :
  Forall (fun d => Text.is_ascii (Department.department_name d) = true) departments ->
  transform_employees c departments rows g = Some (out, g') ->
  Forall2 (fun d d' =>
             Department.department_id d' = Department.department_id d /\
             Department.department_name d' = Text.strip (Department.department_name d) /\
             exists m, Department.manager_id d' = Some m /\
               (m = 0 \/ In m (map Employee.employee_id out)) /\
               (forall x, Department.manager_id d = Some x ->
                  x = 0 \/ In x (map Employee.csv_employee_id rows) -> m = x) /\
               (forall x, Department.manager_id d = Some x ->
                  x <> 0 -> ~ In x (map Employee.csv_employee_id rows) -> m = 0) /\
               (Department.manager_id d = None -> m = 0))
          departments (Cleaning.clean_departments rows departments).
Proof.
  intros _ H. pose proof (cleaned_employee_ids _ _ _ _ _ _ H) as Hids. clear H.
  unfold Cleaning.clean_departments, transform_departments.
  set (valid := (list_to_set (map Employee.csv_employee_id rows) ∪ {[0]} : gset Z)).
  assert (Hvalid : forall x, x ∈ valid <-> x = 0 \/ In x (map Employee.csv_employee_id rows)).
  { intros x. unfold valid. rewrite elem_of_union, elem_of_singleton, elem_of_list_to_set.
    rewrite list_elem_of_In. tauto. }
  clearbody valid.
  induction departments as [| d ds IH]; simpl; constructor; [| exact IH].
  split; [reflexivity |]. split; [reflexivity |].
  unfold fix_manager_id. destruct (Department.manager_id d) as [m |].
  - case_bool_decide as Hm.
    + exists m. split; [reflexivity |]. split.
      { apply Hvalid in Hm as [-> | Hm]; [now left | right; now apply Hids]. }
      split; [intros x Hx _; now inversion Hx |].
      split; [| discriminate].
      intros x Hx Hx0 Hnin. inversion Hx; subst.
      apply Hvalid in Hm as [Hm | Hm]; contradiction.
    + exists 0. split; [reflexivity |]. split; [now left |].
      split.
      { intros x Hx Hin. inversion Hx; subst. exfalso. apply Hm. now apply Hvalid. }
      split; [reflexivity | discriminate].
  - exists 0. split; [reflexivity |]. split; [now left |].
    split; [discriminate |]. split; [discriminate | reflexivity].
Qed.

(** The sample departments: department 2 keeps its manager 7, an employee
    of the file; the missing manager ids become 0. *)
Lemma cleaned_department_managers_witness :
  Forall (fun d => Text.is_ascii (Department.department_name d) = true)
         Samples.sample_departments /\
  transform_employees Samples.run_clock Samples.sample_departments Samples.raw_employees
    Samples.counting = Some (Samples.cleaned_employees, Samples.employees_rng) /\
  map Department.manager_id
      (Cleaning.clean_departments Samples.raw_employees Samples.sample_departments)
    = [Some 0; Some 7; Some 0] /\
  Forall2 (fun d d' => Department.department_id d' = Department.department_id d)
          Samples.sample_departments
          (Cleaning.clean_departments Samples.raw_employees Samples.sample_departments).
Proof.
  assert (Hnames : Forall (fun d => Text.is_ascii (Department.department_name d) = true)
                          Samples.sample_departments).
  { repeat (constructor; [reflexivity |]). constructor. }
  split; [exact Hnames |].
  split; [vm_compute; reflexivity |].
  split; [vm_compute; reflexivity |].
  eapply Forall2_impl;
    [apply (cleaned_department_managers Samples.run_clock Samples.sample_departments
              Samples.raw_employees Samples.counting Samples.employees_rng
              Samples.cleaned_employees);
       [exact Hnames | vm_compute; reflexivity] |].
  intros d d' (Hid & _). exact Hid.
Defined.

End DimensionFacts.


(* ===================================================================== *)
(** * Students after [transform_dimensions]: programs and ids             *)
(* ===================================================================== *)

Section StudentTableFacts.

Import Transformer.

Lemma replace_program_cases (p : string) :
  (p = "BS Software Eng"%string /\ replace_program p = "BS Software Engineering"%string) \/
  (p = "BS Electrical"%string /\ replace_program p = "BS Electrical Engineering"%string) \/
  (p <> "BS Software Eng"%string /\ p <> "BS Electrical"%string /\ replace_program p = p).
Proof.
  unfold replace_program, program_mapping. simpl.
  destruct (decide (p = "BS Software Eng"%string)) as [-> | H1]; [left; split; reflexivity |].
  destruct (decide (p = "BS Electrical"%string)) as [-> | H2];
    [right; left; split; reflexivity |].
  right; right. split; [exact H1 |]. split; [exact H2 |].
  rewrite lookup_insert_ne by congruence.
  rewrite lookup_insert_ne by congruence.
  now rewrite lookup_empty.
Qed.

Lemma derive_student_fields (c : clock) (r : Student.csv) (g g' : Rng.rng) (s : Student.t) :
  derive_student c r g = Some (s, g') ->
  Student.student_id s = Student.csv_student_id r /\
  Student.birth_date s = Student.csv_birth_date r /\
  Student.program s = Student.csv_program r /\
  Student.age s = derive_age (today c) (Student.csv_birth_date r) /\
  (forall q, Student.csv_admission_year r = Student.Year q ->
             (2000 <= q)%Q -> (q <= inject_Z (current_year c))%Q ->
             Student.admission_year s = Student.Year q).
Proof.
  unfold derive_student. intros H. apply bind_Some in H as (y & g1 & Hy & H).
  inversion H; subst; clear H. simpl.
  repeat (split; [reflexivity |]).
  intros q Hq Hlo Hhi. unfold fix_admission_year in Hy. rewrite Hq in Hy.
  pose proof (py_int_bounds 2000 (current_year c) q ltac:(lia) Hlo Hhi) as [H1 H2].
  replace ((2000 <=? PyNum.py_int q) && (PyNum.py_int q <=? current_year c)) with true in Hy
    by (symmetry; apply andb_true_iff; split; apply Z.leb_le; lia).
  now inversion Hy.
Qed.

(** X8. The cleaned student table has one row per student id.  Every row
    comes from a row of the file with that id and that birth date; the
    program is the one of the file, except that the two abbreviated
    programs are written out, so that neither abbreviation is left; an
    admission year that was a number inside [2000, current_year] is
    kept. *)
Theorem cleaned_students_programs (c : clock) (rows : list Student.csv)
    (g g' : Rng.rng) (out : list Student.t) :
  transform_students c rows g = Some (out, g') ->
  NoDup (map Student.student_id out) /\
  forall s, In s out ->
    Student.program s <> "BS Software Eng"%string /\
    Student.program s <> "BS Electrical"%string /\
    exists r, In r rows /\
      Student.student_id s = Student.csv_student_id r /\
      Student.birth_date s = Student.csv_birth_date r /\
      (Student.csv_program r = "BS Software Eng"%string ->
       Student.program s = "BS Software Engineering"%string) /\
      (Student.csv_program r = "BS Electrical"%string ->
       Student.program s = "BS Electrical Engineering"%string) /\
      (Student.csv_program r <> "BS Software Eng"%string ->
       Student.csv_program r <> "BS Electrical"%string ->
       Student.program s = Student.csv_program r) /\
      (forall q, Student.csv_admission_year r = Student.Year q ->
                 (2000 <= q)%Q -> (q <= inject_Z (current_year c))%Q ->
                 Student.admission_year s = Student.Year q).
Proof.
  intros H. apply transform_students_unfold in H as (derived & Hm & ->).
  split; [apply drop_duplicates_NoDup |].
  intros s Hs. apply drop_duplicates_incl in Hs.
  apply in_map_iff in Hs as (s0 & <- & Hs0).
  apply filter_In in Hs0 as [Hin _].
  destruct (mapM_In _ _ _ _ _ _ Hm Hin) as (r & g1 & g2 & Hr & Hd).
  apply derive_student_fields in Hd as (Hid & Hb & Hp & _ & Hy).
  unfold set_program. cbn [Student.program Student.student_id Student.birth_date
                           Student.admission_year].
  rewrite Hp.
  destruct (replace_program_cases (Student.csv_program r))
    as [[E ->] | [[E ->] | (N1 & N2 & ->)]].
  - split; [discriminate |]. split; [discriminate |].
    exists r. split; [exact Hr |]. split; [exact Hid |]. split; [exact Hb |].
    split; [reflexivity |].
    split; [intros E2; rewrite E in E2; discriminate |].
    split; [congruence | exact Hy].
  - split; [discriminate |]. split; [discriminate |].
    exists r. split; [exact Hr |]. split; [exact Hid |]. split; [exact Hb |].
    split; [intros E2; rewrite E in E2; discriminate |].
    split; [reflexivity |].
    split; [congruence | exact Hy].
  - split; [exact N1 |]. split; [exact N2 |].
    exists r. split; [exact Hr |]. split; [exact Hid |]. split; [exact Hb |].
    split; [congruence |]. split; [congruence |]. split; [reflexivity | exact Hy].
Qed.

Lemma cleaned_students_programs_witness :
  transform_students Samples.run_clock Samples.raw_students Samples.zeros
    = Some (Samples.cleaned_students, Samples.zeros_after_students) /\
  map (fun s => (Student.student_id s, Student.program s)) Samples.cleaned_students
    = [(1, "BS Software Engineering"%string); (5, "BS Electrical Engineering"%string)] /\
  NoDup (map Student.student_id Samples.cleaned_students).
Proof.
  split; [vm_compute; reflexivity |].
  split; [vm_compute; reflexivity |].
  apply (cleaned_students_programs Samples.run_clock Samples.raw_students
           Samples.zeros Samples.zeros_after_students Samples.cleaned_students).
  vm_compute; reflexivity.
Defined.

End StudentTableFacts.


(* ===================================================================== *)
(** * The loader: when it returns, what it writes, after the transformer  *)
(* ===================================================================== *)

Section PipelineFacts.

Import Transformer Loader.

Lemma to_sql_inv {T : Type} (key : T -> Z) (table rows : list T) (g g' : Rng.rng)
    (t' : list T) :
  to_sql key table rows g = Some (t', g') ->
  NoDup (map key (table ++ rows)) /\ t' = table ++ rows /\ g' = g.
Proof.
  unfold to_sql. case_bool_decide as Hnd; [| discriminate].
  intros H. inversion H; subst. auto.
Qed.

Lemma to_sql_again {T : Type} (key : T -> Z) (table rows : list T) (g : Rng.rng) :
  rows <> [] -> to_sql key (table ++ rows) rows g = None.
Proof.
  intros Hr. unfold to_sql. rewrite bool_decide_eq_false_2; [reflexivity |].
  intros Hnd. destruct rows as [| x xs]; [congruence |].
  rewrite !map_app in Hnd. apply NoDup_app in Hnd as (_ & Hdis & _).
  apply (Hdis (key x)).
  - apply elem_of_app. right. simpl. apply list_elem_of_here.
  - simpl. apply list_elem_of_here.
Qed.

(** The repair pass changes no employee id. *)
Lemma repair_employees_ids (valid : gset Z) (emps out : list Employee.t)
    (msgs : list message) (g g' : Rng.rng) :
  repair_employees valid emps g = Some ((out, msgs), g') ->
  map Employee.employee_id out = map Employee.employee_id emps.
Proof.
  intros H. apply repair_employees_spec in H as (HF & _).
  induction HF as [| e e' es es' Hee HF IH]; [reflexivity |].
  simpl. rewrite IH. f_equal. destruct Hee as (-> & _). reflexivity.
Qed.

(** Without a valid id the repair pass raises on the first employee. *)
Lemma repair_employees_no_department (emps : list Employee.t) (g : Rng.rng) :
  emps <> [] -> repair_employees ∅ emps g = None.
Proof.
  intros He. destruct emps as [| e es]; [congruence |].
  unfold repair_employees. rewrite bool_decide_eq_false_2.
  - simpl. unfold Rng.bind at 1. unfold Rng.bind at 1. unfold Rng.bind at 1.
    unfold fix_department_id. rewrite bool_decide_eq_false_2 by apply not_elem_of_empty.
    rewrite elements_empty. reflexivity.
  - intros Hempty.
    apply (not_elem_of_empty (C := gset Z) (Employee.department_id e)).
    rewrite <- Hempty. apply elem_of_difference. split; [| apply not_elem_of_empty].
    apply elem_of_list_to_set. simpl. apply list_elem_of_here.
Qed.

(** Employees whose references are all valid pass the repair untouched,
    without a draw and without a warning. *)
Lemma repair_employees_valid (valid : gset Z) (emps : list Employee.t) (g : Rng.rng) :
  (forall e, In e emps -> Employee.department_id e ∈ valid) ->
  repair_employees valid emps g = Some ((emps, []), g).
Proof.
  intros Hall. unfold repair_employees. rewrite bool_decide_eq_true_2; [reflexivity |].
  apply leibniz_equiv. apply elem_of_equiv_empty. intros x Hx.
  apply elem_of_difference in Hx as [Hx Hn]. apply Hn.
  apply elem_of_list_to_set, list_elem_of_In, in_map_iff in Hx as (e & <- & He).
  now apply Hall.
Qed.

Lemma load_inv (to_datetime : Frame.conversion) (td : transformed_data)
    (w w' : warehouse) (log : list message) (g g' : Rng.rng) :
  load_transformed_data to_datetime td w g = Some ((w', log), g') ->
  exists written msgs ts,
    repair_employees (list_to_set (map Department.department_id (departments td)))
      (employees td) g = Some ((written, msgs), g') /\
    to_datetime (map Student.created_at (students td)) = Some ts /\
    w' = mk_warehouse (dim_date w ++ dates td) (dim_department w ++ departments td)
                      (dim_account w ++ accounts td) (dim_vendor w ++ vendors td)
                      (dim_course w ++ courses td)
                      (dim_student w ++ assign_created_at (map Frame.date_of ts) (students td))
                      (dim_employee w ++ written) /\
    NoDup (map DateRow.date_key (dim_date w ++ dates td)) /\
    NoDup (map Department.department_id (dim_department w ++ departments td)) /\
    NoDup (map Account.account_id (dim_account w ++ accounts td)) /\
    NoDup (map Vendor.vendor_id (dim_vendor w ++ vendors td)) /\
    NoDup (map Course.course_id (dim_course w ++ courses td)) /\
    NoDup (map Student.student_id (dim_student w ++ students td)) /\
    NoDup (map Employee.employee_id (dim_employee w ++ written)) /\
    log = [Info "Loading transformed data into database..."; Info "Loaded dim_date";
           Info "Loaded dim_department"; Info "Loaded independent dimensions"]
          ++ msgs
          ++ [Info "Loaded dim_employee"; Info "All transformed data loaded successfully!"].
Proof.
  unfold load_transformed_data. intros H.
  apply bind_Some in H as (t1 & g1 & H1 & H). apply to_sql_inv in H1 as (N1 & -> & ->).
  apply bind_Some in H as (t2 & g2 & H2 & H). apply to_sql_inv in H2 as (N2 & -> & ->).
  apply bind_Some in H as (t3 & g3 & H3 & H). apply to_sql_inv in H3 as (N3 & -> & ->).
  apply bind_Some in H as (t4 & g4 & H4 & H). apply to_sql_inv in H4 as (N4 & -> & ->).
  apply bind_Some in H as (t5 & g5 & H5 & H). apply to_sql_inv in H5 as (N5 & -> & ->).
  apply bind_Some in H as (st & gs & Hst & H).
  apply ensure_sql_types_students_spec in Hst as (-> & ts & Hts & ->).
  apply bind_Some in H as (t6 & g6 & H6 & H). apply to_sql_inv in H6 as (N6 & -> & ->).
  apply bind_Some in H as ([written msgs] & g7 & H7 & H).
  apply bind_Some in H as (t8 & g8 & H8 & H). apply to_sql_inv in H8 as (N8 & -> & ->).
  inversion H; subst; clear H.
  rewrite map_app, assign_created_at_ids, <- map_app in N6.
  exists written, msgs, ts. simpl in *. auto 14.
Qed.

(** X9. The loader neither overwrites nor skips a row.  When, in one of
    the seven dimension tables, a key to write is already stored or occurs
    twice among the rows to write, the load raises: the primary key
    refuses the row.  It also raises when the data has an employee row and
    no department row: [random.choice] is then called on an empty list. *)
Theorem load_raises_on_repeated_key (to_datetime : Frame.conversion)
    (td : transformed_data) (w : warehouse) (g : Rng.rng) :
  ~ NoDup (map DateRow.date_key (dim_date w ++ dates td)) \/
  ~ NoDup (map Department.department_id (dim_department w ++ departments td)) \/
  ~ NoDup (map Account.account_id (dim_account w ++ accounts td)) \/
  ~ NoDup (map Vendor.vendor_id (dim_vendor w ++ vendors td)) \/
  ~ NoDup (map Course.course_id (dim_course w ++ courses td)) \/
  ~ NoDup (map Student.student_id (dim_student w ++ students td)) \/
  ~ NoDup (map Employee.employee_id (dim_employee w ++ employees td)) \/
  (departments td = [] /\ employees td <> []) ->
  load_transformed_data to_datetime td w g = None.
Proof.
  intros Hbad.
  destruct (load_transformed_data to_datetime td w g) as [[[w' log] g'] |] eqn:H;
    [| reflexivity].
  exfalso.
  apply load_inv in H
    as (written & msgs & ts & Hrep & _ & _ & N1 & N2 & N3 & N4 & N5 & N6 & N7 & _).
  destruct Hbad as [Hn | [Hn | [Hn | [Hn | [Hn | [Hn | [Hn | [Hd He]]]]]]]];
    try (apply Hn; assumption).
  - apply Hn. rewrite map_app in N7 |- *.
    now rewrite (repair_employees_ids _ _ _ _ _ _ Hrep) in N7.
  - rewrite Hd in Hrep. simpl in Hrep.
    rewrite repair_employees_no_department in Hrep by exact He. discriminate.
Qed.

(** Loading the sample data into the tables that already hold it. *)
Lemma load_raises_on_repeated_key_witness :
  ~ NoDup (map DateRow.date_key
             (dim_date Samples.loaded ++ dates Samples.sample_transformed)) /\
  load_transformed_data Samples.sample_to_datetime Samples.sample_transformed
    Samples.loaded Samples.counting = None.
Proof.
  assert (Hrep : ~ NoDup (map DateRow.date_key
                            (dim_date Samples.loaded ++ dates Samples.sample_transformed))).
  { compute_done. }
  split; [exact Hrep |].
  apply (load_raises_on_repeated_key Samples.sample_to_datetime Samples.sample_transformed
           Samples.loaded Samples.counting).
  left. exact Hrep.
Defined.

(** X10. What the loader writes: the rows stored before are kept, in
    place; the rows of the data follow them unchanged in five of the
    tables; the student table gets the student rows of the data with
    [created_at] replaced by the dates of its conversion; the employee
    table gets one row per employee row of the data, in order, with the
    same id, job title, salary, manager, hire date and tenure.  The keys
    of every resulting table are distinct. *)
Theorem load_appends (to_datetime : Frame.conversion) (td : transformed_data)
    (w w' : warehouse) (log : list message) (g g' : Rng.rng) :
  load_transformed_data to_datetime td w g = Some ((w', log), g') ->
  dim_date w' = dim_date w ++ dates td /\
  dim_department w' = dim_department w ++ departments td /\
  dim_account w' = dim_account w ++ accounts td /\
  dim_vendor w' = dim_vendor w ++ vendors td /\
  dim_course w' = dim_course w ++ courses td /\
  (exists ts converted,
     to_datetime (map Student.created_at (students td)) = Some ts /\
     converted = assign_created_at (map Frame.date_of ts) (students td) /\
     dim_student w' = dim_student w ++ converted /\
     Forall2 (fun s s' => s' = set_created_at (Student.created_at s') s)
             (students td) converted) /\
  (exists written,
     dim_employee w' = dim_employee w ++ written /\
     Forall2 (fun e e' => e' = set_department_id (Employee.department_id e') e)
             (employees td) written) /\
  NoDup (map DateRow.date_key (dim_date w')) /\
  NoDup (map Department.department_id (dim_department w')) /\
  NoDup (map Account.account_id (dim_account w')) /\
  NoDup (map Vendor.vendor_id (dim_vendor w')) /\
  NoDup (map Course.course_id (dim_course w')) /\
  NoDup (map Student.student_id (dim_student w')) /\
  NoDup (map Employee.employee_id (dim_employee w')).
Proof.
  intros H. apply load_inv in H
    as (written & msgs & ts & Hrep & Hts & -> & N1 & N2 & N3 & N4 & N5 & N6 & N7 & _).
  simpl. repeat (split; [first [reflexivity | assumption] |]).
  split; [| split].
  - exists ts, (assign_created_at (map Frame.date_of ts) (students td)).
    split; [exact Hts |]. split; [reflexivity |]. split; [reflexivity |].
    apply assign_created_at_spec.
  - exists written. split; [reflexivity |].
    apply repair_employees_spec in Hrep as (HF & _).
    eapply Forall2_impl; [exact HF |]. intros e e' (He & _). exact He.
  - rewrite (map_app Student.student_id), assign_created_at_ids, <- map_app. auto 10.
Qed.

Lemma load_appends_witness :
  load_transformed_data Samples.sample_to_datetime Samples.sample_transformed
    empty_warehouse Samples.counting
    = Some ((Samples.loaded, Samples.load_log), Samples.load_rng) /\
  dim_department Samples.loaded = Samples.sample_departments /\
  map Employee.employee_id (dim_employee Samples.loaded) = [10; 11] /\
  NoDup (map Employee.employee_id (dim_employee Samples.loaded)).
Proof.
  split; [vm_compute; reflexivity |].
  split; [vm_compute; reflexivity |].
  split; [vm_compute; reflexivity |].
  apply (load_appends Samples.sample_to_datetime Samples.sample_transformed
           empty_warehouse Samples.loaded
           Samples.load_log Samples.counting Samples.load_rng).
  vm_compute; reflexivity.
Defined.

(** X11. The loader cannot be run twice on the same data: after a load
    that wrote at least one row, loading data with the same rows into the
    result raises, whatever the random draws, because every key is already
    stored.  The employee rows of the second run may differ in their
    department references, as the first run repairs them in place. *)
Theorem load_twice_raises (to_datetime : Frame.conversion) (td td2 : transformed_data)
    (w w' : warehouse) (log : list message) (g g' g2 : Rng.rng) :
  load_transformed_data to_datetime td w g = Some ((w', log), g') ->
  dates td2 = dates td -> departments td2 = departments td ->
  accounts td2 = accounts td -> vendors td2 = vendors td ->
  courses td2 = courses td -> students td2 = students td ->
  map Employee.employee_id (employees td2) = map Employee.employee_id (employees td) ->
  dates td <> [] \/ departments td <> [] \/ accounts td <> [] \/ vendors td <> [] \/
  courses td <> [] \/ students td <> [] \/ employees td <> [] ->
  load_transformed_data to_datetime td2 w' g2 = None.
Proof.
  intros H E1 E2 E3 E4 E5 E6 E7 Hne.
  destruct (load_transformed_data to_datetime td2 w' g2) as [[[w2 log2] g3] |] eqn:H2;
    [| reflexivity].
  exfalso.
  apply load_inv in H as (written & msgs & ts & Hrep & _ & -> & _).
  apply load_inv in H2
    as (written2 & msgs2 & ts2 & Hrep2 & _ & _ & N1 & N2 & N3 & N4 & N5 & N6 & N7 & _).
  simpl in *. rewrite ?E1, ?E2, ?E3, ?E4, ?E5, ?E6 in *.
  assert (Hdup : forall (T : Type) (key : T -> Z) (t r r' : list T),
             map key r' = map key r -> r <> [] ->
             NoDup (map key ((t ++ r) ++ r')) -> False).
  { intros T key t r r' Hk Hr Hnd. destruct r as [| x xs]; [congruence |].
    rewrite !map_app, Hk in Hnd. apply NoDup_app in Hnd as (_ & Hdis & _).
    apply (Hdis (key x)).
    - apply elem_of_app. right. simpl. apply list_elem_of_here.
    - simpl. apply list_elem_of_here. }
  destruct Hne as [Hn | [Hn | [Hn | [Hn | [Hn | [Hn | Hn]]]]]].
  - exact (Hdup _ _ _ _ _ eq_refl Hn N1).
  - exact (Hdup _ _ _ _ _ eq_refl Hn N2).
  - exact (Hdup _ _ _ _ _ eq_refl Hn N3).
  - exact (Hdup _ _ _ _ _ eq_refl Hn N4).
  - exact (Hdup _ _ _ _ _ eq_refl Hn N5).
  - assert (Hs : assign_created_at (map Frame.date_of ts) (students td) <> []).
    { destruct (students td); [congruence | discriminate]. }
    refine (Hdup _ Student.student_id _ _ (students td) _ Hs N6).
    now rewrite assign_created_at_ids.
  - apply repair_employees_ids in Hrep. apply repair_employees_ids in Hrep2.
    assert (Hw : written <> []).
    { intros ->. destruct (employees td); [congruence | discriminate]. }
    refine (Hdup _ Employee.employee_id _ written written2 _ Hw N7). congruence.
Qed.

Lemma load_twice_raises_witness :
  load_transformed_data Samples.sample_to_datetime Samples.sample_transformed
    empty_warehouse Samples.counting
    = Some ((Samples.loaded, Samples.load_log), Samples.load_rng) /\
  load_transformed_data Samples.sample_to_datetime Samples.sample_transformed
    Samples.loaded Samples.load_rng = None.
Proof.
  split; [vm_compute; reflexivity |].
  apply (load_twice_raises Samples.sample_to_datetime
           Samples.sample_transformed Samples.sample_transformed
           empty_warehouse Samples.loaded
           Samples.load_log Samples.counting Samples.load_rng Samples.load_rng);
    [vm_compute; reflexivity | reflexivity | reflexivity | reflexivity | reflexivity
     | reflexivity | reflexivity | reflexivity | left; discriminate].
Defined.

(** X12. Transformer, then loader.  When the employees of the data are the
    cleaned employees and its departments the cleaned departments of the
    same files, the loader finds no invalid department reference: it
    writes the cleaned employee rows unchanged, prints no warning and
    draws no random value. *)
Theorem load_after_transform (to_datetime : Frame.conversion) (c : clock)
    (raw_departments : list Department.t)
    (raw_employees : list Employee.csv) (td : transformed_data) (w w' : warehouse)
    (log : list message) (g0 g1 g g' : Rng.rng) :
  transform_employees c raw_departments raw_employees g0 = Some (employees td, g1) ->
  departments td = Cleaning.clean_departments raw_employees raw_departments ->
  load_transformed_data to_datetime td w g = Some ((w', log), g') ->
  dim_employee w' = dim_employee w ++ employees td /\
  (forall ids, ~ In (Warning_invalid_department_ids ids) log) /\
  g' = g.
Proof.
  intros Ht Hd H.
  apply load_inv in H
    as (written & msgs & ts & Hrep & _ & -> & _ & _ & _ & _ & _ & _ & _ & ->).
  pose proof (cleaned_employee_departments _ _ _ _ _ _ Ht) as Hdep.
  rewrite repair_employees_valid in Hrep.
  - inversion Hrep; subst. simpl. split; [reflexivity |]. split; [| reflexivity].
    intros ids Hin. repeat (destruct Hin as [Hin | Hin]; [discriminate |]). destruct Hin.
  - intros e He. apply elem_of_list_to_set, list_elem_of_In.
    rewrite Hd, clean_departments_ids. now apply Hdep.
Qed.

Lemma load_after_transform_witness :
  transform_employees Samples.run_clock Samples.sample_departments Samples.raw_employees
    Samples.counting = Some (employees Samples.pipeline_transformed, Samples.employees_rng) /\
  load_transformed_data Samples.sample_to_datetime Samples.pipeline_transformed
    empty_warehouse Samples.zeros
    = Some ((Samples.pipeline_loaded, Samples.pipeline_log), Samples.zeros) /\
  dim_employee Samples.pipeline_loaded = Samples.cleaned_employees.
Proof.
  split; [vm_compute; reflexivity |].
  split; [vm_compute; reflexivity |].
  apply (load_after_transform Samples.sample_to_datetime Samples.run_clock
           Samples.sample_departments
           Samples.raw_employees Samples.pipeline_transformed empty_warehouse
           Samples.pipeline_loaded Samples.pipeline_log
           Samples.counting Samples.employees_rng Samples.zeros Samples.zeros).
  - vm_compute; reflexivity.
  - reflexivity.
  - vm_compute; reflexivity.
Defined.

End PipelineFacts.


(* ===================================================================== *)
(** * The dimension pipeline of [main] on a fresh schema                  *)
(* ===================================================================== *)

Section MainFacts.

Import Transformer Cleaning Loader.

Lemma transform_courses_unfold (rows : list RawCourse.t) (g g' : Rng.rng)
    (out : list CleanCourse.t) :
  transform_courses rows g = Some (out, g') ->
  exists cleaned, Rng.mapM clean_course rows g = Some (cleaned, g') /\
                  out = drop_duplicates CleanCourse.course_id cleaned.
Proof.
  unfold transform_courses. intros H. apply bind_Some in H as (cleaned & g1 & Hm & H).
  inversion H; subst. eauto.
Qed.

(** X13. [main] on a fresh schema: cleaning, then loading into the empty
    tables.  The transformer removes duplicate ids from the student,
    employee and course rows, whose ids are then distinct; it removes none
    from the department, account, vendor and date rows.  So, once the
    three cleanings have returned, the load raises when a department id,
    an account id, a vendor id or a date key occurs twice in its file. *)
Theorem pipeline_load_raises_on_repeated_ids (to_datetime : Frame.conversion) (c : clock)
    (raw_students : list Student.csv) (raw_employees : list Employee.csv)
    (raw_courses : list RawCourse.t) (raw_departments : list Department.t)
    (raw_accounts : list RawAccount.t) (vendors : list Vendor.t) (dates : list DateRow.t)
    (gs gs' ge ge' gc gc' g : Rng.rng)
    (students : list Student.t) (employees : list Employee.t)
    (courses : list CleanCourse.t) :
  transform_students c raw_students gs = Some (students, gs') ->
  transform_employees c raw_departments raw_employees ge = Some (employees, ge') ->
  transform_courses raw_courses gc = Some (courses, gc') ->
  NoDup (map Student.student_id students) /\
  NoDup (map Employee.employee_id employees) /\
  NoDup (map CleanCourse.course_id courses) /\
  (~ NoDup (map DateRow.date_key dates) \/
   ~ NoDup (map Department.department_id raw_departments) \/
   ~ NoDup (map RawAccount.account_id raw_accounts) \/
   ~ NoDup (map Vendor.vendor_id vendors) ->
   load_transformed_data to_datetime
     (mk_transformed dates (clean_departments raw_employees raw_departments)
        (transform_accounts raw_accounts) vendors (map course_row courses)
        students employees)
     empty_warehouse g = None).
Proof.
  intros Hs He Hc.
  split; [apply transform_students_unfold in Hs as (derived & _ & ->);
          apply drop_duplicates_NoDup |].
  split; [apply transform_employees_unfold in He as (r & a & g1 & _ & _ & ->);
          apply drop_duplicates_NoDup |].
  split; [apply transform_courses_unfold in Hc as (cleaned & _ & ->);
          apply drop_duplicates_NoDup |].
  intros Hbad.
  assert (Hdep : map Department.department_id
                   (clean_departments raw_employees raw_departments)
                 = map Department.department_id raw_departments)
    by apply clean_departments_ids.
  assert (Hacc : map Account.account_id (transform_accounts raw_accounts)
                 = map RawAccount.account_id raw_accounts).
  { unfold transform_accounts. rewrite map_map. reflexivity. }
  match goal with
  | |- ?run = None => destruct run as [[[w' log] g'] |] eqn:H; [| reflexivity]
  end.
  exfalso.
  apply load_inv in H as (written & msgs & ts & _ & _ & _ & N1 & N2 & N3 & N4 & _).
  simpl in N1, N2, N3, N4. rewrite Hdep in N2. rewrite Hacc in N3.
  destruct Hbad as [Hn | [Hn | [Hn | Hn]]]; apply Hn; assumption.
Qed.

(** The sample files with a date file that holds the key 20260301 twice. *)
Lemma pipeline_load_raises_on_repeated_ids_witness :
  transform_students Samples.run_clock Samples.raw_students Samples.zeros
    = Some (Samples.cleaned_students, Samples.zeros_after_students) /\
  transform_employees Samples.run_clock Samples.sample_departments Samples.raw_employees
    Samples.counting = Some (Samples.cleaned_employees, Samples.employees_rng) /\
  transform_courses Samples.raw_courses Samples.counting
    = Some (Samples.cleaned_courses_rows, Samples.courses_rng) /\
  ~ NoDup (map DateRow.date_key Samples.repeated_dates) /\
  load_transformed_data Samples.sample_to_datetime
    (mk_transformed Samples.repeated_dates
       (clean_departments Samples.raw_employees Samples.sample_departments)
       (transform_accounts Samples.raw_accounts) Samples.sample_vendors
       (map course_row Samples.cleaned_courses_rows)
       Samples.cleaned_students Samples.cleaned_employees)
    empty_warehouse Samples.zeros = None.
Proof.
  assert (Hrep : ~ NoDup (map DateRow.date_key Samples.repeated_dates)) by compute_done.
  split; [vm_compute; reflexivity |].
  split; [vm_compute; reflexivity |].
  split; [vm_compute; reflexivity |].
  split; [exact Hrep |].
  apply (pipeline_load_raises_on_repeated_ids Samples.sample_to_datetime
           Samples.run_clock Samples.raw_students
           Samples.raw_employees Samples.raw_courses Samples.sample_departments
           Samples.raw_accounts Samples.sample_vendors Samples.repeated_dates
           Samples.zeros Samples.zeros_after_students
           Samples.counting Samples.employees_rng Samples.counting Samples.courses_rng
           Samples.zeros Samples.cleaned_students Samples.cleaned_employees
           Samples.cleaned_courses_rows).
  - vm_compute; reflexivity.
  - vm_compute; reflexivity.
  - vm_compute; reflexivity.
  - left. exact Hrep.
Defined.

End MainFacts.


(* ===================================================================== *)
(** * The academic facts: references and fee                              *)
(* ===================================================================== *)

Section AcademicTableFacts.

Import PyNum FactSynth.

(** Rounding a whole number leaves it as it is. *)
Lemma py_round_whole (k : Z) (q : Q) (n : nat) :
  (q == inject_Z k)%Q -> (py_round q n == inject_Z k)%Q.
Proof.
  intros Hq. destruct (py_round_bounds k k q n) as [H1 H2].
  - rewrite Hq. apply Qle_refl.
  - rewrite Hq. apply Qle_refl.
  - now apply Qle_antisym.
Qed.

Lemma academic_record_refs (w : Loader.warehouse) (sid : Z) (g g' : Rng.rng)
    (f : AcademicFact.t) :
  academic_record w sid g = Some (f, g') ->
  (exists course, In course (Loader.dim_course w) /\
     AcademicFact.course_id f = Course.course_id course /\
     ((AcademicFact.fee_paid f == inject_Z (250 * Course.credit_hours course))%Q \/
      (AcademicFact.fee_paid f == inject_Z (200 * Course.credit_hours course))%Q)) /\
  (exists e, In e (Loader.dim_employee w) /\
     AcademicFact.employee_id f = Employee.employee_id e /\
     (forall p, In p (Loader.dim_employee w) -> is_instructor p = true ->
                is_instructor e = true)) /\
  In (AcademicFact.date_key f) (map DateRow.date_key (Loader.dim_date w)).
Proof.
  unfold academic_record. intros H.
  destruct (List.find _ _) as [student |]; [| discriminate].
  apply bind_Some in H as (course & g1 & Hcourse & H).
  apply bind_Some in H as (instructor & g2 & Hinstr & H).
  apply bind_Some in H as (date & g3 & Hdate & H).
  apply bind_Some in H as (base_grade & g4 & _ & H).
  apply bind_Some in H as (noise & g5 & _ & H).
  apply bind_Some in H as (u & g6 & _ & H).
  inversion H; subst; clear H. cbn [AcademicFact.course_id AcademicFact.fee_paid
    AcademicFact.employee_id AcademicFact.date_key].
  apply random_choice_In in Hcourse. apply random_choice_In in Hdate.
  split; [| split].
  - exists course. split; [exact Hcourse |]. split; [reflexivity |].
    destruct (Qltb u (2 # 10)).
    + right. apply py_round_whole. rewrite inject_Z_mult.
      change (inject_Z 200) with 200%Q. lra.
    + left. apply py_round_whole. rewrite inject_Z_mult.
      change (inject_Z 250) with 250%Q. lra.
  - destruct (List.filter is_instructor (Loader.dim_employee w)) as [| p0 ps] eqn:Hp.
    + apply random_choice_In in Hinstr. exists instructor.
      split; [exact Hinstr |]. split; [reflexivity |].
      intros p Hin Hprof. exfalso.
      assert (Hpin : In p (List.filter is_instructor (Loader.dim_employee w)))
        by (apply filter_In; split; assumption).
      rewrite Hp in Hpin. destruct Hpin.
    + apply random_choice_In in Hinstr. rewrite <- Hp in Hinstr.
      apply filter_In in Hinstr as [Hin Hprof]. exists instructor.
      split; [exact Hin |]. split; [reflexivity |]. intros _ _ _. exact Hprof.
  - now apply in_map.
Qed.

(** X14. Every academic fact references rows that exist: its student, its
    course, its instructor and its date are rows of the four dimension
    tables read.  The instructor is a professor or a lecturer whenever the
    employee table has one.  The fee is 250 per credit hour of the course,
    or 200 per credit hour when the discount was drawn. *)
Theorem academic_facts_reference_dimensions (w : Loader.warehouse) (g g' : Rng.rng)
    (rows : list AcademicFact.t) :
  academic_facts w g = Some (rows, g') ->
  Forall (fun f =>
    In (AcademicFact.student_id f) (map Student.student_id (Loader.dim_student w)) /\
    (exists course, In course (Loader.dim_course w) /\
       AcademicFact.course_id f = Course.course_id course /\
       ((AcademicFact.fee_paid f == inject_Z (250 * Course.credit_hours course))%Q \/
        (AcademicFact.fee_paid f == inject_Z (200 * Course.credit_hours course))%Q)) /\
    (exists e, In e (Loader.dim_employee w) /\
       AcademicFact.employee_id f = Employee.employee_id e /\
       (forall p, In p (Loader.dim_employee w) -> is_instructor p = true ->
                  is_instructor e = true)) /\
    In (AcademicFact.date_key f) (map DateRow.date_key (Loader.dim_date w))) rows.
Proof.
  intros H. apply academic_facts_unfold in H as (sampled & g1 & Hs & Hm).
  apply sample_with_replacement_spec in Hs as [_ Hin].
  apply List.Forall_forall. intros f Hf.
  destruct (mapM_In _ _ _ _ _ _ Hm Hf) as (sid & ga & gb & Hsid & Hrec).
  pose proof (academic_record_spec _ _ _ _ _ Hrec) as (Hid & _).
  apply academic_record_refs in Hrec as (Hc & He & Hd).
  split; [| auto]. rewrite Hid. apply Hin. now apply unique_incl.
Qed.

Lemma academic_facts_reference_dimensions_witness :
  academic_facts Samples.sample_warehouse Samples.counting
    = Some (Samples.academic_rows, Samples.academic_rng) /\
  Forall (fun f =>
    In (AcademicFact.student_id f) [1; 2; 3] /\
    In (AcademicFact.employee_id f) [4] /\
    In (AcademicFact.date_key f) [20260301; 20250301; 20260415]) Samples.academic_rows.
Proof.
  split; [vm_compute; reflexivity |].
  pose proof (academic_facts_reference_dimensions Samples.sample_warehouse
                Samples.counting Samples.academic_rng Samples.academic_rows) as H.
  eapply Forall_impl; [apply H; vm_compute; reflexivity |].
  intros f (Hs & _ & (e & He & -> & Hp) & Hd).
  split; [exact Hs |]. split; [| exact Hd].
  assert (Hprof : is_instructor e = true).
  { apply (Hp (Employee.mk 4 (Some "Professor"%string) (PyNum.Fin 90000) 1 0
                           (Some 737000) 8)); [now left | reflexivity]. }
  destruct He as [<- | [<- | []]]; [now left | discriminate Hprof].
Defined.

(** X15. The academic facts are produced exactly when the student, course,
    employee and date tables all have a row; with an empty table the
    sampling raises. *)
Theorem academic_facts_return_iff (w : Loader.warehouse) (g : Rng.rng) :
  (exists rows g', academic_facts w g = Some (rows, g')) <->
  Loader.dim_student w <> [] /\ Loader.dim_course w <> [] /\
  Loader.dim_employee w <> [] /\ Loader.dim_date w <> [].
Proof.
  split.
  - intros (rows & g' & H).
    apply academic_facts_unfold in H as (sampled & g1 & Hs & Hm).
    assert (Hst : Loader.dim_student w <> []).
    { intros He. rewrite He in Hs. discriminate Hs. }
    split; [exact Hst |].
    destruct sampled as [| sid rest].
    { apply sample_with_replacement_spec in Hs as [Hlen _]. discriminate Hlen. }
    assert (Hu : exists u us, unique (sid :: rest) = u :: us).
    { unfold unique. simpl. rewrite bool_decide_eq_false_2 by apply not_elem_of_empty.
      eauto. }
    destruct Hu as (u & us & Hu). rewrite Hu in Hm. simpl in Hm.
    apply bind_Some in Hm as (f & g2 & Hrec & _).
    unfold academic_record in Hrec.
    destruct (List.find _ _) as [student |]; [| discriminate].
    apply bind_Some in Hrec as (course & g3 & Hcourse & Hrec).
    apply bind_Some in Hrec as (instructor & g4 & Hinstr & Hrec).
    apply bind_Some in Hrec as (date & g5 & Hdate & _).
    apply random_choice_In in Hcourse. apply random_choice_In in Hdate.
    split; [intros He; rewrite He in Hcourse; destruct Hcourse |].
    split; [| intros He; rewrite He in Hdate; destruct Hdate].
    intros He. rewrite He in Hinstr. simpl in Hinstr. discriminate Hinstr.
  - intros (Hs & Hc & He & Hd). now apply academic_facts_total.
Qed.

End AcademicTableFacts.


(* ===================================================================== *)
(** * The HR facts: snapshots per employee                                *)
(* ===================================================================== *)

Section HRTableFacts.

Import PyNum FactSynth.

Lemma remove_nth_perm {T : Type} (l : list T) (i : nat) (x : T) :
  nth_error l i = Some x -> Permutation l (x :: remove_nth i l).
Proof.
  revert i. induction l as [| y ys IH]; intros [| i] H; simpl in *; try discriminate.
  - inversion H; subst. reflexivity.
  - rewrite (IH i H) at 1. apply perm_swap.
Qed.

Lemma remove_nth_length {T : Type} (l : list T) (i : nat) :
  (i < length l)%nat -> S (length (remove_nth i l)) = length l.
Proof.
  revert i. induction l as [| y ys IH]; intros [| i] H; simpl in *; try lia.
  rewrite IH by lia. reflexivity.
Qed.

(** [df.sample(n)] returns [n] rows of the frame, each row at most as
    often as the frame has it. *)
Lemma sample_spec {T : Type} (n : nat) (l : list T) (g g' : Rng.rng) (xs : list T) :
  sample n l g = Some (xs, g') ->
  length xs = n /\ exists rest, Permutation (xs ++ rest) l.
Proof.
  revert l g xs. induction n as [| n IH]; intros l g xs H; simpl in H.
  - inversion H; subst. split; [reflexivity |]. exists l. reflexivity.
  - destruct l as [| y ys]; [discriminate |].
    apply bind_Some in H as (k & g1 & _ & H).
    destruct (nth_error (y :: ys) (N.to_nat (k mod N.of_nat (length (y :: ys)))))
      as [x |] eqn:Hx; [| discriminate].
    apply bind_Some in H as (xs' & g2 & Hs & H). inversion H; subst; clear H.
    apply IH in Hs as (Hlen & rest & Hperm).
    split; [simpl; now rewrite Hlen |].
    exists rest. simpl. rewrite Hperm. symmetry. now apply remove_nth_perm.
Qed.

(** [df.sample(n)] returns whenever [n] is at most the number of rows. *)
Lemma sample_total {T : Type} (n : nat) (l : list T) (g : Rng.rng) :
  (n <= length l)%nat -> exists xs g', sample n l g = Some (xs, g').
Proof.
  revert l g. induction n as [| n IH]; intros l g Hn; simpl.
  - eexists _, _. reflexivity.
  - destruct l as [| y ys]; [simpl in Hn; lia |].
    unfold Rng.bind at 1. unfold Rng.next_raw.
    set (i := N.to_nat (Rng.raw g (Rng.pos g) mod N.of_nat (length (y :: ys)))).
    assert (Hi : (i < length (y :: ys))%nat).
    { unfold i.
      pose proof (N.mod_upper_bound (Rng.raw g (Rng.pos g))
                    (N.of_nat (length (y :: ys)))) as Hb.
      simpl length in *. lia. }
    destruct (nth_error (y :: ys) i) as [x |] eqn:Hx.
    2:{ apply nth_error_None in Hx. lia. }
    pose proof (remove_nth_length (y :: ys) i Hi) as Hlen.
    destruct (IH (remove_nth i (y :: ys))
                 (Rng.mk_rng (Rng.raw g) (Rng.normal g) (N.succ (Rng.pos g))))
      as (xs & g' & Hs).
    { simpl length in *. lia. }
    unfold Rng.bind. rewrite Hs. eexists _, _. reflexivity.
Qed.

(** The dates among which the snapshots of an employee are drawn and the
    number of snapshots drawn. *)
Lemma hr_records_spec (w : Loader.warehouse) (quarterly : list DateRow.t) (eid : Z)
    (g g' : Rng.rng) (rs : list HRFact.t) :
  hr_records w quarterly eid g = Some (rs, g') ->
  exists e selected rest,
    In e (Loader.dim_employee w) /\ Employee.employee_id e = eid /\
    Permutation (selected ++ rest)
                (match quarterly with [] => Loader.dim_date w | _ => quarterly end) /\
    length selected = match quarterly with
                      | [] => Nat.min 4 (length (Loader.dim_date w))
                      | _ => Nat.min 8 (length quarterly)
                      end /\
    Forall2 (fun d f =>
               HRFact.employee_id f = eid /\
               HRFact.department_id f = Employee.department_id e /\
               HRFact.date_key f = DateRow.date_key d /\
               HRFact.salary_amount f = Employee.salary e /\
               (0 <= HRFact.leave_days_taken f <= 8) /\
               (0 <= HRFact.overtime_hours f)%Q /\ (HRFact.overtime_hours f <= 10)%Q /\
               exists rating, (1 <= rating)%Q /\ (rating <= 5)%Q /\
                 HRFact.performance_rating f = py_round rating 1 /\
                 HRFact.bonus_amount f =
                   float_round (float_mul (Employee.salary e) (rating / 20)) 2)
            selected rs.
Proof.
  unfold hr_records. intros H.
  destruct (List.find _ _) as [e |] eqn:Hfind; [| discriminate].
  apply find_some in Hfind as [Hin Heq]. apply Z.eqb_eq in Heq.
  apply bind_Some in H as (selected & g1 & Hsel & Hm).
  assert (Hs : exists rest,
             Permutation (selected ++ rest)
               (match quarterly with [] => Loader.dim_date w | _ => quarterly end) /\
             length selected = match quarterly with
                               | [] => Nat.min 4 (length (Loader.dim_date w))
                               | _ => Nat.min 8 (length quarterly)
                               end).
  { destruct quarterly as [| q qs].
    - simpl in Hsel. apply sample_spec in Hsel as (Hlen & rest & Hp). eauto.
    - assert (Hmin : exists k, Nat.min 8 (length (q :: qs)) = S k).
      { simpl length. destruct (Nat.min 8 (S (length qs))) eqn:E; [lia | eauto]. }
      destruct Hmin as (k & Hk). rewrite Hk in Hsel. rewrite Hk.
      apply sample_spec in Hsel as (Hlen & rest & Hp). eauto. }
  destruct Hs as (rest & Hperm & Hlen).
  exists e, selected, rest. repeat (split; [assumption |]).
  apply mapM_Forall2 in Hm.
  eapply Forall2_impl; [exact Hm |].
  intros d f (ga & gb & Hrec). unfold hr_record in Hrec.
  apply bind_Some in Hrec as (base & g2 & _ & Hrec).
  apply bind_Some in Hrec as (overtime & g3 & Hover & Hrec).
  apply bind_Some in Hrec as (leave & g4 & Hleave & Hrec).
  inversion Hrec; subst; clear Hrec. simpl.
  apply random_randint_range in Hleave.
  apply random_uniform_range in Hover; [| lra].
  repeat (split; [first [reflexivity | lia] |]).
  split; [apply (py_round_bounds 0 10); tauto |].
  split; [apply (py_round_bounds 0 10); tauto |].
  exists (adjust_performance e base).
  split; [apply adjust_performance_bounds |].
  split; [apply adjust_performance_bounds |].
  split; reflexivity.
Qed.

Lemma hr_facts_unfold (cutoff : Z) (w : Loader.warehouse) (g g' : Rng.rng)
    (rows : list HRFact.t) :
  hr_facts cutoff w g = Some (rows, g') ->
  exists per_employee,
    Rng.mapM (hr_records w (quarterly_dates cutoff (Loader.dim_date w)))
             (unique (map Employee.employee_id (Loader.dim_employee w))) g
      = Some (per_employee, g') /\
    rows = concat per_employee.
Proof.
  unfold hr_facts. intros H. apply bind_Some in H as (per & g1 & Hm & H).
  inversion H; subst. eauto.
Qed.

(** X16. Every HR fact belongs to an employee of the employee table and
    carries that employee's department and salary; its date is a date of
    the date table, and a quarter-end month date not older than the cutoff
    whenever the table has such a date.  Leave days are in [0, 8],
    overtime hours in [0, 10], and the bonus is the salary times a rating
    of [1, 5] over 20, rounded to two decimals. *)
Theorem hr_facts_rows (cutoff : Z) (w : Loader.warehouse) (g g' : Rng.rng)
    (rows : list HRFact.t) :
  hr_facts cutoff w g = Some (rows, g') ->
  Forall (fun f =>
    (exists e, In e (Loader.dim_employee w) /\
       HRFact.employee_id f = Employee.employee_id e /\
       HRFact.department_id f = Employee.department_id e /\
       HRFact.salary_amount f = Employee.salary e /\
       exists rating, (1 <= rating)%Q /\ (rating <= 5)%Q /\
         HRFact.performance_rating f = py_round rating 1 /\
         HRFact.bonus_amount f =
           float_round (float_mul (Employee.salary e) (rating / 20)) 2) /\
    (exists d, In d (Loader.dim_date w) /\ HRFact.date_key f = DateRow.date_key d /\
       (quarterly_dates cutoff (Loader.dim_date w) <> [] ->
        DateRow.month d ∈ [3; 6; 9; 12] /\
        exists day, DateRow.date d = Some day /\ cutoff <= day)) /\
    (0 <= HRFact.leave_days_taken f <= 8) /\
    (0 <= HRFact.overtime_hours f)%Q /\ (HRFact.overtime_hours f <= 10)%Q) rows.
Proof.
  intros H. apply hr_facts_unfold in H as (per & Hm & ->).
  apply List.Forall_forall. intros f Hf.
  apply in_concat in Hf as (rs & Hrs & Hf).
  destruct (mapM_In _ _ _ _ _ _ Hm Hrs) as (eid & ga & gb & _ & Hrec).
  apply hr_records_spec in Hrec as (e & selected & rest & He & Heid & Hperm & _ & HF).
  assert (Hd : exists d, In d selected /\
             HRFact.employee_id f = eid /\
             HRFact.department_id f = Employee.department_id e /\
             HRFact.date_key f = DateRow.date_key d /\
             HRFact.salary_amount f = Employee.salary e /\
             (0 <= HRFact.leave_days_taken f <= 8) /\
             (0 <= HRFact.overtime_hours f)%Q /\ (HRFact.overtime_hours f <= 10)%Q /\
             exists rating, (1 <= rating)%Q /\ (rating <= 5)%Q /\
               HRFact.performance_rating f = py_round rating 1 /\
               HRFact.bonus_amount f =
                 float_round (float_mul (Employee.salary e) (rating / 20)) 2).
  { clear -HF Hf. induction HF as [| d f0 ds fs Hdf HF IH]; [destruct Hf |].
    destruct Hf as [-> | Hf].
    - exists d. split; [now left | exact Hdf].
    - destruct (IH Hf) as (d1 & Hin & Hrest). exists d1. split; [now right | exact Hrest]. }
  destruct Hd as (d & Hdin & Hfe & Hfd & Hfk & Hfs & Hleave & Ho1 & Ho2 & Hrating).
  assert (Hsrc : In d (match quarterly_dates cutoff (Loader.dim_date w) with
                       | [] => Loader.dim_date w
                       | _ => quarterly_dates cutoff (Loader.dim_date w)
                       end)).
  { apply (Permutation_in d Hperm). apply in_or_app. now left. }
  split; [| split].
  - exists e. split; [exact He |]. split; [congruence |]. auto.
  - exists d. destruct (quarterly_dates cutoff (Loader.dim_date w)) as [| q qs] eqn:Hq.
    + split; [exact Hsrc |]. split; [exact Hfk |]. congruence.
    + rewrite <- Hq in Hsrc. unfold quarterly_dates in Hsrc.
      apply filter_In in Hsrc as [Hsrc Hmonth].
      apply filter_In in Hsrc as [Hin Hday].
      split; [exact Hin |]. split; [exact Hfk |]. intros _.
      split; [now apply bool_decide_eq_true in Hmonth |].
      destruct (DateRow.date d) as [day |]; [| discriminate].
      exists day. split; [reflexivity |]. now apply Z.leb_le.
  - auto.
Qed.

Lemma hr_facts_rows_witness :
  hr_facts Samples.cutoff Samples.sample_warehouse Samples.counting
    = Some (Samples.hr_rows, Samples.hr_rng) /\
  Forall (fun f => 0 <= HRFact.leave_days_taken f <= 8) Samples.hr_rows.
Proof.
  split; [vm_compute; reflexivity |].
  pose proof (hr_facts_rows Samples.cutoff Samples.sample_warehouse Samples.counting
                Samples.hr_rng Samples.hr_rows) as H.
  eapply Forall_impl; [apply H; vm_compute; reflexivity |].
  intros f (_ & _ & Hleave & _). exact Hleave.
Defined.

(** The facts of a run of blocks, one block per id, counted by id. *)
Lemma blocks_without_id (k : nat) (eid : Z) (ids : list Z) (per : list (list HRFact.t)) :
  Forall2 (fun i rs => length rs = k /\ Forall (fun f => HRFact.employee_id f = i) rs)
          ids per ->
  ~ In eid ids ->
  List.filter (fun f => HRFact.employee_id f =? eid) (concat per) = [].
Proof.
  intros HF. induction HF as [| i rs ids1 per1 [_ Hrs] HF1 IH]; intros Hn; [reflexivity |].
  cbn [concat]. rewrite List.filter_app, IH by (intros Hin; apply Hn; now right).
  rewrite app_nil_r. clear -Hrs Hn. induction Hrs as [| f fs Hf Hfs IHf]; [reflexivity |].
  cbn [List.filter].
  destruct (Z.eqb_spec (HRFact.employee_id f) eid) as [Heq | Hne]; [| exact IHf].
  exfalso. apply Hn. left. congruence.
Qed.

Lemma blocks_count (k : nat) (eid : Z) (ids : list Z) (per : list (list HRFact.t)) :
  Forall2 (fun i rs => length rs = k /\ Forall (fun f => HRFact.employee_id f = i) rs)
          ids per ->
  NoDup ids -> In eid ids ->
  length (List.filter (fun f => HRFact.employee_id f =? eid) (concat per)) = k.
Proof.
  intros HF. induction HF as [| i rs ids1 per1 [Hlen Hrs] HF1 IH]; intros Hnd Hin;
    [destruct Hin |].
  apply NoDup_cons in Hnd as [Hi Hnd]. cbn [concat]. rewrite List.filter_app, length_app.
  destruct (decide (i = eid)) as [-> | Hne].
  - rewrite (blocks_without_id k eid ids1 per1 HF1)
      by (intros Hin1; apply Hi; now apply list_elem_of_In).
    simpl. rewrite Nat.add_0_r, <- Hlen. f_equal.
    clear -Hrs. induction Hrs as [| f fs Hf Hfs IHf]; [reflexivity |].
    cbn [List.filter]. rewrite (proj2 (Z.eqb_eq _ _) Hf). now rewrite IHf.
  - destruct Hin as [Heq | Hin]; [congruence |]. rewrite (IH Hnd Hin).
    replace (List.filter (fun f => HRFact.employee_id f =? eid) rs) with (@nil HRFact.t);
      [reflexivity |].
    clear -Hrs Hne. induction Hrs as [| f fs Hf Hfs IHf]; [reflexivity |].
    cbn [List.filter].
    destruct (Z.eqb_spec (HRFact.employee_id f) eid) as [Heq | Hn]; [congruence | exact IHf].
Qed.

(** X17. The HR part never raises.  It produces, for every distinct
    employee id, the same number of facts: one per quarter-end month date
    not older than the cutoff, at most 8; or, when the date table has no
    such date, one per date of the table, at most 4.  Every fact carries
    the id of an employee of the table. *)
Theorem hr_facts_count (cutoff : Z) (w : Loader.warehouse) (g : Rng.rng) :
  exists rows g',
    hr_facts cutoff w g = Some (rows, g') /\
    let k := match quarterly_dates cutoff (Loader.dim_date w) with
             | [] => Nat.min 4 (length (Loader.dim_date w))
             | quarterly => Nat.min 8 (length quarterly)
             end in
    (forall eid, In eid (map Employee.employee_id (Loader.dim_employee w)) ->
       length (List.filter (fun f => HRFact.employee_id f =? eid) rows) = k) /\
    (forall f, In f rows ->
       In (HRFact.employee_id f) (map Employee.employee_id (Loader.dim_employee w))) /\
    length rows =
      (length (unique (map Employee.employee_id (Loader.dim_employee w))) * k)%nat.
Proof.
  set (quarterly := quarterly_dates cutoff (Loader.dim_date w)).
  set (ids := unique (map Employee.employee_id (Loader.dim_employee w))).
  destruct (mapM_total (hr_records w quarterly) ids g) as (per & g' & Hm).
  { intros eid g0 Hid. unfold ids in Hid. apply unique_incl in Hid.
    apply in_map_iff in Hid as (e0 & Hid & He0).
    unfold hr_records.
    destruct (List.find (fun e => Employee.employee_id e =? eid) (Loader.dim_employee w))
      as [e |] eqn:Hfind.
    2:{ eapply find_none in Hfind; [| exact He0]. simpl in Hfind. lia. }
    assert (Hsel : exists selected g1,
               match Nat.min 8 (length quarterly) with
               | O => sample (Nat.min 4 (length (Loader.dim_date w))) (Loader.dim_date w)
               | S _ => sample (Nat.min 8 (length quarterly)) quarterly
               end g0 = Some (selected, g1)).
    { destruct (Nat.min 8 (length quarterly)) eqn:E.
      - apply sample_total. lia.
      - rewrite <- E. apply sample_total. lia. }
    destruct Hsel as (selected & g1 & Hsel).
    unfold Rng.bind at 1. rewrite Hsel.
    apply mapM_total. intros d g2 _. unfold hr_record.
    unfold Rng.bind, Rng.random_gauss, Rng.next_normal, Rng.random_uniform,
      Rng.random_random, Rng.bind, Rng.next_raw, Rng.random_randint, Rng.ret.
    simpl. eexists _, _. reflexivity. }
  exists (concat per), g'. split.
  { unfold hr_facts. fold quarterly. fold ids. unfold Rng.bind. rewrite Hm. reflexivity. }
  set (k := match quarterly with
            | [] => Nat.min 4 (length (Loader.dim_date w))
            | q :: qs => Nat.min 8 (length (q :: qs))
            end).
  assert (Hk : k = match quarterly with
                   | [] => Nat.min 4 (length (Loader.dim_date w))
                   | _ => Nat.min 8 (length quarterly)
                   end) by (unfold k; destruct quarterly; reflexivity).
  assert (HF : Forall2 (fun i rs => length rs = k /\
                          Forall (fun f => HRFact.employee_id f = i) rs) ids per).
  { pose proof (mapM_Forall2 _ _ _ _ _ Hm) as HF0.
    eapply Forall2_impl; [exact HF0 |]. intros eid rs (ga & gb & Hrec).
    apply hr_records_spec in Hrec as (e & selected & rest & _ & _ & _ & Hlen & HF1).
    split.
    - rewrite Hk, <- Hlen. symmetry. eapply Forall2_length; eauto.
    - clear -HF1. induction HF1 as [| d f ds fs Hdf HF1 IH]; constructor; [tauto | exact IH]. }
  cbv zeta. split; [| split].
  - intros eid Hin. apply (blocks_count k eid ids per HF).
    + apply unique_NoDup.
    + now apply unique_complete.
  - intros f Hf. apply in_concat in Hf as (rs & Hrs & Hf).
    assert (Hid : In (HRFact.employee_id f) ids).
    { clear -HF Hrs Hf. induction HF as [| i rs0 ids1 per1 [_ Hall] HF1 IH]; [destruct Hrs |].
      destruct Hrs as [-> | Hrs]; [| right; now apply IH].
      left. rewrite List.Forall_forall in Hall. symmetry. now apply Hall. }
    now apply unique_incl in Hid.
  - apply mapM_length in Hm. rewrite <- Hm. clear -HF. clearbody k.
    induction HF as [| i rs ids1 per1 [Hrs _] HF IH]; [reflexivity |].
    cbn [concat length]. rewrite length_app, IH, Hrs. lia.
Qed.

End HRTableFacts.


(* ===================================================================== *)
(** * The HR facts: one snapshot per employee and date                    *)
(* ===================================================================== *)

Section HRSnapshotFacts.

Import PyNum FactSynth.

Lemma NoDup_map_filter {T : Type} (key : T -> Z) (p : T -> bool) (l : list T) :
  NoDup (map key l) -> NoDup (map key (List.filter p l)).
Proof.
  induction l as [| x xs IH]; simpl; intros Hnd; [constructor |].
  apply NoDup_cons in Hnd as [Hx Hnd].
  destruct (p x); [| now apply IH].
  simpl. apply NoDup_cons. split; [| now apply IH].
  intros Hin. apply Hx. apply list_elem_of_In in Hin. apply list_elem_of_In.
  apply in_map_iff in Hin as (y & Hy & Hin). apply filter_In in Hin as [Hin _].
  apply in_map_iff. eauto.
Qed.

(** The dates drawn for one employee have distinct keys when the date
    table has. *)
Lemma hr_records_dates (w : Loader.warehouse) (cutoff eid : Z) (g g' : Rng.rng)
    (rs : list HRFact.t) :
  NoDup (map DateRow.date_key (Loader.dim_date w)) ->
  hr_records w (quarterly_dates cutoff (Loader.dim_date w)) eid g = Some (rs, g') ->
  Forall (fun f => HRFact.employee_id f = eid) rs /\
  NoDup (map HRFact.date_key rs).
Proof.
  intros Hnd H.
  apply hr_records_spec in H as (e & selected & rest & _ & _ & Hperm & _ & HF).
  assert (Hsrc : NoDup (map DateRow.date_key
                          (match quarterly_dates cutoff (Loader.dim_date w) with
                           | [] => Loader.dim_date w
                           | _ => quarterly_dates cutoff (Loader.dim_date w)
                           end))).
  { destruct (quarterly_dates cutoff (Loader.dim_date w)) eqn:Hq; [exact Hnd |].
    rewrite <- Hq. unfold quarterly_dates. now do 2 apply NoDup_map_filter. }
  rewrite <- Hperm, map_app in Hsrc. apply NoDup_app in Hsrc as (Hsel & _ & _).
  assert (Hkeys : map HRFact.date_key rs = map DateRow.date_key selected).
  { clear -HF. induction HF as [| d f ds fs Hdf HF IH]; [reflexivity |].
    simpl. rewrite IH. f_equal. tauto. }
  split; [| now rewrite Hkeys].
  clear -HF. induction HF as [| d f ds fs Hdf HF IH]; constructor; [tauto | exact IH].
Qed.

(** X18. No employee gets two HR facts for the same date: when the keys
    of the date table are distinct, the pairs of employee id and date key
    of the facts produced are distinct. *)
Theorem hr_facts_distinct_snapshots (cutoff : Z) (w : Loader.warehouse) (g g' : Rng.rng)
    (rows : list HRFact.t) :
  NoDup (map DateRow.date_key (Loader.dim_date w)) ->
  hr_facts cutoff w g = Some (rows, g') ->
  NoDup (map (fun f => (HRFact.employee_id f, HRFact.date_key f)) rows).
Proof.
  intros Hnd H. apply hr_facts_unfold in H as (per & Hm & ->).
  apply mapM_Forall2 in Hm.
  pose proof (unique_NoDup (map Employee.employee_id (Loader.dim_employee w))) as Hids.
  revert Hids Hm.
  generalize (unique (map Employee.employee_id (Loader.dim_employee w))) as ids.
  intros ids Hids HF.
  induction HF as [| eid rs ids' per' Hrec HF IH]; [constructor |].
  apply NoDup_cons in Hids as [Hfresh Hids].
  destruct Hrec as (ga & gb & Hrec).
  apply (hr_records_dates _ _ _ _ _ _ Hnd) in Hrec as [Hsame Hdates].
  cbn [concat]. rewrite map_app. apply NoDup_app. split; [| split].
  - clear -Hsame Hdates. induction rs as [| f fs IHf]; [constructor |].
    simpl in *. apply NoDup_cons in Hdates as [Hf Hdates].
    apply Forall_cons in Hsame as [Hfe Hsame].
    apply NoDup_cons. split; [| now apply IHf].
    intros Hin. apply Hf. apply list_elem_of_In in Hin. apply list_elem_of_In.
    apply in_map_iff in Hin as (f' & Heq & Hin). inversion Heq.
    apply in_map_iff. eauto.
  - intros [i k] Hin1 Hin2.
    apply list_elem_of_In, in_map_iff in Hin1 as (f1 & Heq1 & Hin1).
    apply list_elem_of_In, in_map_iff in Hin2 as (f2 & Heq2 & Hin2).
    inversion Heq1; subst; clear Heq1. inversion Heq2 as [[Hi Hk]]; clear Heq2.
    rewrite List.Forall_forall in Hsame. rewrite (Hsame f1 Hin1) in Hi.
    apply Hfresh. apply list_elem_of_In. rewrite <- Hi.
    clear -HF Hin2 Hnd. induction HF as [| eid' rs' ids'' per'' Hrec HF IH];
      [destruct Hin2 |].
    cbn [concat] in Hin2. apply in_app_or in Hin2 as [Hin2 | Hin2].
    + destruct Hrec as (ga & gb & Hrec).
      apply (hr_records_dates _ _ _ _ _ _ Hnd) in Hrec as [Hsame _].
      rewrite List.Forall_forall in Hsame. rewrite (Hsame f2 Hin2). now left.
    + right. now apply IH.
  - now apply IH.
Qed.

Lemma hr_facts_distinct_snapshots_witness :
  NoDup (map DateRow.date_key (Loader.dim_date Samples.sample_warehouse)) /\
  hr_facts Samples.cutoff Samples.sample_warehouse Samples.counting
    = Some (Samples.hr_rows, Samples.hr_rng) /\
  map (fun f => (HRFact.employee_id f, HRFact.date_key f)) Samples.hr_rows
    = [(4, 20250301); (4, 20260301); (5, 20250301); (5, 20260301)] /\
  NoDup (map (fun f => (HRFact.employee_id f, HRFact.date_key f)) Samples.hr_rows).
Proof.
  split; [compute_done |].
  split; [vm_compute; reflexivity |].
  split; [vm_compute; reflexivity |].
  apply (hr_facts_distinct_snapshots Samples.cutoff Samples.sample_warehouse
           Samples.counting Samples.hr_rng Samples.hr_rows).
  - compute_done.
  - vm_compute; reflexivity.
Defined.

End HRSnapshotFacts.


(* ===================================================================== *)
(** * The finance facts                                                   *)
(* ===================================================================== *)

Section FinanceFacts.

Import PyNum Finance.

Lemma repeatM_spec {T : Type} (n : nat) (body : Rng.Rand T) (g g' : Rng.rng)
    (xs : list T) :
  repeatM n body g = Some (xs, g') ->
  length xs = n /\ Forall (fun x => exists g1 g2, body g1 = Some (x, g2)) xs.
Proof.
  revert g xs. induction n as [| n IH]; intros g xs H; simpl in H.
  - inversion H; subst. split; [reflexivity | constructor].
  - apply bind_Some in H as (x & g1 & Hx & H).
    apply bind_Some in H as (xs' & g2 & Hxs & H). inversion H; subst; clear H.
    apply IH in Hxs as [Hlen HF]. split; [simpl; now rewrite Hlen |].
    constructor; eauto.
Qed.

Lemma repeatM_total {T : Type} (n : nat) (body : Rng.Rand T) (g : Rng.rng) :
  (forall g0, exists x g1, body g0 = Some (x, g1)) ->
  exists xs g', repeatM n body g = Some (xs, g').
Proof.
  intros Hbody. revert g. induction n as [| n IH]; intros g; simpl.
  - eexists _, _. reflexivity.
  - destruct (Hbody g) as (x & g1 & Hx). destruct (IH g1) as (xs & g2 & Hxs).
    unfold Rng.bind. rewrite Hx, Hxs. eexists _, _. reflexivity.
Qed.

Lemma repeatM_first {T : Type} (n : nat) (body : Rng.Rand T) (g g' : Rng.rng)
    (xs : list T) :
  repeatM (S n) body g = Some (xs, g') -> exists x g1, body g = Some (x, g1).
Proof.
  simpl. intros H. apply bind_Some in H as (x & g1 & Hx & _). eauto.
Qed.

Lemma finance_record_spec (accounts : list Account.t) (departments : list Department.t)
    (vendors : list Vendor.t) (dates : list DateYear.t) (g g' : Rng.rng)
    (f : FinanceFact.t) :
  finance_record accounts departments vendors dates g = Some (f, g') ->
  exists account department vendor date,
    In account accounts /\ In department departments /\ In vendor vendors /\
    In date dates /\
    FinanceFact.account_id f = Account.account_id account /\
    FinanceFact.department_id f = Department.department_id department /\
    FinanceFact.vendor_id f = Vendor.vendor_id vendor /\
    FinanceFact.date_key f = DateYear.date_key date /\
    (valid_dates dates <> [] -> exists y, DateYear.year date = Some y /\ 2020 <= y) /\
    FinanceFact.description f =
      (FinanceFact.transaction_type f +:+ " for " +:+ Account.category account
         +:+ " - " +:+ Vendor.vendor_name vendor) /\
    (exists n, 10000 <= n <= 99999 /\
       FinanceFact.reference_number f = ("REF" +:+ Text.str n)) /\
    let k := if bool_decide (Department.department_name department
                               ∈ ["Finance"; "Administration"]%string)
             then (15 # 10)%Q else 1%Q in
    (Account.account_type account = "Expense"%string ->
     FinanceFact.transaction_type f = "Expense"%string /\
     (100 * k <= FinanceFact.amount f)%Q /\ (FinanceFact.amount f <= 20000 * k)%Q) /\
    (Account.account_type account <> "Expense"%string ->
     FinanceFact.transaction_type f = "Revenue"%string /\
     (1000 * k <= FinanceFact.amount f)%Q /\ (FinanceFact.amount f <= 50000 * k)%Q).
Proof.
  unfold finance_record. intros H.
  apply bind_Some in H as (account & g1 & Ha & H).
  apply bind_Some in H as (department & g2 & Hd & H).
  apply bind_Some in H as (vendor & g3 & Hv & H).
  apply bind_Some in H as (date & g4 & Hdate & H).
  apply bind_Some in H as (u & g5 & Hu & H).
  apply bind_Some in H as (n & g6 & Hn & H).
  inversion H; subst; clear H.
  apply random_choice_In in Ha. apply random_choice_In in Hd.
  apply random_choice_In in Hv. apply random_randint_range in Hn.
  exists account, department, vendor, date.
  cbn [FinanceFact.account_id FinanceFact.department_id FinanceFact.vendor_id
       FinanceFact.date_key FinanceFact.description FinanceFact.reference_number
       FinanceFact.transaction_type FinanceFact.amount].
  assert (Hdt : In date dates /\
                (valid_dates dates <> [] ->
                 exists y, DateYear.year date = Some y /\ 2020 <= y)).
  { destruct (valid_dates dates) as [| v vs] eqn:Hvd.
    - apply random_choice_In in Hdate. split; [exact Hdate | congruence].
    - apply random_choice_In in Hdate. rewrite <- Hvd in Hdate.
      unfold valid_dates in Hdate. apply filter_In in Hdate as [Hin Hy].
      split; [exact Hin |]. intros _.
      destruct (DateYear.year date) as [y |]; [| discriminate].
      exists y. split; [reflexivity |]. now apply Z.leb_le. }
  destruct Hdt as [Hdin Hyear].
  repeat (split; [first [assumption | reflexivity] |]).
  split; [exists n; split; [exact Hn | reflexivity] |].
  unfold transaction_type_of in *. unfold department_factor.
  split.
  - intros He.
    assert (E : bool_decide (Account.account_type account = "Expense"%string) = true)
      by (apply bool_decide_eq_true_2; exact He).
    rewrite E in *. rewrite bool_decide_eq_false_2 in Hu by discriminate.
    split; [reflexivity |].
    apply random_uniform_range in Hu; [| lra].
    destruct (py_round_bounds 100 20000 u 2) as [H1 H2]; [apply Hu | apply Hu |].
    change (inject_Z 100) with 100%Q in H1. change (inject_Z 20000) with 20000%Q in H2.
    destruct (bool_decide (Department.department_name department ∈ _)); split; lra.
  - intros He.
    assert (E : bool_decide (Account.account_type account = "Expense"%string) = false)
      by (apply bool_decide_eq_false_2; exact He).
    rewrite E in *. rewrite bool_decide_eq_true_2 in Hu by reflexivity.
    split; [reflexivity |].
    apply random_uniform_range in Hu; [| lra].
    destruct (py_round_bounds 1000 50000 u 2) as [H1 H2]; [apply Hu | apply Hu |].
    change (inject_Z 1000) with 1000%Q in H1. change (inject_Z 50000) with 50000%Q in H2.
    destruct (bool_decide (Department.department_name department ∈ _)); split; lra.
Qed.

Lemma finance_record_total (accounts : list Account.t) (departments : list Department.t)
    (vendors : list Vendor.t) (dates : list DateYear.t) (g : Rng.rng) :
  accounts <> [] -> departments <> [] -> vendors <> [] -> dates <> [] ->
  exists f g', finance_record accounts departments vendors dates g = Some (f, g').
Proof.
  intros Ha Hd Hv Hdt. unfold finance_record.
  destruct (random_choice_nonempty accounts g Ha) as (account & g1 & H1).
  unfold Rng.bind at 1. rewrite H1.
  destruct (random_choice_nonempty departments g1 Hd) as (department & g2 & H2).
  unfold Rng.bind at 1. rewrite H2.
  destruct (random_choice_nonempty vendors g2 Hv) as (vendor & g3 & H3).
  unfold Rng.bind at 1. rewrite H3.
  assert (H4 : exists date g4,
             match valid_dates dates with
             | [] => Rng.random_choice dates
             | _ => Rng.random_choice (valid_dates dates)
             end g3 = Some (date, g4)).
  { destruct (valid_dates dates) as [| v vs] eqn:Hvd.
    - now apply random_choice_nonempty.
    - apply random_choice_nonempty. discriminate. }
  destruct H4 as (date & g4 & H4).
  unfold Rng.bind at 1. rewrite H4.
  unfold Rng.bind, Rng.random_uniform, Rng.random_random, Rng.bind, Rng.next_raw,
    Rng.random_randint, Rng.ret.
  destruct (bool_decide (transaction_type_of account = "Revenue"%string));
    simpl; eexists _, _; reflexivity.
Qed.

(** X19. The finance part appends exactly 2000 facts.  Each references an
    account, a department, a vendor and a date of the tables read, the
    date being of a year from 2020 on whenever the date table has one.
    The fact is an Expense with an amount in [100, 20000] when the account
    type is Expense, else a Revenue with an amount in [1000, 50000]; for
    the departments Finance and Administration both bounds are multiplied
    by 1.5.  The reference is REF followed by a number of five digits. *)
Theorem finance_facts_rows (accounts : list Account.t) (departments : list Department.t)
    (vendors : list Vendor.t) (dates : list DateYear.t) (g g' : Rng.rng)
    (rows : list FinanceFact.t) :
  finance_facts accounts departments vendors dates g = Some (rows, g') ->
  length rows = 2000%nat /\
  Forall (fun f =>
    exists account department vendor date,
      In account accounts /\ In department departments /\ In vendor vendors /\
      In date dates /\
      FinanceFact.account_id f = Account.account_id account /\
      FinanceFact.department_id f = Department.department_id department /\
      FinanceFact.vendor_id f = Vendor.vendor_id vendor /\
      FinanceFact.date_key f = DateYear.date_key date /\
      (valid_dates dates <> [] -> exists y, DateYear.year date = Some y /\ 2020 <= y) /\
      FinanceFact.description f =
        (FinanceFact.transaction_type f +:+ " for " +:+ Account.category account
           +:+ " - " +:+ Vendor.vendor_name vendor) /\
      (exists n, 10000 <= n <= 99999 /\
         FinanceFact.reference_number f = ("REF" +:+ Text.str n)) /\
      let k := if bool_decide (Department.department_name department
                                 ∈ ["Finance"; "Administration"]%string)
               then (15 # 10)%Q else 1%Q in
      (Account.account_type account = "Expense"%string ->
       FinanceFact.transaction_type f = "Expense"%string /\
       (100 * k <= FinanceFact.amount f)%Q /\ (FinanceFact.amount f <= 20000 * k)%Q) /\
      (Account.account_type account <> "Expense"%string ->
       FinanceFact.transaction_type f = "Revenue"%string /\
       (1000 * k <= FinanceFact.amount f)%Q /\ (FinanceFact.amount f <= 50000 * k)%Q))
    rows.
Proof.
  unfold finance_facts. intros H. apply repeatM_spec in H as [Hlen HF].
  split; [exact Hlen |].
  eapply Forall_impl; [exact HF |].
  intros f (g1 & g2 & Hf). now apply finance_record_spec in Hf.
Qed.

Lemma finance_facts_rows_witness :
  finance_facts Samples.sample_accounts Samples.sample_departments Samples.sample_vendors
    Samples.sample_date_years Samples.counting
    = Some (Samples.finance_rows, Samples.finance_rng) /\
  length Samples.finance_rows = 2000%nat.
Proof.
  split; [vm_compute; reflexivity |].
  apply (finance_facts_rows Samples.sample_accounts Samples.sample_departments
           Samples.sample_vendors Samples.sample_date_years Samples.counting
           Samples.finance_rng Samples.finance_rows).
  vm_compute; reflexivity.
Defined.

(** X20. The finance part returns exactly when the account, department,
    vendor and date tables all have a row; with an empty table the first
    draw from it raises and no finance fact is written. *)
Theorem finance_facts_return_iff (accounts : list Account.t)
    (departments : list Department.t) (vendors : list Vendor.t)
    (dates : list DateYear.t) (g : Rng.rng) :
  (exists rows g', finance_facts accounts departments vendors dates g = Some (rows, g')) <->
  accounts <> [] /\ departments <> [] /\ vendors <> [] /\ dates <> [].
Proof.
  split.
  - intros (rows & g' & H). unfold finance_facts in H.
    change FINANCE_ROWS with (S 1999) in H.
    apply repeatM_first in H as (f & g1 & Hf).
    apply finance_record_spec in Hf
      as (account & department & vendor & date & Ha & Hd & Hv & Hdt & _).
    repeat split; intros ->; contradiction.
  - intros (Ha & Hd & Hv & Hdt). unfold finance_facts.
    apply repeatM_total. intros g0. now apply finance_record_total.
Qed.

End FinanceFacts.


(* ===================================================================== *)
(** * gd.py: the generated date dimension as a whole                      *)
(* ===================================================================== *)

Section GeneratedDates.

Import DateDim.

(** The key grows along [d + timedelta(days=1)]. *)
Lemma date_key_succ_lt (d s : date) :
  valid_date d = true -> date_succ d = Some s -> date_key d < date_key s.
Proof.
  intros Hv Hs. pose proof (date_succ_valid d s Hv Hs) as Hvs.
  apply valid_date_spec in Hv as (Hy & Hm & Hd).
  apply valid_date_spec in Hvs as (Hy' & Hm' & Hd').
  pose proof (days_in_month_bounds (year d) (month d)) as Hb.
  pose proof (days_in_month_bounds (year s) (month s)) as Hb'.
  rewrite !date_key_value by lia.
  apply date_succ_cases in Hs as [[H1 ->] | [(H1 & H2 & ->) | (H1 & H2 & H3 & ->)]];
    simpl in *; lia.
Qed.

Lemma date_loop_increasing (fuel : nat) (d end_ : date) (rows : list date_row) :
  valid_date d = true -> date_loop fuel d end_ = Some rows ->
  Forall (fun r => date_key d <= r_date_key r) rows /\
  (forall i j ri rj, rows !! i = Some ri -> rows !! j = Some rj -> (i < j)%nat ->
                     r_date_key ri < r_date_key rj).
Proof.
  revert d rows. induction fuel as [| f IH]; intros d rows Hv Hl; simpl in Hl.
  - discriminate.
  - destruct (date_leb d end_).
    2:{ inversion Hl; subst. split; [constructor |]. intros i j ri rj Hi. discriminate Hi. }
    destruct (date_succ d) as [d' |] eqn:Hs; [| discriminate].
    destruct (date_loop f d' end_) as [rs |] eqn:Hr; [| discriminate].
    inversion Hl; subst; clear Hl.
    pose proof (date_key_succ_lt d d' Hv Hs) as Hlt.
    destruct (IH d' rs (date_succ_valid d d' Hv Hs) Hr) as [Hge Hincr].
    split.
    + constructor; [simpl; lia |].
      eapply Forall_impl; [exact Hge |]. simpl. intros r Hr'. lia.
    + intros i j ri rj Hi Hj Hij. destruct j as [| j]; [lia |].
      simpl in Hj. destruct i as [| i].
      * simpl in Hi. inversion Hi; subst. simpl.
        rewrite Forall_lookup in Hge. specialize (Hge j rj Hj). simpl in Hge. lia.
      * simpl in Hi. apply (Hincr i j ri rj Hi Hj). lia.
Qed.

(** The last row written is the row of the end date. *)
Lemma date_loop_last (fuel : nat) (d end_ : date) (rows : list date_row) :
  valid_date d = true -> valid_date end_ = true -> date_leb d end_ = true ->
  date_loop fuel d end_ = Some rows -> last rows = Some (make_row end_).
Proof.
  revert d rows. induction fuel as [| f IH]; intros d rows Hv Hve Hle Hl; simpl in Hl.
  - discriminate.
  - rewrite Hle in Hl.
    destruct (date_succ d) as [d' |] eqn:Hs; [| discriminate].
    destruct (date_loop f d' end_) as [rs |] eqn:Hr; [| discriminate].
    inversion Hl; subst; clear Hl.
    destruct (date_leb d' end_) eqn:Hle'.
    + pose proof (IH d' rs (date_succ_valid d d' Hv Hs) Hve Hle' Hr) as Hlast.
      destruct rs as [| r rs']; [discriminate Hlast | exact Hlast].
    + assert (Hed : date_leb end_ d = true).
      { destruct (date_leb end_ d) eqn:E; [reflexivity |].
        rewrite (date_succ_least d d' end_ Hv Hve Hs E) in Hle'. discriminate. }
      pose proof (date_leb_antisym d end_ Hle Hed) as ->.
      destruct f as [| f']; [discriminate Hr |].
      simpl in Hr. rewrite Hle' in Hr. inversion Hr; subst. reflexivity.
Qed.

(** X21. The date generator, given a date of the years 5 to 9998 and
    enough iterations, returns 1096 rows: the first is the row of the day
    1095 days before today, the last the row of today, and the date keys
    grow strictly from row to row, so that no key occurs twice. *)
Theorem generated_dates_increasing (fuel : nat) (today : date) :
  valid_date today = true -> 5 <= year today < MAXYEAR -> (1097 <= fuel)%nat ->
  exists start rows,
    date_sub_days (365 * 3) today = Some start /\
    generate_dates fuel today = Some rows /\
    length rows = 1096%nat /\
    head rows = Some (make_row start) /\
    last rows = Some (make_row today) /\
    (forall i j ri rj, rows !! i = Some ri -> rows !! j = Some rj -> (i < j)%nat ->
                       r_date_key ri < r_date_key rj) /\
    NoDup (map r_date_key rows).
Proof.
  intros Hv Hy Hfuel.
  destruct (generate_dates_total fuel today Hv Hy Hfuel) as (rows & Hg & Hlen).
  pose proof Hg as Hg'. unfold generate_dates in Hg'.
  destruct (date_sub_days (365 * 3) today) as [start |] eqn:Hstart; [| discriminate].
  pose proof (date_sub_days_valid _ _ _ Hv Hstart) as Hvs.
  pose proof (date_sub_days_le _ _ _ Hv Hstart) as Hle.
  destruct (date_loop_increasing fuel start today rows Hvs Hg') as [_ Hincr].
  exists start, rows. split; [reflexivity |]. split; [exact Hg |].
  split; [exact Hlen |]. split; [| split; [| split; [exact Hincr |]]].
  - destruct fuel as [| f]; [discriminate Hg' |]. simpl in Hg'. rewrite Hle in Hg'.
    destruct (date_succ start) as [d' |]; [| discriminate].
    destruct (date_loop f d' today) as [rs |]; [| discriminate].
    inversion Hg'; subst. reflexivity.
  - exact (date_loop_last fuel start today rows Hvs Hv Hle Hg').
  - apply NoDup_alt. intros i j k Hi Hj.
    rewrite list_lookup_fmap in Hi, Hj.
    destruct (rows !! i) as [ri |] eqn:Eri; [| discriminate].
    destruct (rows !! j) as [rj |] eqn:Erj; [| discriminate].
    simpl in Hi, Hj. inversion Hi; subst. inversion Hj as [Hk].
    destruct (Nat.lt_trichotomy i j) as [Hlt | [Heq | Hgt]]; [| exact Heq |].
    + pose proof (Hincr i j ri rj Eri Erj Hlt). lia.
    + pose proof (Hincr j i rj ri Erj Eri Hgt). lia.
Qed.

Lemma generated_dates_increasing_witness :
  valid_date Samples.run_day = true /\ 5 <= year Samples.run_day < MAXYEAR /\
  (1097 <= 1100)%nat /\
  length Samples.generated = 1096%nat /\
  exists start rows,
    date_sub_days (365 * 3) Samples.run_day = Some start /\
    generate_dates 1100 Samples.run_day = Some rows /\
    length rows = 1096%nat /\
    head rows = Some (make_row start) /\
    last rows = Some (make_row Samples.run_day) /\
    (forall i j ri rj, rows !! i = Some ri -> rows !! j = Some rj -> (i < j)%nat ->
                       r_date_key ri < r_date_key rj) /\
    NoDup (map r_date_key rows).
Proof.
  split; [reflexivity |]. split; [vm_compute; split; [discriminate | reflexivity] |].
  split; [lia |]. split; [vm_compute; reflexivity |].
  apply (generated_dates_increasing 1100 Samples.run_day).
  - reflexivity.
  - vm_compute. split; [discriminate | reflexivity].
  - lia.
Defined.

End GeneratedDates.


(* ===================================================================== *)
(** * gd.py, then the transformer: generated courses and accounts         *)
(* ===================================================================== *)

Section GeneratedCourses.

Import Transformer Cleaning Generator.

(** Rows with distinct keys have no duplicate to drop. *)
Lemma drop_duplicates_from_id {T : Type} (key : T -> Z) (seen : gset Z) (l : list T) :
  NoDup (map key l) -> (forall x, In x l -> key x ∉ seen) ->
  drop_duplicates_from key seen l = l.
Proof.
  revert seen. induction l as [| x xs IH]; intros seen Hnd Hseen; simpl; [reflexivity |].
  simpl in Hnd. apply NoDup_cons in Hnd as [Hx Hnd].
  rewrite bool_decide_eq_false_2 by (apply Hseen; now left).
  f_equal. apply IH; [exact Hnd |].
  intros y Hy. rewrite elem_of_union, elem_of_singleton. intros [Heq | Hin].
  - apply Hx. rewrite <- Heq. apply list_elem_of_In. now apply in_map.
  - apply (Hseen y); [now right | exact Hin].
Qed.

Lemma drop_duplicates_id {T : Type} (key : T -> Z) (l : list T) :
  NoDup (map key l) -> drop_duplicates key l = l.
Proof.
  intros Hnd. apply drop_duplicates_from_id; [exact Hnd |].
  intros x _. apply not_elem_of_empty.
Qed.

(** Every code the generator can write is already clean and has a number
    below 200. *)
Lemma generated_codes_clean :
  Forall (fun i =>
    Forall (fun dept =>
      let code := (Text.upper (Text.prefix_of 3 dept) +:+ Text.str (100 + i))%string in
      clean_course_code (Some code) = code /\
      extract_course_level code = Some "Introductory"%string)
      (take 5 departments_data))
    (seqZ 1 F_COURSES).
Proof.
  assert (Hb : forallb (fun i =>
                 forallb (fun dept =>
                   let code :=
                     (Text.upper (Text.prefix_of 3 dept) +:+ Text.str (100 + i))%string in
                   String.eqb (clean_course_code (Some code)) code &&
                   match extract_course_level code with
                   | Some level => String.eqb level "Introductory"
                   | None => false
                   end)
                   (take 5 departments_data))
                 (seqZ 1 F_COURSES) = true) by (vm_compute; reflexivity).
  rewrite forallb_forall in Hb. apply List.Forall_forall. intros i Hi.
  specialize (Hb i Hi). rewrite forallb_forall in Hb.
  apply List.Forall_forall. intros dept Hd. specialize (Hb dept Hd).
  cbv zeta in Hb |- *. apply andb_true_iff in Hb as [H1 H2].
  apply String.eqb_eq in H1. split; [exact H1 |].
  destruct (extract_course_level _) as [level |]; [| discriminate].
  apply String.eqb_eq in H2. now rewrite H2.
Qed.

Lemma generate_course_spec (i : Z) (g g' : Rng.rng) (r : RawCourse.t) :
  In i (seqZ 1 F_COURSES) ->
  generate_course i g = Some (r, g') ->
  RawCourse.course_id r = i /\
  exists code h,
    RawCourse.course_code r = Some code /\ RawCourse.credit_hours r = Some h /\
    h ∈ [2; 3; 4] /\
    clean_course_code (Some code) = code /\
    extract_course_level code = Some "Introductory"%string.
Proof.
  intros Hi H. unfold generate_course in H.
  apply bind_Some in H as (dept & g1 & Hd & H).
  apply bind_Some in H as (h & g2 & Hh & H).
  inversion H; subst; clear H. simpl. split; [reflexivity |].
  apply random_choice_In in Hd. apply random_choice_In in Hh.
  pose proof generated_codes_clean as Hall.
  rewrite List.Forall_forall in Hall. specialize (Hall i Hi).
  rewrite List.Forall_forall in Hall. specialize (Hall dept Hd).
  destruct Hall as [Hclean Hlevel].
  eexists _, h. split; [reflexivity |]. split; [reflexivity |].
  split; [now apply list_elem_of_In |]. split; [exact Hclean | exact Hlevel].
Qed.

(** X22. Generator, then transformer, on the courses.  The generator
    never raises and writes the courses 1 to 60.  Cleaning what it wrote
    draws nothing and changes nothing: no row is dropped, every code and
    every credit-hours value is kept, and every course is classified
    Introductory, the codes being numbered 101 to 160. *)
Theorem generated_courses_introductory (g : Rng.rng) :
  exists rows g',
    generate_courses g = Some (rows, g') /\
    map RawCourse.course_id rows = seqZ 1 60 /\
    forall g2, exists cleaned,
      transform_courses rows g2 = Some (cleaned, g2) /\
      Forall2 (fun r c =>
                 CleanCourse.course_id c = RawCourse.course_id r /\
                 Some (CleanCourse.course_code c) = RawCourse.course_code r /\
                 Some (CleanCourse.credit_hours c) = RawCourse.credit_hours r /\
                 CleanCourse.course_level c = "Introductory"%string)
              rows cleaned.
Proof.
  destruct (mapM_total generate_course (seqZ 1 F_COURSES) g) as (rows & g' & Hm).
  { intros i g0 _. unfold generate_course.
    destruct (random_choice_nonempty (take 5 departments_data) g0) as (d & g1 & Hd);
      [discriminate |].
    unfold Rng.bind at 1. rewrite Hd.
    destruct (random_choice_nonempty [2; 3; 4] g1) as (h & g2 & Hh); [discriminate |].
    unfold Rng.bind at 1. rewrite Hh. eexists _, _. reflexivity. }
  exists rows, g'. split; [exact Hm |].
  assert (Hids : map RawCourse.course_id rows = seqZ 1 F_COURSES).
  { rewrite <- (map_id (seqZ 1 F_COURSES)).
    eapply mapM_map; [| exact Hm]. intros i ga r gb H. unfold generate_course in H.
    apply bind_Some in H as (dept & g1 & _ & H).
    apply bind_Some in H as (h & g2 & _ & H).
    inversion H; subst. reflexivity. }
  split; [exact Hids |].
  assert (Hok : Forall (fun r => exists code h,
                   RawCourse.course_code r = Some code /\
                   RawCourse.credit_hours r = Some h /\ h ∈ [2; 3; 4] /\
                   clean_course_code (Some code) = code /\
                   extract_course_level code = Some "Introductory"%string) rows).
  { apply List.Forall_forall. intros r Hr.
    destruct (mapM_In _ _ _ _ _ _ Hm Hr) as (i & ga & gb & Hi & Hgen).
    now apply generate_course_spec in Hgen as [_ Hspec]. }
  intros g2.
  assert (Hclean : exists cleaned,
             Rng.mapM clean_course rows g2 = Some (cleaned, g2) /\
             Forall2 (fun r c =>
                 CleanCourse.course_id c = RawCourse.course_id r /\
                 Some (CleanCourse.course_code c) = RawCourse.course_code r /\
                 Some (CleanCourse.credit_hours c) = RawCourse.credit_hours r /\
                 CleanCourse.course_level c = "Introductory"%string) rows cleaned).
  { clear -Hok. induction Hok as [| r rs Hr Hok IH].
    - exists []. split; [reflexivity | constructor].
    - destruct IH as (cs & Hcs & HF).
      destruct Hr as (code & h & Hcode & Hh & Hin & Hclean & Hlevel).
      exists (CleanCourse.mk (RawCourse.course_id r) code h "Introductory" :: cs).
      split.
      + simpl. unfold Rng.bind at 1. unfold clean_course at 1.
        rewrite Hh, Hcode, Hclean, Hlevel. unfold fix_credit_hours.
        rewrite bool_decide_eq_true_2 by exact Hin.
        unfold Rng.bind at 1. unfold Rng.lift at 1.
        unfold Rng.bind at 1. unfold Rng.ret at 1.
        unfold Rng.ret at 1. unfold Rng.bind at 1. rewrite Hcs.
        reflexivity.
      + constructor; [| exact HF]. simpl. rewrite Hcode, Hh. auto. }
  destruct Hclean as (cleaned & Hcleaned & HF).
  exists cleaned. split; [| exact HF].
  unfold transform_courses, Rng.bind. rewrite Hcleaned.
  rewrite drop_duplicates_id; [reflexivity |].
  assert (Hc : map CleanCourse.course_id cleaned = map RawCourse.course_id rows).
  { clear -HF. induction HF as [| r c rs cs Hrc HF IH]; [reflexivity |].
    simpl. rewrite IH. f_equal. tauto. }
  rewrite Hc, Hids. apply NoDup_seqZ.
Qed.

(** X23. Generator, then transformer, on the accounts.  The generator
    never raises and writes the accounts 1 to 20, each with one of the
    five account types that the transformer accepts, so that the account
    cleaning leaves every generated row as it is. *)
Theorem generated_accounts_unchanged (g : Rng.rng) :
  exists rows g',
    generate_accounts g = Some (rows, g') /\
    map RawAccount.account_id rows = seqZ 1 20 /\
    Forall2 (fun r a =>
               Account.account_id a = RawAccount.account_id r /\
               Some (Account.account_type a) = RawAccount.account_type r /\
               Account.category a = RawAccount.category r /\
               RawAccount.category r ∈ account_categories)
            rows (transform_accounts rows).
Proof.
  destruct (mapM_total generate_account (seqZ 1 F_ACCOUNTS) g) as (rows & g' & Hm).
  { intros i g0 _. unfold generate_account.
    destruct (random_choice_nonempty account_categories g0) as (c & g1 & Hc);
      [discriminate |].
    unfold Rng.bind at 1. rewrite Hc.
    destruct (random_choice_nonempty account_types g1) as (t & g2 & Ht); [discriminate |].
    unfold Rng.bind at 1. rewrite Ht.
    destruct (random_choice_nonempty account_categories g2) as (c2 & g3 & Hc2);
      [discriminate |].
    unfold Rng.bind at 1. rewrite Hc2. eexists _, _. reflexivity. }
  exists rows, g'. split; [exact Hm |].
  assert (Hspec : forall i r ga gb, generate_account i ga = Some (r, gb) ->
             RawAccount.account_id r = i /\
             (exists t, RawAccount.account_type r = Some t /\ t ∈ valid_account_types) /\
             RawAccount.category r ∈ account_categories).
  { intros i r ga gb H. unfold generate_account in H.
    apply bind_Some in H as (c & g1 & _ & H).
    apply bind_Some in H as (t & g2 & Ht & H).
    apply bind_Some in H as (c2 & g3 & Hc2 & H).
    inversion H; subst; clear H. simpl.
    apply random_choice_In in Ht. apply random_choice_In in Hc2.
    split; [reflexivity |]. split; [| now apply list_elem_of_In].
    exists t. split; [reflexivity |]. now apply list_elem_of_In. }
  split.
  - change 20 with F_ACCOUNTS. rewrite <- (map_id (seqZ 1 F_ACCOUNTS)).
    eapply mapM_map; [| exact Hm]. intros i ga r gb H. now apply Hspec in H.
  - apply mapM_Forall2 in Hm. unfold transform_accounts.
    induction Hm as [| i r ids rs Hir HF IH]; simpl; constructor; [| exact IH].
    destruct Hir as (ga & gb & Hir).
    apply Hspec in Hir as (_ & (t & Ht & Hin) & Hcat). simpl.
    rewrite Ht. unfold fix_account_type. rewrite bool_decide_eq_true_2 by exact Hin. auto.
Qed.

End GeneratedCourses.


(* ===================================================================== *)
(** * gd.py: the generated employees and their managers                   *)
(* ===================================================================== *)

Section GeneratedEmployees.

Import PyNum Transformer Generator.

Lemma generate_employee_spec (hire_date : Z -> Z) (i : Z) (g g' : Rng.rng)
    (r : Employee.csv) (b : bool) :
  generate_employee hire_date i g = Some ((r, b), g') ->
  Employee.csv_employee_id r = i /\
  1 <= Employee.csv_department_id r <= 8 /\
  (exists t, Employee.csv_job_title r = Some t /\ t ∈ job_titles) /\
  (exists q, Employee.csv_salary r = Employee.Number (Fin q) /\
             (30000 <= q)%Q /\ (q <= 120000)%Q) /\
  Employee.csv_hire_date r = Some (hire_date i) /\
  Employee.csv_manager_id r = None.
Proof.
  unfold generate_employee. intros H.
  apply bind_Some in H as (dept & g1 & Hdept & H).
  apply bind_Some in H as (u & g2 & _ & H).
  apply bind_Some in H as (title & g3 & Htitle & H).
  apply bind_Some in H as (salary & g4 & Hsal & H).
  apply bind_Some in H as (etype & g5 & _ & H).
  apply bind_Some in H as (ben & g6 & _ & H).
  inversion H; subst; clear H. simpl.
  apply random_randint_range in Hdept. apply random_choice_In in Htitle.
  apply random_uniform_range in Hsal; [| lra].
  split; [reflexivity |]. split; [exact Hdept |].
  split; [exists title; split; [reflexivity | now apply list_elem_of_In] |].
  split; [| split; reflexivity].
  eexists. split; [reflexivity |].
  apply (py_round_bounds 30000 120000); apply Hsal.
Qed.

Lemma random_random_total (g : Rng.rng) :
  exists u g', Rng.random_random g = Some (u, g').
Proof. unfold Rng.random_random, Rng.bind, Rng.next_raw, Rng.ret. eauto. Qed.

Lemma random_uniform_total (a b : Q) (g : Rng.rng) :
  exists u g', Rng.random_uniform a b g = Some (u, g').
Proof.
  unfold Rng.random_uniform, Rng.random_random, Rng.bind, Rng.next_raw, Rng.ret. eauto.
Qed.

Lemma generate_employee_total (hire_date : Z -> Z) (i : Z) (g : Rng.rng) :
  exists p g', generate_employee hire_date i g = Some (p, g').
Proof.
  unfold generate_employee.
  destruct (random_randint_total 1 F_DEPARTMENTS g) as (d & g1 & H1);
    [unfold F_DEPARTMENTS; lia |].
  unfold Rng.bind at 1. rewrite H1.
  destruct (random_random_total g1) as (u & g2 & H2).
  unfold Rng.bind at 1. rewrite H2.
  destruct (random_choice_nonempty job_titles g2) as (t & g3 & H3); [discriminate |].
  unfold Rng.bind at 1. rewrite H3.
  destruct (random_uniform_total 30000 120000 g3) as (s & g4 & H4).
  unfold Rng.bind at 1. rewrite H4.
  destruct (random_choice_nonempty employment_types g4) as (e & g5 & H5);
    [discriminate |].
  unfold Rng.bind at 1. rewrite H5.
  destruct (random_choice_nonempty [true; false] g5) as (b & g6 & H6); [discriminate |].
  unfold Rng.bind at 1. rewrite H6. eexists _, _. reflexivity.
Qed.

Lemma set_manager_spec (manager_ids : list Z) (e r : Employee.csv) (g g' : Rng.rng) :
  set_manager manager_ids e g = Some (r, g') ->
  Employee.csv_employee_id r = Employee.csv_employee_id e /\
  Employee.csv_department_id r = Employee.csv_department_id e /\
  Employee.csv_job_title r = Employee.csv_job_title e /\
  Employee.csv_salary r = Employee.csv_salary e /\
  Employee.csv_hire_date r = Employee.csv_hire_date e /\
  (In (Employee.csv_employee_id e) manager_ids ->
   Employee.csv_manager_id r = Employee.csv_manager_id e) /\
  (Employee.csv_manager_id r = Employee.csv_manager_id e \/
   exists m, Employee.csv_manager_id r = Some m /\ In m manager_ids /\
             ~ In (Employee.csv_employee_id e) manager_ids).
Proof.
  unfold set_manager. intros H.
  destruct (bool_decide (Employee.csv_employee_id e ∉ manager_ids)) eqn:E1.
  2:{ simpl in H. inversion H; subst. repeat (split; [reflexivity |]). auto. }
  apply bool_decide_eq_true in E1.
  destruct (bool_decide (manager_ids <> [])) eqn:E2.
  2:{ simpl in H. inversion H; subst. repeat (split; [reflexivity |]). auto. }
  simpl in H. apply bind_Some in H as (m & g1 & Hm & H).
  inversion H; subst; clear H. simpl. apply random_choice_In in Hm.
  repeat (split; [reflexivity |]). split.
  - intros Hin. exfalso. apply E1. now apply list_elem_of_In.
  - right. exists m. split; [reflexivity |]. split; [exact Hm |].
    intros Hin. apply E1. now apply list_elem_of_In.
Qed.

Lemma set_manager_total (manager_ids : list Z) (e : Employee.csv) (g : Rng.rng) :
  exists r g', set_manager manager_ids e g = Some (r, g').
Proof.
  unfold set_manager.
  destruct (bool_decide (Employee.csv_employee_id e ∉ manager_ids)).
  2:{ eexists _, _. reflexivity. }
  destruct (bool_decide (manager_ids <> [])) eqn:E2.
  2:{ eexists _, _. reflexivity. }
  apply bool_decide_eq_true in E2. simpl.
  destruct (random_choice_nonempty manager_ids g E2) as (m & g1 & Hm).
  unfold Rng.bind. rewrite Hm. eexists _, _. reflexivity.
Qed.

Lemma Forall2_In_l {S T : Type} (R : S -> T -> Prop) (l : list S) (l' : list T) (x : S) :
  Forall2 R l l' -> In x l -> exists y, In y l' /\ R x y.
Proof.
  intros HF. induction HF as [| a b l0 l1 Hab HF IH]; intros Hx; [destruct Hx |].
  destruct Hx as [-> | Hx]; [exists b; split; [now left | exact Hab] |].
  destruct (IH Hx) as (y & Hy & Hr). exists y. split; [now right | exact Hr].
Qed.

Lemma Forall2_In_r {S T : Type} (R : S -> T -> Prop) (l : list S) (l' : list T) (y : T) :
  Forall2 R l l' -> In y l' -> exists x, In x l /\ R x y.
Proof.
  intros HF. induction HF as [| a b l0 l1 Hab HF IH]; intros Hy; [destruct Hy |].
  destruct Hy as [-> | Hy]; [exists a; split; [now left | exact Hab] |].
  destruct (IH Hy) as (x & Hx & Hr). exists x. split; [now right | exact Hr].
Qed.

(** What [generate_employees] returns, row by row. *)
Lemma generate_employees_rows (hire_date : Z -> Z) (g g' : Rng.rng)
    (rows : list Employee.csv) :
  generate_employees hire_date g = Some (rows, g') ->
  map Employee.csv_employee_id rows = seqZ 1 F_EMPLOYEES /\
  Forall (fun r =>
    1 <= Employee.csv_department_id r <= 8 /\
    (exists t, Employee.csv_job_title r = Some t /\ t ∈ job_titles) /\
    (exists q, Employee.csv_salary r = Employee.Number (Fin q) /\
               (30000 <= q)%Q /\ (q <= 120000)%Q) /\
    Employee.csv_hire_date r = Some (hire_date (Employee.csv_employee_id r))) rows /\
  (forall r m, In r rows -> Employee.csv_manager_id r = Some m ->
     m <> Employee.csv_employee_id r /\
     exists r', In r' rows /\ Employee.csv_employee_id r' = m /\
                Employee.csv_manager_id r' = None).
Proof.
  unfold generate_employees. intros H.
  apply bind_Some in H as (drawn & g1 & Hdrawn & Hrows).
  set (mids := map (fun p => Employee.csv_employee_id (fst p)) (List.filter snd drawn))
    in Hrows.
  assert (Hgen : forall e, In e (map fst drawn) ->
             1 <= Employee.csv_department_id e <= 8 /\
             (exists t, Employee.csv_job_title e = Some t /\ t ∈ job_titles) /\
             (exists q, Employee.csv_salary e = Employee.Number (Fin q) /\
                        (30000 <= q)%Q /\ (q <= 120000)%Q) /\
             Employee.csv_hire_date e = Some (hire_date (Employee.csv_employee_id e)) /\
             Employee.csv_manager_id e = None).
  { intros e He. apply in_map_iff in He as ([e0 b] & <- & He).
    destruct (mapM_In _ _ _ _ _ _ Hdrawn He) as (i & ga & gb & _ & Hg).
    apply generate_employee_spec in Hg as (Hid & Hrest). simpl. rewrite Hid. tauto. }
  assert (Hids : map Employee.csv_employee_id (map fst drawn) = seqZ 1 F_EMPLOYEES).
  { rewrite map_map. rewrite <- (map_id (seqZ 1 F_EMPLOYEES)).
    eapply mapM_map; [| exact Hdrawn]. intros i ga [e b] gb Hg.
    now apply generate_employee_spec in Hg as (Hid & _). }
  assert (Hmids : forall m, In m mids -> exists e, In e (map fst drawn) /\
                                                   Employee.csv_employee_id e = m).
  { intros m Hm. unfold mids in Hm. apply in_map_iff in Hm as (p & <- & Hp).
    apply filter_In in Hp as [Hp _]. exists (fst p). split; [now apply in_map | reflexivity]. }
  pose proof (mapM_Forall2 _ _ _ _ _ Hrows) as HF.
  assert (HF' : Forall2 (fun e r =>
                  Employee.csv_employee_id r = Employee.csv_employee_id e /\
                  Employee.csv_department_id r = Employee.csv_department_id e /\
                  Employee.csv_job_title r = Employee.csv_job_title e /\
                  Employee.csv_salary r = Employee.csv_salary e /\
                  Employee.csv_hire_date r = Employee.csv_hire_date e /\
                  (In (Employee.csv_employee_id e) mids ->
                   Employee.csv_manager_id r = Employee.csv_manager_id e) /\
                  (Employee.csv_manager_id r = Employee.csv_manager_id e \/
                   exists m, Employee.csv_manager_id r = Some m /\ In m mids /\
                             ~ In (Employee.csv_employee_id e) mids))
                (map fst drawn) rows).
  { eapply Forall2_impl; [exact HF |]. intros e r (ga & gb & Hset).
    now apply set_manager_spec in Hset. }
  clear HF Hrows Hdrawn.
  split; [| split].
  - rewrite <- Hids. clear -HF'.
    induction HF' as [| e r es rs Her HF IH]; [reflexivity |].
    simpl. rewrite IH. f_equal. tauto.
  - apply List.Forall_forall. intros r Hr.
    destruct (Forall2_In_r _ _ _ _ HF' Hr)
      as (e & He & Hid & Hdep & Htitle & Hsal & Hhire & _).
    destruct (Hgen e He) as (H1 & H2 & H3 & H4 & _).
    rewrite Hdep, Htitle, Hsal, Hhire, Hid. auto.
  - intros r m Hr Hman.
    destruct (Forall2_In_r _ _ _ _ HF' Hr) as (e & He & Hid & _ & _ & _ & _ & _ & Hcase).
    destruct (Hgen e He) as (_ & _ & _ & _ & Hnone).
    destruct Hcase as [Hsame | (m' & Hm' & Hin & Hnot)]; [congruence |].
    assert (m' = m) by congruence. subst m'.
    split; [intros ->; apply Hnot; now rewrite <- Hid |].
    destruct (Hmids m Hin) as (e' & He' & Hid').
    destruct (Forall2_In_l _ _ _ _ HF' He') as (r' & Hr' & Hid'' & _ & _ & _ & _ & Hkeep & _).
    exists r'. split; [exact Hr' |]. split; [congruence |].
    rewrite Hkeep by (now rewrite Hid').
    now destruct (Hgen e' He') as (_ & _ & _ & _ & Hn).
Qed.

Lemma generate_employees_total (hire_date : Z -> Z) (g : Rng.rng) :
  exists rows g', generate_employees hire_date g = Some (rows, g').
Proof.
  unfold generate_employees.
  destruct (mapM_total (generate_employee hire_date) (seqZ 1 F_EMPLOYEES) g)
    as (drawn & g1 & Hdrawn).
  { intros i g0 _. apply generate_employee_total. }
  unfold Rng.bind. rewrite Hdrawn.
  apply mapM_total. intros e g0 _. apply set_manager_total.
Qed.

(** X24. The employee generator never raises and writes the employees 1
    to 60: each with a department of 1 to 8, a job title of the list, a
    salary in [30000, 120000] and the hire date supplied for its id.  The
    managers form one level: a row that has a manager is not its own
    manager, and its manager is a row without manager. *)
Theorem generated_employees (hire_date : Z -> Z) (g : Rng.rng) :
  exists rows g',
    generate_employees hire_date g = Some (rows, g') /\
    map Employee.csv_employee_id rows = seqZ 1 60 /\
    Forall (fun r =>
      1 <= Employee.csv_department_id r <= 8 /\
      (exists t, Employee.csv_job_title r = Some t /\ t ∈ job_titles) /\
      (exists q, Employee.csv_salary r = Employee.Number (Fin q) /\
                 (30000 <= q)%Q /\ (q <= 120000)%Q) /\
      Employee.csv_hire_date r = Some (hire_date (Employee.csv_employee_id r))) rows /\
    (forall r m, In r rows -> Employee.csv_manager_id r = Some m ->
       m <> Employee.csv_employee_id r /\
       exists r', In r' rows /\ Employee.csv_employee_id r' = m /\
                  Employee.csv_manager_id r' = None).
Proof.
  destruct (generate_employees_total hire_date g) as (rows & g' & H).
  exists rows, g'. split; [exact H |].
  now apply generate_employees_rows in H.
Qed.

Lemma generate_departments_spec (g : Rng.rng) :
  exists departments g',
    generate_departments g = Some (departments, g') /\
    map Department.department_id departments = seqZ 1 F_DEPARTMENTS /\
    map Department.department_name departments = departments_data /\
    Forall (fun d => Department.manager_id d = None) departments.
Proof.
  assert (Hnames : Forall (fun i => is_Some (departments_data !! Z.to_nat (i - 1)))
                          (seqZ 1 F_DEPARTMENTS)).
  { repeat constructor; eexists; reflexivity. }
  destruct (mapM_total generate_department (seqZ 1 F_DEPARTMENTS) g)
    as (departments & g' & Hm).
  { intros i g0 Hi. rewrite List.Forall_forall in Hnames.
    destruct (Hnames i Hi) as (name & Hname). unfold generate_department.
    rewrite Hname. unfold Rng.bind, Rng.random_uniform, Rng.random_random, Rng.bind,
      Rng.next_raw, Rng.ret. eexists _, _. reflexivity. }
  exists departments, g'. split; [exact Hm |].
  assert (Hspec : forall i ga d gb, generate_department i ga = Some (d, gb) ->
             Department.department_id d = i /\
             departments_data !! Z.to_nat (i - 1) = Some (Department.department_name d) /\
             Department.manager_id d = None).
  { intros i ga d gb H. unfold generate_department in H.
    destruct (departments_data !! Z.to_nat (i - 1)) as [name |]; [| discriminate].
    apply bind_Some in H as (b & g1 & _ & H). inversion H; subst. auto. }
  split; [| split].
  - rewrite <- (map_id (seqZ 1 F_DEPARTMENTS)).
    eapply mapM_map; [| exact Hm]. intros i ga d gb H. now apply Hspec in H.
  - assert (Hn : map (fun d => Some (Department.department_name d)) departments
                 = map (fun i => departments_data !! Z.to_nat (i - 1))
                       (seqZ 1 F_DEPARTMENTS)).
    { eapply mapM_map; [| exact Hm]. intros i ga d gb H.
      apply Hspec in H as (_ & -> & _). reflexivity. }
    change (map (fun i => departments_data !! Z.to_nat (i - 1)) (seqZ 1 F_DEPARTMENTS))
      with (map Some departments_data) in Hn.
    clear -Hn. revert Hn. generalize departments_data.
    induction departments as [| d ds IH]; intros [| n ns] Hn; simpl in Hn;
      try discriminate; [reflexivity |].
    inversion Hn. simpl. f_equal. now apply IH.
  - apply List.Forall_forall. intros d Hd.
    destruct (mapM_In _ _ _ _ _ _ Hm Hd) as (i & ga & gb & _ & H).
    now apply Hspec in H.
Qed.

(** X25. Generator, then transformer, on departments and employees.
    Both generators return; the employee cleaning of what they wrote
    returns, drops no row and keeps every department reference, as the
    generated references are department ids; every cleaned salary is in
    the band of its job title; a missing manager becomes 0, and every
    generated department gets the manager id 0. *)
Theorem generated_employees_pass_cleaning (hire_date : Z -> Z) (c : clock)
    (gd ge g : Rng.rng) :
  exists departments gd' rows ge' out g',
    generate_departments gd = Some (departments, gd') /\
    generate_employees hire_date ge = Some (rows, ge') /\
    transform_employees c departments rows g = Some (out, g') /\
    map Employee.employee_id out = seqZ 1 60 /\
    map Employee.department_id out = map Employee.csv_department_id rows /\
    map Employee.manager_id out
      = map (fun r => default 0 (Employee.csv_manager_id r)) rows /\
    Forall (fun e =>
              float_in (inject_Z (fst (salary_band (Employee.job_title e))))
                       (inject_Z (snd (salary_band (Employee.job_title e))))
                       (Employee.salary e)) out /\
    map Department.department_name (Cleaning.clean_departments rows departments)
      = departments_data /\
    Forall (fun d => Department.manager_id d = Some 0)
           (Cleaning.clean_departments rows departments).
Proof.
  destruct (generate_departments_spec gd)
    as (departments & gd' & Hd & Hdids & Hdnames & Hdman).
  destruct (generate_employees_total hire_date ge) as (rows & ge' & He).
  pose proof (generate_employees_rows _ _ _ _ He) as (Hids & Hrows & Hman).
  assert (Hne : departments <> []).
  { intros ->. discriminate Hdids. }
  assert (Hfit : forall r, In r rows ->
             - 2 ^ 63 <= default 0 (Employee.csv_manager_id r) < 2 ^ 63).
  { intros r Hr. destruct (Employee.csv_manager_id r) as [m |] eqn:Em; simpl; [| lia].
    destruct (Hman r m Hr Em) as (_ & r' & Hr' & Hid & _).
    assert (Hin : In m (seqZ 1 F_EMPLOYEES)).
    { rewrite <- Hids, <- Hid. now apply in_map. }
    apply list_elem_of_In, elem_of_seqZ in Hin. unfold F_EMPLOYEES in Hin. lia. }
  destruct (transform_employees_total c departments rows g Hne Hfit) as (out & g' & Ht).
  exists departments, gd', rows, ge', out, g'.
  split; [exact Hd |]. split; [exact He |]. split; [exact Ht |].
  pose proof Ht as Ht'.
  apply transform_employees_unfold in Ht' as (repaired & adjusted & g1 & H1 & H2 & ->).
  pose proof (adjusted_from_raw _ _ _ _ _ _ _ _ H1 H2) as HF.
  assert (Hadj : map Employee.employee_id adjusted = seqZ 1 F_EMPLOYEES).
  { rewrite <- Hids. clear -HF. induction HF as [| r e rs es Hre HF IH]; [reflexivity |].
    simpl. rewrite IH. f_equal. tauto. }
  rewrite drop_duplicates_id in * by (rewrite Hadj; apply NoDup_seqZ).
  split; [exact Hadj |]. split; [| split; [| split; [| split]]].
  - assert (Hdeps : Forall (fun r => Employee.csv_department_id r ∈
                       (list_to_set (map Department.department_id departments) : gset Z))
                    rows).
    { eapply Forall_impl; [exact Hrows |]. intros r (Hdep & _).
      apply elem_of_list_to_set. rewrite Hdids.
      apply elem_of_seqZ. unfold F_DEPARTMENTS. lia. }
    revert Hdeps. clear -HF. induction HF as [| r e rs es Hre HF IH]; intros Hdeps;
      [reflexivity |].
    apply Forall_cons in Hdeps as [Hd Hdeps].
    simpl. rewrite IH by exact Hdeps. f_equal.
    destruct Hre as (_ & _ & _ & _ & _ & _ & Hkeep). now apply Hkeep.
  - clear -HF. induction HF as [| r e rs es Hre HF IH]; [reflexivity |].
    simpl. rewrite IH. f_equal. tauto.
  - eapply cleaned_salaries_in_band; [exact Ht |].
    intros r Hr. rewrite List.Forall_forall in Hrows.
    destruct (Hrows r Hr) as (_ & _ & (q & -> & _) & _). discriminate.
  - unfold Cleaning.clean_departments, transform_departments. rewrite !map_map. simpl.
    rewrite <- (map_map Department.department_name Text.strip), Hdnames. reflexivity.
  - unfold Cleaning.clean_departments, transform_departments.
    apply List.Forall_forall. intros d Hdin.
    apply in_map_iff in Hdin as (d1 & <- & Hd1).
    apply in_map_iff in Hd1 as (d0 & <- & Hd0). simpl.
    rewrite List.Forall_forall in Hdman. rewrite (Hdman d0 Hd0). reflexivity.
Qed.

End GeneratedEmployees.


(* ===================================================================== *)
(** * The salaries of the cleaned employee table                          *)
(* ===================================================================== *)

Section SalaryTable.

Import PyNum Transformer.

Local Open Scope Q_scope.

(** [adjust_salary] on each kind of salary value. *)
Lemma adjust_salary_cases (title : option string) (salary : Employee.csv_number)
    (g g' : Rng.rng) (x : pyfloat) :
  adjust_salary title salary g = Some (x, g') ->
  match salary with
  | Employee.Number NaN => x = NaN /\ g' = g
  | Employee.Number (Fin q) =>
      float_in (inject_Z (fst (salary_band title))) (inject_Z (snd (salary_band title))) x /\
      (inject_Z (fst (salary_band title)) <= q ->
       q <= inject_Z (snd (salary_band title)) ->
       x = Fin (py_round q 2) /\ g' = g)
  | Employee.Unparsable _ =>
      float_in (inject_Z (fst (salary_band title))) (inject_Z (snd (salary_band title))) x
  end.
Proof.
  intros H. destruct salary as [[q |] | text].
  - split; [apply (adjust_salary_in_band title (Employee.Number (Fin q)) g g' x);
             [discriminate | exact H] |].
    intros Hlo Hhi. unfold adjust_salary in H.
    destruct (salary_band title) as [lo hi]. cbn [fst snd] in Hlo, Hhi.
    unfold Rng.bind at 1 in H. unfold Rng.ret at 1 in H.
    assert (E : float_ltb (Fin q) (Fin (inject_Z lo)) || float_gtb (Fin q) (Fin (inject_Z hi))
                = false).
    { apply orb_false_iff. unfold float_gtb. split; apply float_ltb_false; assumption. }
    rewrite E in H. inversion H; subst. auto.
  - unfold adjust_salary in H. destruct (salary_band title) as [lo hi].
    unfold Rng.bind at 1 in H. unfold Rng.ret at 1 in H.
    change (float_ltb NaN (Fin (inject_Z lo)) || float_gtb NaN (Fin (inject_Z hi)))
      with false in H.
    inversion H; subst. auto.
  - apply (adjust_salary_in_band title (Employee.Unparsable text) g g' x);
      [discriminate | exact H].
Qed.

(** X26. The salary of every cleaned employee row, by the value of the
    salary field of the file row it comes from.  A number inside the band
    of the job title is kept, rounded to cents; any other number and any
    text that is not a number give a salary inside the band; an empty
    field, read as NaN, stays NaN and is the only way to a salary outside
    the band. *)
Theorem cleaned_salaries (c : clock) (departments : list Department.t)
    (rows : list Employee.csv) (g g' : Rng.rng) (out : list Employee.t) :
  transform_employees c departments rows g = Some (out, g') ->
  Forall (fun e =>
    exists r, In r rows /\
      Employee.employee_id e = Employee.csv_employee_id r /\
      Employee.job_title e = Employee.csv_job_title r /\
      match Employee.csv_salary r with
      | Employee.Number NaN => Employee.salary e = NaN
      | Employee.Number (Fin q) =>
          float_in (inject_Z (fst (salary_band (Employee.job_title e))))
                   (inject_Z (snd (salary_band (Employee.job_title e))))
                   (Employee.salary e) /\
          (inject_Z (fst (salary_band (Employee.job_title e))) <= q ->
           q <= inject_Z (snd (salary_band (Employee.job_title e))) ->
           Employee.salary e = Fin (py_round q 2))
      | Employee.Unparsable _ =>
          float_in (inject_Z (fst (salary_band (Employee.job_title e))))
                   (inject_Z (snd (salary_band (Employee.job_title e))))
                   (Employee.salary e)
      end) out.
Proof.
  intros H. apply transform_employees_unfold in H as (repaired & adjusted & g1 & H1 & H2 & ->).
  apply List.Forall_forall. intros e He. apply drop_duplicates_incl in He.
  destruct (mapM_In _ _ _ _ _ _ H2 He) as (r' & ga & gb & Hr' & Hpass).
  destruct (mapM_In _ _ _ _ _ _ H1 Hr') as (r & gc & gd & Hr & Hder).
  apply derive_employee_spec in Hder as (Hid & Htitle & Hsal & _).
  unfold salary_pass in Hpass.
  apply bind_Some in Hpass as (x & gf & Hx & Hpass). inversion Hpass; subst; clear Hpass.
  cbn [Employee.employee_id Employee.job_title Employee.salary].
  exists r. split; [exact Hr |]. split; [exact Hid |]. split; [exact Htitle |].
  apply adjust_salary_cases in Hx. rewrite Hsal in Hx.
  destruct (Employee.csv_salary r) as [[q |] | text].
  - destruct Hx as [Hband Hkeep]. split; [exact Hband |].
    intros Hlo Hhi. now destruct (Hkeep Hlo Hhi).
  - tauto.
  - exact Hx.
Qed.

Lemma cleaned_salaries_witness :
  transform_employees Samples.run_clock Samples.sample_departments Samples.raw_employees
    Samples.counting = Some (Samples.cleaned_employees, Samples.employees_rng) /\
  map Employee.salary Samples.cleaned_employees = [NaN; Fin (5000000 # 100)] /\
  Forall (fun e => exists r, In r Samples.raw_employees /\
                     Employee.employee_id e = Employee.csv_employee_id r)
         Samples.cleaned_employees.
Proof.
  split; [vm_compute; reflexivity |].
  split; [vm_compute; reflexivity |].
  pose proof (cleaned_salaries Samples.run_clock Samples.sample_departments
                Samples.raw_employees Samples.counting Samples.employees_rng
                Samples.cleaned_employees) as H.
  eapply Forall_impl; [apply H; vm_compute; reflexivity |].
  intros e (r & Hr & Hid & _). exists r. split; [exact Hr | exact Hid].
Defined.

End SalaryTable.


(* ===================================================================== *)
(** * [drop_duplicates(subset=[key])] as the transformer uses it          *)
(* ===================================================================== *)

Section DedupTheorem.

Import Transformer.

Context {T : Type}.

Lemma drop_duplicates_from_sublist (key : T -> Z) (seen : gset Z) (l : list T) :
  sublist (drop_duplicates_from key seen l) l.
Proof.
  revert seen. induction l as [| x xs IH]; intros seen; simpl; [constructor |].
  case_bool_decide.
  - apply sublist_cons. apply IH.
  - apply sublist_skip. apply IH.
Qed.

(** X27. [drop_duplicates] on a key keeps the first row of every key and
    nothing else: the result is the input with rows left out, in the same
    order; its keys are distinct; every key of the input is still there;
    a row that is kept has no earlier row with its key; rows whose keys are
    distinct are all kept, so that a second pass changes nothing. *)
Theorem drop_duplicates_keeps_first (key : T -> Z) (l : list T) :
  sublist (drop_duplicates key l) l /\
  NoDup (map key (drop_duplicates key l)) /\
  (forall x, In x l -> exists y, In y (drop_duplicates key l) /\ key y = key x) /\
  (forall x, In x (drop_duplicates key l) ->
     exists l1 l2, l = l1 ++ x :: l2 /\ ~ In (key x) (map key l1)) /\
  (NoDup (map key l) -> drop_duplicates key l = l) /\
  drop_duplicates key (drop_duplicates key l) = drop_duplicates key l.
Proof.
  split; [apply drop_duplicates_from_sublist |].
  split; [apply drop_duplicates_NoDup |].
  split; [intros x Hx; now apply drop_duplicates_complete |].
  split; [intros x Hx; now apply drop_duplicates_first |].
  split; [apply drop_duplicates_id |].
  apply drop_duplicates_id, drop_duplicates_NoDup.
Qed.

End DedupTheorem.


(* ===================================================================== *)
(** * The created schema: keys and references                             *)
(* ===================================================================== *)

Section SchemaKeys.

Import SchemaManager.

(** X28. In the schema that [create_transformed_tables] leaves, whatever
    the schema before, every one of the ten tables has its primary key as
    first column and no other, and every foreign key resolves: it names a
    column of its table, and a created table whose primary key is the
    column referenced, of the same SQL type. *)
Theorem foreign_keys_resolve (db : database) :
  exists db1,
    create_transformed_tables db = Some db1 /\
    forall n t, In (n, t) warehouse_tables ->
      (exists key rest,
         columns t = key :: rest /\ In PRIMARY_KEY (col_options key) /\
         Forall (fun c => ~ In PRIMARY_KEY (col_options c)) rest) /\
      Forall (fun fk =>
        exists target key rest,
          tables db1 !! fk_table fk = Some target /\
          columns target = key :: rest /\
          col_name key = fk_target fk /\ In PRIMARY_KEY (col_options key) /\
          Exists (fun c => col_name c = fk_column fk /\ col_type c = col_type key)
                 (columns t))
        (foreign_keys t).
Proof.
  exists (mk_database (rebuilt (tables db)) true).
  split; [apply create_transformed_tables_result |].
  pose proof (fun n t (H : In (n, t) warehouse_tables) =>
                lookup_rebuilt_created (tables db) n t H) as Hlook.
  intros n t Hin. pose proof Hin as Hin0.
  unfold warehouse_tables, create_statements in Hin. simpl in Hin.
  repeat (destruct Hin as [Heq | Hin];
    [ inversion Heq; subst; clear Heq; split;
      [ eexists _, _; split; [reflexivity |]; split; [simpl; auto |];
        repeat constructor; simpl; intros Hpk;
        repeat (destruct Hpk as [Hpk | Hpk]; [discriminate Hpk |]); destruct Hpk
      | cbn [foreign_keys];
        repeat (apply Forall_cons; split;
          [ eexists _, (pk _ _), _; cbn [tables fk_table fk_target fk_column];
            split; [apply Hlook; unfold warehouse_tables, create_statements; simpl;
                    repeat (first [left; reflexivity | right]) |];
            split; [reflexivity |]; split; [reflexivity |];
            split; [simpl; now left |];
            cbn [columns];
            repeat (first [apply Exists_cons_hd; split; reflexivity
                          | apply Exists_cons_tl])
          | ]);
        apply Forall_nil_2 ]
    | ]).
  destruct Hin.
Qed.

End SchemaKeys.


(* ===================================================================== *)
(** * Stripping and upper-casing: the cleaned text is stable              *)
(* ===================================================================== *)

Section StripFacts.

Import Text.

Lemma string_app_cons (c : ascii) (s t : string) :
  String c s +:+ t = String c (s +:+ t).
Proof. reflexivity. Qed.

Lemma string_app_nil_r (s : string) : s +:+ "" = s.
Proof.
  induction s as [| c s IH]; [reflexivity |]. now rewrite string_app_cons, IH.
Qed.

Lemma string_app_assoc (a b c : string) : (a +:+ b) +:+ c = a +:+ (b +:+ c).
Proof.
  induction a as [| x a IH]; [reflexivity |]. now rewrite !string_app_cons, IH.
Qed.

Lemma rev_app_spec (s1 s2 : string) : String.rev_app s1 s2 = String.rev s1 +:+ s2.
Proof.
  unfold String.rev. revert s2.
  induction s1 as [| a s1 IH]; intros s2; cbn [String.rev_app]; [reflexivity |].
  rewrite IH, (IH (String a "")), string_app_assoc. reflexivity.
Qed.

Lemma rev_cons (a : ascii) (s : string) :
  String.rev (String a s) = String.rev s +:+ String a "".
Proof. unfold String.rev at 1. cbn [String.rev_app]. apply rev_app_spec. Qed.

Lemma rev_app_distr (s1 s2 : string) :
  String.rev (s1 +:+ s2) = String.rev s2 +:+ String.rev s1.
Proof.
  induction s1 as [| a s1 IH].
  - change (String.rev "") with EmptyString. rewrite string_app_nil_r. reflexivity.
  - now rewrite string_app_cons, !rev_cons, IH, string_app_assoc.
Qed.

Lemma rev_involutive (s : string) : String.rev (String.rev s) = s.
Proof.
  induction s as [| a s IH]; [reflexivity |].
  rewrite rev_cons, rev_app_distr, IH. reflexivity.
Qed.

Lemma rev_empty (s : string) : String.rev s = EmptyString -> s = EmptyString.
Proof. intros H. rewrite <- (rev_involutive s), H. reflexivity. Qed.

Lemma lstrip_app (s t : string) :
  lstrip (s +:+ t) = if String.eqb (lstrip s) "" then lstrip t else lstrip s +:+ t.
Proof.
  induction s as [| c s IH]; [reflexivity |].
  rewrite string_app_cons. cbn [lstrip].
  destruct (is_space c); [exact IH | reflexivity].
Qed.

(** A stripped string is empty or starts with a character that is not
    white space. *)
Lemma lstrip_head (s : string) :
  lstrip s = EmptyString \/
  exists c t, lstrip s = String c t /\ is_space c = false.
Proof.
  induction s as [| c s IH]; [now left |].
  cbn [lstrip]. destruct (is_space c) eqn:E; [exact IH |]. right. eauto.
Qed.

Lemma lstrip_idempotent (s : string) : lstrip (lstrip s) = lstrip s.
Proof.
  destruct (lstrip_head s) as [-> | (c & t & -> & E)]; [reflexivity |].
  cbn [lstrip]. now rewrite E.
Qed.

Lemma rstrip_idempotent (s : string) : rstrip (rstrip s) = rstrip s.
Proof. unfold rstrip. now rewrite rev_involutive, lstrip_idempotent. Qed.

Lemma rstrip_cons (c : ascii) (s : string) :
  rstrip (String c s) =
  if String.eqb (rstrip s) "" then (if is_space c then EmptyString else String c "")
  else String c (rstrip s).
Proof.
  unfold rstrip. rewrite rev_cons, lstrip_app.
  destruct (String.eqb_spec (lstrip (String.rev s)) "") as [E | E].
  - rewrite E. cbn [lstrip]. destruct (is_space c); reflexivity.
  - destruct (String.eqb_spec (String.rev (lstrip (String.rev s))) "") as [E' | E'].
    + apply rev_empty in E'. contradiction.
    + rewrite rev_app_distr. reflexivity.
Qed.

Lemma lstrip_rstrip_lstrip (s : string) : lstrip (rstrip (lstrip s)) = rstrip (lstrip s).
Proof.
  destruct (lstrip_head s) as [-> | (c & t & -> & E)]; [reflexivity |].
  rewrite rstrip_cons. rewrite E.
  destruct (String.eqb (rstrip t) ""); cbn [lstrip]; now rewrite E.
Qed.

Lemma strip_idempotent (s : string) : strip (strip s) = strip s.
Proof. unfold strip. now rewrite lstrip_rstrip_lstrip, rstrip_idempotent. Qed.

Lemma upper_char_idempotent (c : ascii) : upper_char (upper_char c) = upper_char c.
Proof. destruct c as [[] [] [] [] [] [] [] []]; reflexivity. Qed.

Lemma is_space_upper_char (c : ascii) : is_space (upper_char c) = is_space c.
Proof. destruct c as [[] [] [] [] [] [] [] []]; reflexivity. Qed.

Lemma upper_idempotent (s : string) : upper (upper s) = upper s.
Proof.
  induction s as [| c s IH]; cbn [upper]; [reflexivity |].
  now rewrite upper_char_idempotent, IH.
Qed.

Lemma upper_app (a b : string) : upper (a +:+ b) = upper a +:+ upper b.
Proof.
  induction a as [| c a IH]; [reflexivity |].
  rewrite string_app_cons. cbn [upper]. now rewrite string_app_cons, IH.
Qed.

Lemma upper_rev (s : string) : upper (String.rev s) = String.rev (upper s).
Proof.
  induction s as [| c s IH]; [reflexivity |].
  cbn [upper]. rewrite !rev_cons, upper_app, IH. reflexivity.
Qed.

Lemma lstrip_upper (s : string) : lstrip (upper s) = upper (lstrip s).
Proof.
  induction s as [| c s IH]; [reflexivity |].
  cbn [upper lstrip]. rewrite is_space_upper_char.
  destruct (is_space c); [exact IH | reflexivity].
Qed.

Lemma strip_upper (s : string) : strip (upper s) = upper (strip s).
Proof.
  unfold strip, rstrip.
  now rewrite lstrip_upper, <- upper_rev, lstrip_upper, upper_rev.
Qed.

(** X29. The cleaned course code is stable: cleaning it again gives the
    same code, it has no white space at either end, and upper-casing
    leaves it as it is.  In the same way a stripped department name is
    left as it is by a second strip. *)
Theorem clean_course_code_idempotent (x : option string) :
  Cleaning.clean_course_code (Some (Cleaning.clean_course_code x))
    = Cleaning.clean_course_code x /\
  lstrip (Cleaning.clean_course_code x) = Cleaning.clean_course_code x /\
  rstrip (Cleaning.clean_course_code x) = Cleaning.clean_course_code x /\
  upper (Cleaning.clean_course_code x) = Cleaning.clean_course_code x /\
  forall d, Cleaning.strip_department_name (Cleaning.strip_department_name d)
            = Cleaning.strip_department_name d.
Proof.
  unfold Cleaning.clean_course_code, Cleaning.astype_str. cbn [default].
  set (s := default "nan"%string x). cbv [id].
  split; [| split; [| split; [| split]]].
  - rewrite (strip_upper (strip (upper s))), strip_idempotent, (strip_upper s).
    now rewrite upper_idempotent.
  - unfold strip. apply lstrip_rstrip_lstrip.
  - unfold strip. apply rstrip_idempotent.
  - rewrite (strip_upper s). now rewrite upper_idempotent.
  - intros d. unfold Cleaning.strip_department_name. simpl.
    now rewrite strip_idempotent.
Qed.

End StripFacts.


(* ===================================================================== *)
(** * gd.py: what the export of the collection writes                     *)
(* ===================================================================== *)

Section MongoExportFacts.

Import MongoExport.

Lemma In_remove_name (name k : string) (l : list string) :
  NoDup l -> In k (remove_name name l) <-> In k l /\ k <> name.
Proof.
  induction l as [| x xs IH]; intros Hnd; simpl; [tauto |].
  apply NoDup_cons in Hnd as [Hx Hnd].
  destruct (String.eqb_spec x name) as [-> | Hne].
  - split.
    + intros Hin. split; [now right |]. intros ->. apply Hx. now apply list_elem_of_In.
    + intros [[-> | Hin] Hk]; [congruence | exact Hin].
  - simpl. rewrite (IH Hnd). split.
    + intros [-> | [Hin Hk]]; [split; [now left | exact Hne] | split; [now right | exact Hk]].
    + intros [[-> | Hin] Hk]; [now left | right; split; assumption].
Qed.

Lemma In_keys_del (name k : string) (doc : document) :
  In k (keys (del name doc)) <-> In k (keys doc) /\ k <> name.
Proof.
  unfold keys, del. rewrite !in_map_iff. split.
  - intros ([k0 v] & <- & Hin). apply filter_In in Hin as [Hin Hne]. simpl in *.
    split; [exists (k0, v); auto |].
    destruct (String.eqb_spec k0 name); [discriminate | assumption].
  - intros [([k0 v] & <- & Hin) Hne]. exists (k0, v). split; [reflexivity |].
    apply filter_In. split; [exact Hin |]. simpl in *.
    destruct (String.eqb_spec k0 name); [contradiction | reflexivity].
Qed.

Lemma get_del (name k : string) (restval : Frame.cell) (doc : document) :
  k <> name -> get k restval (del name doc) = get k restval doc.
Proof.
  intros Hne. induction doc as [| [k0 v] rest IH]; [reflexivity |].
  unfold del in *. cbn [List.filter fst get].
  destruct (String.eqb_spec k0 name) as [-> | Hk0]; cbn [negb].
  - rewrite IH. destruct (String.eqb_spec name k); [congruence | reflexivity].
  - cbn [get]. now rewrite IH.
Qed.

Lemma writerow_spec (fieldnames : list string) (doc : document) :
  match writerow fieldnames doc with
  | Some row => (forall k, In k (keys doc) -> In k fieldnames) /\
                row = map (fun k => get k (Frame.CStr "") doc) fieldnames
  | None => exists k, In k (keys doc) /\ ~ In k fieldnames
  end.
Proof.
  unfold writerow.
  destruct (forallb (fun k => bool_decide (k ∈ fieldnames)) (keys doc)) eqn:E.
  - split; [| reflexivity]. rewrite forallb_forall in E. intros k Hk.
    apply E in Hk. apply bool_decide_eq_true in Hk. now apply list_elem_of_In.
  - assert (Hex : ~ forall k, In k (keys doc) -> bool_decide (k ∈ fieldnames) = true).
    { intros Hall. apply forallb_forall in Hall. congruence. }
    clear E. induction (keys doc) as [| k ks IH].
    + exfalso. apply Hex. intros k [].
    + destruct (bool_decide (k ∈ fieldnames)) eqn:Ek.
      * destruct IH as (k' & Hk' & Hn).
        { intros Hall. apply Hex. intros k0 [<- | Hk0]; [exact Ek | now apply Hall]. }
        exists k'. split; [now right | exact Hn].
      * exists k. split; [now left |]. apply bool_decide_eq_false in Ek.
        intros Hin. apply Ek. now apply list_elem_of_In.
Qed.

(** The loop writes the rows of the documents up to the first one with a
    field that is not a column. *)
Lemma write_rows_spec (fieldnames : list string) (docs : list document) :
  exists good,
    Forall2 (fun doc row => writerow fieldnames (del "_id" doc) = Some row)
            good (fst (write_rows fieldnames docs)) /\
    ((snd (write_rows fieldnames docs) = true /\ good = docs) \/
     (snd (write_rows fieldnames docs) = false /\
      exists bad rest, docs = good ++ bad :: rest /\
                       writerow fieldnames (del "_id" bad) = None)).
Proof.
  induction docs as [| doc rest IH].
  - exists []. split; [constructor | left; split; reflexivity].
  - cbn [write_rows].
    destruct (writerow fieldnames (del "_id" doc)) as [row |] eqn:Hrow.
    + destruct IH as (good & HF & Hcase).
      destruct (write_rows fieldnames rest) as [rows ok]. cbn [fst snd] in *.
      exists (doc :: good). split; [constructor; assumption |].
      destruct Hcase as [[-> ->] | [-> (bad & rest' & -> & Hbad)]].
      * left. split; reflexivity.
      * right. split; [reflexivity |]. exists bad, rest'. split; [reflexivity | exact Hbad].
    + exists []. split; [constructor |]. right. split; [reflexivity |].
      exists doc, rest. split; [reflexivity | exact Hrow].
Qed.

(** X30. The export of the departments collection.  With no document no
    file is written.  Otherwise the file is opened and gets as header the
    field names of the first document without [_id].  The script succeeds
    exactly when every field of every document, [_id] apart, is a field of
    the first document; the file then has one row per document, holding
    for every column the value of the field, or the empty text when the
    document lacks it.  Otherwise the script fails, and the file keeps the
    header and the rows of the documents before the first one with a
    foreign field. *)
Theorem mongo_export (first : document) (others : list document) :
  NoDup (keys first) ->
  export [] = mk_outcome None No_data /\
  exists rows,
    let header := remove_name "_id" (keys first) in
    let docs := first :: others in
    csv_file (export docs) = Some (header, rows) /\
    ~ In "_id"%string header /\
    (exit_status (export docs) = Exported <->
     forall doc k, In doc docs -> In k (keys doc) -> k = "_id"%string \/ In k (keys first)) /\
    (exit_status (export docs) = Exported ->
     Forall2 (fun doc row => row = map (fun k => get k (Frame.CStr "") doc) header)
             docs rows) /\
    (exit_status (export docs) <> Exported ->
     exit_status (export docs) = Failed /\
     exists good bad rest,
       docs = good ++ bad :: rest /\
       Forall2 (fun doc row => row = map (fun k => get k (Frame.CStr "") doc) header)
               good rows /\
       exists k, In k (keys bad) /\ k <> "_id"%string /\ ~ In k (keys first)).
Proof.
  intros Hnd. split; [reflexivity |].
  set (header := remove_name "_id" (keys first)).
  set (docs := first :: others).
  assert (Hheader : forall k, In k header <-> In k (keys first) /\ k <> "_id"%string).
  { intros k. unfold header. now apply In_remove_name. }
  assert (Hno : ~ In "_id"%string header).
  { intros Hin. apply Hheader in Hin as [_ Hne]. congruence. }
  assert (Hrow : forall doc row, writerow header (del "_id" doc) = Some row ->
             (forall k, In k (keys doc) -> k = "_id"%string \/ In k (keys first)) /\
             row = map (fun k => get k (Frame.CStr "") doc) header).
  { intros doc row H. pose proof (writerow_spec header (del "_id" doc)) as Hs.
    rewrite H in Hs. destruct Hs as [Hall ->]. split.
    - intros k Hk. destruct (String.eqb_spec k "_id") as [-> | Hne]; [now left |].
      right. apply Hheader, Hall, In_keys_del. split; assumption.
    - apply map_ext_in. intros k Hk. apply get_del. intros ->. contradiction. }
  assert (Hbad : forall doc, writerow header (del "_id" doc) = None ->
             exists k, In k (keys doc) /\ k <> "_id"%string /\ ~ In k (keys first)).
  { intros doc H. pose proof (writerow_spec header (del "_id" doc)) as Hs.
    rewrite H in Hs. destruct Hs as (k & Hk & Hn).
    apply In_keys_del in Hk as [Hk Hne]. exists k. split; [exact Hk |].
    split; [exact Hne |]. intros Hin. apply Hn, Hheader. split; assumption. }
  destruct (write_rows_spec header docs) as (good & HF & Hcase).
  assert (Hexp : export docs
                 = mk_outcome (Some (header, fst (write_rows header docs)))
                     (if snd (write_rows header docs) then Exported else Failed)).
  { unfold export, docs. fold header. fold docs.
    destruct (write_rows header docs) as [rows ok]. reflexivity. }
  exists (fst (write_rows header docs)). cbv zeta. rewrite Hexp. cbn [csv_file exit_status].
  split; [reflexivity |]. split; [exact Hno |].
  assert (HF' : Forall2 (fun doc row =>
                   row = map (fun k => get k (Frame.CStr "") doc) header)
                 good (fst (write_rows header docs))).
  { eapply Forall2_impl; [exact HF |]. intros doc row H. now apply Hrow in H. }
  destruct Hcase as [[Hok ->] | [Hok (bad & rest & Hdocs & Hnone)]]; rewrite Hok.
  - split; [| split].
    + split; [| reflexivity]. intros _ doc k Hdoc Hk.
      destruct (Forall2_In_l _ _ _ _ HF Hdoc) as (row & _ & Hr).
      apply Hrow in Hr as [Hall _]. now apply Hall.
    + intros _. exact HF'.
    + intros H. congruence.
  - destruct (Hbad bad Hnone) as (k & Hk & Hne & Hnin).
    split; [| split].
    + split; [discriminate |]. intros Hall. exfalso.
      destruct (Hall bad k) as [-> | Hin]; [| exact Hk | congruence | contradiction].
      rewrite Hdocs. apply in_or_app. right. now left.
    + discriminate.
    + intros _. split; [reflexivity |].
      exists good, bad, rest. split; [exact Hdocs |]. split; [exact HF' |].
      exists k. auto.
Qed.

Lemma mongo_export_witness :
  NoDup (keys Samples.first_document) /\
  export [Samples.first_document; Samples.second_document; Samples.third_document]
    = mk_outcome
        (Some (["department_id"; "department_name"]%string,
               [[Frame.CInt 1; Frame.CStr "Computer Science"]; [Frame.CInt 2; Frame.CStr ""]]))
        Failed /\
  export [] = mk_outcome None No_data.
Proof.
  split; [compute_done |]. split; [vm_compute; reflexivity |].
  apply (mongo_export Samples.first_document
           [Samples.second_document; Samples.third_document]).
  compute_done.
Defined.

End MongoExportFacts.
